(** * Agentic-ORM: the dashboard, its API service and the provisioned
    infrastructure, embedded in Rocq.

  The TypeScript of the dashboard ([types], the [ApiService], the
  single-file [App], the [MetricsGrid], [RecentComments] and
  [ActivityFeed] components) is translated to definitions over records
  and inductive types; the Terraform resources ([main.tf]) and the
  deployment script's queue trigger are translated to records holding
  the configured values.  The Lambda code of the pipeline is not among
  the sources: the parts of it that statements below need (the Action
  Router, the Classifier's validation and the handling of one message
  up to the Escalation Executor) are modelled from the specification
  and marked as such. *)

From Stdlib Require Import ZArith QArith Qround Qabs String Ascii List Bool Lia.
From Stdlib Require Import DecimalString.
From Stdlib Require Import Floats.PrimFloat Floats.FloatOps Floats.SpecFloat.
Import ListNotations.

Set Warnings "-inexact-float".

Local Open Scope string_scope.
Local Open Scope Z_scope.

(* ===================================================================== *)
(** ** Dashboard types (the [types] module of the dashboard)              *)
(* ===================================================================== *)

Module Types.

Inductive ClientStatus := active | inactive.
Inductive Plan := basic | pro | enterprise.

Record Client := {
  id : string;
  name : string;
  status : ClientStatus;
  plan : Plan
}.

Inductive Platform := instagram | facebook | facebook_ads.
Inductive CommentStatus := pending | classified | processed.
Inductive Sentiment := positive | negative | neutral.
Inductive Urgency := low | medium | high.
Inductive Intent := question | complaint | compliment | spam | general.
Inductive SuggestedAction := reply | hide | escalate | ignore.
Inductive ActionTaken := replied | hidden | escalated | ignored.

(** [toxicity_score] and [confidence] are TypeScript [number]s; every
    value the sources give them is an integer literal. *)
Record Classification := {
  sentiment : Sentiment;
  urgency : Urgency;
  intent : Intent;
  toxicity_score : Z;
  confidence : Z;
  requires_response : bool;
  suggested_action : SuggestedAction
}.

(** Optional members ([classification?], [action_taken?], ...) are
    [option]s: [None] is the absent property. *)
Record Comment := {
  comment_id : string;
  client_id : string;
  platform : Platform;
  text : string;
  author_name : string;
  author_id : string;
  created_time : string;
  like_count : Z;
  comment_status : CommentStatus;
  classification : option Classification;
  action_taken : option ActionTaken;
  reply_sent : option bool;
  is_hidden : option bool;
  is_escalated : option bool
}.

(** Every member is a TypeScript [number]: a double.  The components
    divide and multiply these members, so they are kept as the doubles
    they are. *)
Record DashboardMetrics := {
  total_comments : float;
  positive_comments : float;
  negative_comments : float;
  neutral_comments : float;
  auto_replied : float;
  hidden_comments : float;
  escalated_comments : float;
  processing_time_avg : float;
  response_rate : float;
  automation_rate : float
}.

(** The union type of [ActivityLog.action_type]. *)
Inductive ActionType :=
  reply_sent_t | comment_hidden_t | comment_escalated_t
| classification_completed_t.

Record Details := {
  d_message : option string;
  d_reason : option string;
  d_confidence : option Z
}.

Record ActivityLog := {
  log_id : string;
  timestamp : string;
  action_type : ActionType;
  log_comment_id : string;
  details : Details
}.

Inductive ResponseStatus := success | error.

Record ApiResponse (T : Type) := {
  resp_status : ResponseStatus;
  data : option T;
  message : option string;
  errors : option (list string)
}.
Arguments resp_status {T} _.
Arguments data {T} _.
Arguments message {T} _.
Arguments errors {T} _.

(** The string literals the union types are made of. *)
Definition action_type_name (a : ActionType) : string :=
  match a with
  | reply_sent_t => "reply_sent"
  | comment_hidden_t => "comment_hidden"
  | comment_escalated_t => "comment_escalated"
  | classification_completed_t => "classification_completed"
  end.

Definition all_action_types : list ActionType :=
  [reply_sent_t; comment_hidden_t; comment_escalated_t;
   classification_completed_t].

(** Membership of a string in the union type [ActivityLog.action_type]. *)
Definition action_type_of_string (s : string) : option ActionType :=
  find (fun a => String.eqb (action_type_name a) s) all_action_types.

Definition comment_status_name (s : CommentStatus) : string :=
  match s with
  | pending => "pending" | classified => "classified"
  | processed => "processed"
  end.

Definition all_comment_statuses : list CommentStatus :=
  [pending; classified; processed].

Definition comment_status_of_string (s : string) : option CommentStatus :=
  find (fun a => String.eqb (comment_status_name a) s) all_comment_statuses.

Definition action_taken_name (a : ActionTaken) : string :=
  match a with
  | replied => "replied" | hidden => "hidden"
  | escalated => "escalated" | ignored => "ignored"
  end.

Definition all_actions_taken : list ActionTaken :=
  [replied; hidden; escalated; ignored].

Definition action_taken_of_string (s : string) : option ActionTaken :=
  find (fun a => String.eqb (action_taken_name a) s) all_actions_taken.

Definition sentiment_eqb (a b : Sentiment) : bool :=
  match a, b with
  | positive, positive | negative, negative | neutral, neutral => true
  | _, _ => false
  end.

Definition urgency_eqb (a b : Urgency) : bool :=
  match a, b with
  | low, low | medium, medium | high, high => true
  | _, _ => false
  end.

End Types.

(* ===================================================================== *)
(** ** The JavaScript primitives the dashboard code relies on             *)
(* ===================================================================== *)

Module Js.

(** What a [throw] or a rejected promise carries: an [Error] object with
    its message, or some other value ([error instanceof Error] is false). *)
Inductive Thrown := ErrorObject (msg : string) | OtherValue.

Inductive Promise (T : Type) := Resolved (v : T) | Rejected (e : Thrown).
Arguments Resolved {T} v.
Arguments Rejected {T} e.

(** [`${n}`] for an integral number. *)
Definition number_to_string (n : Z) : string :=
  NilZero.string_of_int (Z.to_int n).

(** [m || d] on an optional string: [undefined] and the empty string are
    falsy. *)
Definition or_string (m : option string) (d : string) : string :=
  match m with
  | Some s => if String.eqb s EmptyString then d else s
  | None => d
  end.

(** [xs.slice(0, limit)]: a negative [limit] counts from the end. *)
Definition slice0 {A : Type} (xs : list A) (limit : Z) : list A :=
  let len := Z.of_nat (List.length xs) in
  let stop := if limit <? 0 then Z.max (len + limit) 0 else Z.min limit len in
  firstn (Z.to_nat stop) xs.

(** *** Strings

    A JavaScript string is a sequence of UTF-16 code units, and
    [length], [substring] and [slice] count and cut code units.  A
    [string] of this development holds a text in UTF-8, as the source
    files do; [utf16] gives the code units of that text: one for a code
    point below U+10000, a surrogate pair above.  (A byte that does not
    start a UTF-8 sequence, which no text has, gives U+FFFD.) *)
Definition JsString : Type := list N.

Definition continuation (c : ascii) : N := N.land (N_of_ascii c) 63.

Definition code_units (cp : N) : JsString :=
  if (cp <? 65536)%N then [cp]
  else let v := (cp - 65536)%N in
       [(55296 + v / 1024)%N; (56320 + v mod 1024)%N].

Fixpoint utf16 (s : string) : JsString :=
  match s with
  | EmptyString => []
  | String c0 r0 =>
      let b0 := N_of_ascii c0 in
      if (b0 <? 128)%N then b0 :: utf16 r0
      else if (192 <=? b0)%N && (b0 <? 224)%N then
        match r0 with
        | String c1 r1 =>
            (N.land b0 31 * 64 + continuation c1)%N :: utf16 r1
        | EmptyString => [65533%N]
        end
      else if (224 <=? b0)%N && (b0 <? 240)%N then
        match r0 with
        | String c1 (String c2 r2) =>
            (N.land b0 15 * 4096 + continuation c1 * 64 + continuation c2)%N
              :: utf16 r2
        | _ => [65533%N]
        end
      else if (240 <=? b0)%N && (b0 <? 248)%N then
        match r0 with
        | String c1 (String c2 (String c3 r3)) =>
            (code_units (N.land b0 7 * 262144 + continuation c1 * 4096
                         + continuation c2 * 64 + continuation c3)%N
             ++ utf16 r3)%list
        | _ => [65533%N]
        end
      else 65533%N :: utf16 r0
  end.

(** [s.substring(0, n)] for a literal [n]. *)
Definition substring0 (n : nat) (s : JsString) : JsString := firstn n s.

(** [s.slice(-n)] for a literal [n]: the last [n] code units, all of
    [s] when it has fewer. *)
Definition slice_last (n : nat) (s : JsString) : JsString :=
  skipn (List.length s - n) s.

(** *** Numbers

    A JavaScript number is a double: IEEE 754 binary64, the kernel's
    [float].  What follows prints one: [Number::toString] (the shortest
    decimal that reads back as the number) and [toFixed(1)], both
    computed on the number's exact value [m * 2 ^ e]. *)

Definition digits_of (n : Z) : string := NilZero.string_of_int (Z.to_int n).

Fixpoint zeros (k : nat) : string :=
  match k with O => EmptyString | S k' => String "0"%char (zeros k') end.

Definition scaled (m e : Z) : Q := (inject_Z m * Qpower 2 e)%Q.

Definition Qlt_bool (a b : Q) : bool := negb (Qle_bool b a).

(** The [n] with [10 ^ (n - 1) <= v < 10 ^ n], searched from a first
    guess. *)
Fixpoint magnitude (fuel : nat) (v : Q) (n : Z) : Z :=
  match fuel with
  | O => n
  | S fuel' =>
      if Qle_bool (Qpower 10 n) v then magnitude fuel' v (n + 1)
      else if Qle_bool (Qpower 10 (n - 1)) v then n
      else magnitude fuel' v (n - 1)
  end.

(** [d] reads back as the number whose neighbours are halfway at [lo]
    and [hi]: the ends count when the mantissa is even. *)
Definition reads_back (even : bool) (lo hi d : Q) : bool :=
  if even then Qle_bool lo d && Qle_bool d hi
  else Qlt_bool lo d && Qlt_bool d hi.

Definition closer (v : Q) (a b : Z * Q) : Z * Q :=
  let da := Qabs (snd a - v)%Q in
  let db := Qabs (snd b - v)%Q in
  if Qlt_bool da db then a
  else if Qlt_bool db da then b
  else if Z.even (fst a) then a else b.

(** The [k]-digit decimals next to [v], if one of them reads back. *)
Definition with_digits (even : bool) (lo hi v : Q) (n k : Z)
  : option (Z * Z) :=
  let p := n - k in
  let s0 := Qfloor (v / Qpower 10 p)%Q in
  let c0 := (s0, (inject_Z s0 * Qpower 10 p)%Q) in
  let c1 := (s0 + 1, (inject_Z (s0 + 1) * Qpower 10 p)%Q) in
  let pick :=
    match reads_back even lo hi (snd c0), reads_back even lo hi (snd c1) with
    | true, true => Some (fst (closer v c0 c1))
    | true, false => Some (fst c0)
    | false, true => Some (fst c1)
    | false, false => None
    end in
  match pick with
  | Some s => if s =? 10 ^ k then Some (10 ^ (k - 1), n + 1) else Some (s, n)
  | None => None
  end.

(** The digits [s], their number [k] and the exponent [n] of
    [Number::toString]: [k] as small as possible (17 digits always
    do). *)
Fixpoint shortest_from (fuel : nat) (even : bool) (lo hi v : Q) (n k : Z)
  : Z * Z * Z :=
  match fuel with
  | O => (0, n, k)
  | S fuel' =>
      match with_digits even lo hi v n k with
      | Some (s, n') => (s, n', k)
      | None => shortest_from fuel' even lo hi v n (k + 1)
      end
  end.

Definition shortest (m e : Z) : Z * Z * Z :=
  let v := scaled m e in
  let hi := scaled (2 * m + 1) (e - 1) in
  let lo := if (m =? 2 ^ 52) && (-1074 <? e)
            then scaled (4 * m - 1) (e - 2)
            else scaled (2 * m - 1) (e - 1) in
  let n0 := magnitude 700 v ((Z.log2 m + e) * 30103 / 100000) in
  shortest_from 18 (Z.even m) lo hi v n0 1.

Definition positive_toString (m e : Z) : string :=
  let '(s, n, k) := shortest m e in
  let ds := digits_of s in
  if (k <=? n) && (n <=? 21) then ds ++ zeros (Z.to_nat (n - k))
  else if (0 <? n) && (n <=? 21)
  then substring 0 (Z.to_nat n) ds ++ "."
         ++ substring (Z.to_nat n) (Z.to_nat (k - n)) ds
  else if (-6 <? n) && (n <=? 0)
  then "0." ++ zeros (Z.to_nat (- n)) ++ ds
  else
    let ex := n - 1 in
    let sign := if ex <? 0 then "-" else "+" in
    if k =? 1 then ds ++ "e" ++ sign ++ digits_of (Z.abs ex)
    else substring 0 1 ds ++ "." ++ substring 1 (Z.to_nat (k - 1)) ds
           ++ "e" ++ sign ++ digits_of (Z.abs ex).

(** [String(x)]. *)
Definition Number_toString (x : float) : string :=
  match Prim2SF x with
  | S754_nan => "NaN"
  | S754_zero _ => "0"
  | S754_infinity s => if s then "-Infinity" else "Infinity"
  | S754_finite s m e =>
      (if s then "-" else EmptyString) ++ positive_toString (Zpos m) e
  end.

(** [x.toFixed(1)]: the tenth nearest to [x], the larger of two equally
    near; [Number::toString] for a number that is not finite or is
    [1e21] or more. *)
Definition toFixed1 (x : float) : string :=
  match Prim2SF x with
  | S754_nan => "NaN"
  | S754_zero _ => "0.0"
  | S754_infinity s => if s then "-Infinity" else "Infinity"
  | S754_finite s m e =>
      let v := scaled (Zpos m) e in
      (if s then "-" else EmptyString)
        ++ (if Qle_bool (Qpower 10 21) v then positive_toString (Zpos m) e
            else
              let n := Qfloor (v * 10 + (1 # 2))%Q in
              let ds := digits_of n in
              let ds := if (String.length ds <? 2)%nat then "0" ++ ds else ds in
              let k := String.length ds in
              substring 0 (k - 1) ds ++ "." ++ substring (k - 1) 1 ds)
  end.

(** *** Parsed JSON

    What [response.json()] resolves to when nothing declares its type. *)
#[warnings="-register-all"]
Inductive Json :=
  JNull
| JBool (b : bool)
| JNumber (x : float)
| JString (s : string)
| JArray (items : list Json)
| JObject (members : list (string * Json)).

(** Reading a property of a parsed value. *)
Inductive Read := Throws | Undefined | Found (v : Json).

(** [v.k] for a name [k] that no prototype defines ([data],
    [comments]): a [TypeError] on [null], the member of an object (the
    last one of that name), [undefined] otherwise. *)
Definition member (k : string) (v : Json) : Read :=
  match v with
  | JNull => Throws
  | JObject ms =>
      match find (fun kv => String.eqb (fst kv) k) (rev ms) with
      | Some kv => Found (snd kv)
      | None => Undefined
      end
  | _ => Undefined
  end.

(** [ToBoolean]: what [||] tests. *)
Definition ToBoolean (v : Json) : bool :=
  match v with
  | JNull => false
  | JBool b => b
  | JNumber x => negb (is_zero x || is_nan x)
  | JString s => negb (String.eqb s EmptyString)
  | JArray _ | JObject _ => true
  end.

(** A value held by a component: one the component built itself, at its
    declared type, or one parsed from a response body. *)
Inductive Value (T : Type) := Own (v : T) | Parsed (j : Json).
Arguments Own {T} v.
Arguments Parsed {T} j.

(** The second argument of [fetch]. *)
Record RequestInit := {
  method : option string;
  headers : option (list (string * string));
  body : option string
}.

(** One call of [fetch]: [fetch(url)] has no init. *)
Record Request := {
  url : string;
  init : option RequestInit
}.

(** The HTTP method a [fetch] call uses: [GET] unless the init names one. *)
Definition effective_method (r : Request) : string :=
  match init r with
  | Some i => match method i with Some m => m | None => "GET" end
  | None => "GET"
  end.

Definition request_body (r : Request) : option string :=
  match init r with
  | Some i => body i
  | None => None
  end.

(** A [Response]: [json()] resolves to the parsed body or rejects (the
    body is not JSON).  [B] is the type the caller reads the body at. *)
Record Response (B : Type) := {
  ok : bool;
  http_status : Z;
  json : Promise B
}.
Arguments ok {B} _.
Arguments http_status {B} _.
Arguments json {B} _.

(** What an asynchronous function did: the requests it issued, what it
    wrote with [console.error], and how its promise settled. *)
Record Outcome (T : Type) := {
  issued : list Request;
  logged : list string;
  settled : Promise T
}.
Arguments issued {T} _.
Arguments logged {T} _.
Arguments settled {T} _.

Definition pure {T : Type} (v : T) : Outcome T :=
  {| issued := []; logged := []; settled := Resolved v |}.

End Js.

(* ===================================================================== *)
(** ** The API service (the [services/api] module of the dashboard)       *)
(* ===================================================================== *)

Module Api.
Import Types Js.

Definition API_BASE_URL (PROD : bool) : string :=
  if PROD
  then "https://your-api-gateway-url.execute-api.ap-south-1.amazonaws.com/dev"
  else "http://localhost:3001".

Definition USE_MOCK_DATA (PROD : bool) : bool := negb PROD.

Record ApiService := {
  baseUrl : string;
  useMock : bool
}.

(** [new ApiService()] under [import.meta.env.PROD]. *)
Definition apiService (PROD : bool) : ApiService :=
  {| baseUrl := API_BASE_URL PROD; useMock := USE_MOCK_DATA PROD |}.

(** [Partial<FilterOptions>]: only [dateRange] is read. *)
Record FilterOptions := {
  dateRange : option (string * string);
  platforms : option (list Platform);
  f_sentiment : option (list Sentiment);
  f_status : option (list CommentStatus);
  f_urgency : option (list Urgency)
}.

(** The init [apiCall] builds: [{ headers: { 'Content-Type': ..., ...options?.headers }, ...options }].
    The spread of [options] comes last, so a [headers] member of
    [options] replaces the merged headers. *)
Definition merged_headers (options : option RequestInit)
  : list (string * string) :=
  ("Content-Type", "application/json")
    :: match options with
       | Some o => match headers o with Some h => h | None => [] end
       | None => []
       end.

Definition build_init (options : option RequestInit) : RequestInit :=
  match options with
  | None =>
      {| method := None; headers := Some (merged_headers None); body := None |}
  | Some o =>
      {| method := method o;
         headers := match headers o with
                    | Some h => Some h
                    | None => Some (merged_headers options)
                    end;
         body := body o |}
  end.

Definition error_response {T : Type} (e : Thrown) : ApiResponse T :=
  {| resp_status := error;
     data := None;
     message := Some (match e with
                      | ErrorObject m => m
                      | OtherValue => "Unknown error occurred"
                      end);
     errors := None |}.

Section WithNetwork.

(** The network: how [fetch] settles for a request, the body read at the
    type [ApiResponse<T>] that [apiCall<T>] declares for it
    ([response.json()] is untyped and returned as it is). *)
Variable net : forall T : Type, Request -> Promise (Response (ApiResponse T)).

(** [URLSearchParams]' percent-encoding of one value. *)
Variable form_urlencode : string -> string.

(** [new Date().toISOString()]. *)
Variable now_iso : string.

Definition caught {T : Type} (endpoint : string) (req : Request) (e : Thrown)
  : Outcome (ApiResponse T) :=
  {| issued := [req];
     logged := ["API call failed for " ++ endpoint ++ ":"];
     settled := Resolved (error_response e) |}.

Definition apiCall {T : Type} (self : ApiService) (endpoint : string)
    (options : option RequestInit) : Outcome (ApiResponse T) :=
  let req := {| url := baseUrl self ++ endpoint;
                init := Some (build_init options) |} in
  match net T req with
  | Rejected e => caught endpoint req e
  | Resolved response =>
      match json response with
      | Rejected e => caught endpoint req e
      | Resolved data =>
          if negb (ok response)
          then caught endpoint req
                 (ErrorObject
                    (or_string (message data)
                       ("HTTP error! status: "
                          ++ number_to_string (http_status response))))
          else {| issued := [req]; logged := []; settled := Resolved data |}
      end
  end.

Definition getMockClients : Outcome (ApiResponse (list Client)) :=
  pure {| resp_status := success;
          data := Some
            [ {| id := "demo_client_001"; name := "Annus Mirabilis";
                 status := active; plan := pro |};
              {| id := "client_002"; name := "Demo Client 2";
                 status := active; plan := basic |};
              {| id := "client_003"; name := "Enterprise Demo";
                 status := inactive; plan := enterprise |} ];
          message := None; errors := None |}.

Definition baseMetrics : DashboardMetrics :=
  {| total_comments := 1247; positive_comments := 789;
     negative_comments := 156; neutral_comments := 302;
     auto_replied := 445; hidden_comments := 23; escalated_comments := 12;
     processing_time_avg := 2.3;
     response_rate := 89.2;
     automation_rate := 95.1 |}%float.

Definition getMockDashboardMetrics (clientId : string)
  : Outcome (ApiResponse DashboardMetrics) :=
  pure {| resp_status := success; data := Some baseMetrics;
          message := None; errors := None |}.

Definition mockComments (clientId : string) : list Comment :=
  [ {| comment_id := "comment_001"; client_id := clientId;
       platform := instagram;
       text := "Love this product! Amazing quality and fast shipping. Highly recommend! 😍";
       author_name := "Sarah Johnson"; author_id := "user_001";
       created_time := "2025-06-02T10:30:00Z"; like_count := 5;
       comment_status := processed;
       classification := Some
         {| sentiment := positive; urgency := low; intent := compliment;
            toxicity_score := 0; confidence := 95;
            requires_response := true; suggested_action := reply |};
       action_taken := Some replied; reply_sent := Some true;
       is_hidden := None; is_escalated := None |};
    {| comment_id := "comment_002"; client_id := clientId;
       platform := instagram;
       text := "Hi, I have a question about the return policy. How long do I have to return an item?";
       author_name := "Mike Chen"; author_id := "user_002";
       created_time := "2025-06-02T09:15:00Z"; like_count := 0;
       comment_status := processed;
       classification := Some
         {| sentiment := neutral; urgency := medium; intent := question;
            toxicity_score := 0; confidence := 88;
            requires_response := true; suggested_action := reply |};
       action_taken := Some replied; reply_sent := Some true;
       is_hidden := None; is_escalated := None |};
    {| comment_id := "comment_003"; client_id := clientId;
       platform := facebook;
       text := "This is the worst product I have ever bought. Complete waste of money! Never buying again.";
       author_name := "John Smith"; author_id := "user_003";
       created_time := "2025-06-02T08:45:00Z"; like_count := 0;
       comment_status := processed;
       classification := Some
         {| sentiment := negative; urgency := high; intent := complaint;
            toxicity_score := 6; confidence := 92;
            requires_response := true; suggested_action := escalate |};
       action_taken := Some escalated; reply_sent := None;
       is_hidden := None; is_escalated := Some true |};
    {| comment_id := "comment_004"; client_id := clientId;
       platform := instagram;
       text := "Spam spam spam buy my product click here now!!! 🚫🚫🚫";
       author_name := "SpamBot123"; author_id := "spam_001";
       created_time := "2025-06-02T07:30:00Z"; like_count := 0;
       comment_status := processed;
       classification := Some
         {| sentiment := negative; urgency := low; intent := spam;
            toxicity_score := 8; confidence := 99;
            requires_response := false; suggested_action := hide |};
       action_taken := Some hidden; reply_sent := None;
       is_hidden := Some true; is_escalated := None |};
    {| comment_id := "comment_005"; client_id := clientId;
       platform := facebook_ads;
       text := "When will my order ship? I ordered 3 days ago and still no tracking info.";
       author_name := "Lisa Wilson"; author_id := "user_005";
       created_time := "2025-06-02T06:20:00Z"; like_count := 2;
       comment_status := classified;
       classification := Some
         {| sentiment := neutral; urgency := medium; intent := question;
            toxicity_score := 1; confidence := 85;
            requires_response := true; suggested_action := reply |};
       action_taken := None; reply_sent := None;
       is_hidden := None; is_escalated := None |} ].

Definition getMockRecentComments (clientId : string) (limit : Z)
  : Outcome (ApiResponse (list Comment)) :=
  pure {| resp_status := success;
          data := Some (slice0 (mockComments clientId) limit);
          message := None; errors := None |}.

Definition mockActivity : list ActivityLog :=
  [ {| log_id := "activity_001"; timestamp := "2025-06-02T10:35:00Z";
       action_type := reply_sent_t; log_comment_id := "comment_001";
       details :=
         {| d_message := Some "Thank you so much for the kind words! We're thrilled you had a great experience. 🎉";
            d_reason := None; d_confidence := Some 95 |} |};
    {| log_id := "activity_002"; timestamp := "2025-06-02T09:20:00Z";
       action_type := reply_sent_t; log_comment_id := "comment_002";
       details :=
         {| d_message := Some "Hi Mike! You have 30 days to return any item from the purchase date. Check your email for our full return policy. 😊";
            d_reason := None; d_confidence := Some 88 |} |};
    {| log_id := "activity_003"; timestamp := "2025-06-02T08:50:00Z";
       action_type := comment_escalated_t; log_comment_id := "comment_003";
       details :=
         {| d_message := None;
            d_reason := Some "High urgency negative sentiment detected";
            d_confidence := Some 92 |} |};
    {| log_id := "activity_004"; timestamp := "2025-06-02T07:35:00Z";
       action_type := comment_hidden_t; log_comment_id := "comment_004";
       details :=
         {| d_message := None;
            d_reason := Some "High toxicity score (8/10) - Spam content detected";
            d_confidence := Some 99 |} |};
    {| log_id := "activity_005"; timestamp := "2025-06-02T06:25:00Z";
       action_type := classification_completed_t;
       log_comment_id := "comment_005";
       details :=
         {| d_message := None; d_reason := None; d_confidence := Some 85 |} |} ].

Definition getMockActivityLog (clientId : string) (limit : Z)
  : Outcome (ApiResponse (list ActivityLog)) :=
  pure {| resp_status := success;
          data := Some (slice0 mockActivity limit);
          message := None; errors := None |}.

(** The public methods. *)

Definition getClients (self : ApiService)
  : Outcome (ApiResponse (list Client)) :=
  if useMock self then getMockClients
  else apiCall self "/clients" None.

(** [params.toString()] after the two optional [append]s. *)
Definition metrics_query (filters : option FilterOptions) : string :=
  match filters with
  | Some f =>
      match dateRange f with
      | Some (start_, end_) =>
          "start_date=" ++ form_urlencode start_
            ++ "&end_date=" ++ form_urlencode end_
      | None => EmptyString
      end
  | None => EmptyString
  end.

Definition getDashboardMetrics (self : ApiService) (clientId : string)
    (filters : option FilterOptions) : Outcome (ApiResponse DashboardMetrics) :=
  if useMock self then getMockDashboardMetrics clientId
  else apiCall self ("/metrics/" ++ clientId ++ "?" ++ metrics_query filters)
         None.

(** [limit] defaults to 50. *)
Definition getRecentComments (self : ApiService) (clientId : string)
    (limit : option Z) : Outcome (ApiResponse (list Comment)) :=
  let limit := match limit with Some l => l | None => 50 end in
  if useMock self then getMockRecentComments clientId limit
  else apiCall self
         ("/comments/recent/" ++ clientId ++ "?limit=" ++ number_to_string limit)
         None.

(** [limit] defaults to 20. *)
Definition getActivityLog (self : ApiService) (clientId : string)
    (limit : option Z) : Outcome (ApiResponse (list ActivityLog)) :=
  let limit := match limit with Some l => l | None => 20 end in
  if useMock self then getMockActivityLog clientId limit
  else apiCall self
         ("/activity/" ++ clientId ++ "?limit=" ++ number_to_string limit)
         None.

(** The body of [GET /health]: [{ status: string; timestamp: string }]. *)
Record Health := {
  h_status : string;
  h_timestamp : string
}.

Definition healthCheck (self : ApiService) : Outcome (ApiResponse Health) :=
  if useMock self
  then pure {| resp_status := success;
               data := Some {| h_status := "healthy"; h_timestamp := now_iso |};
               message := None; errors := None |}
  else apiCall self "/health" None.

End WithNetwork.

(** The request [apiCall] sends for an endpoint. *)
Definition request_of (self : ApiService) (endpoint : string)
    (options : option RequestInit) : Request :=
  {| url := baseUrl self ++ endpoint; init := Some (build_init options) |}.

(** A request that only reads: a [GET] that carries no body. *)
Definition read_only (r : Request) : Prop :=
  effective_method r = "GET" /\ request_body r = None.

End Api.

(* ===================================================================== *)
(** ** The single-file dashboard ([App])                                  *)
(* ===================================================================== *)

Module App.
Import Js.

Definition API_BASE_URL : string :=
  "https://pmujj56e7b.execute-api.ap-south-1.amazonaws.com/dev".
Definition CLIENT_ID : string := "demo_client_001".

(** The file's own [Comment] interface: [platform], [intent] and
    [action_taken] are plain strings here, and there is no [status]. *)
Record Classification := {
  sentiment : Types.Sentiment;
  urgency : Types.Urgency;
  intent : string;
  toxicity_score : Z;
  confidence : Z
}.

Record Comment := {
  comment_id : string;
  text : string;
  author_name : string;
  platform : string;
  created_time : string;
  like_count : Z;
  classification : option Classification;
  action_taken : option string;
  reply_sent : option bool;
  hidden : option bool;
  escalated : option bool
}.

(** The file's [Metrics] interface has the members of
    [DashboardMetrics]. *)
Definition Metrics : Type := Types.DashboardMetrics.

(** The component's state ([useState]) once a run has set it.  The two
    bodies are whatever [json()] parsed (the code declares no type for
    them), so what [setMetrics] and [setComments] receive is either a
    value the component built itself or a parsed one. *)
Record State := {
  metrics : Value Metrics;
  comments : Value (list Comment);
  loading : bool;
  error : option string
}.

(** [metricsData.data || metricsData]; [None]: reading [data] throws. *)
Definition metrics_of_body (b : Json) : option (Value Metrics) :=
  match member "data" b with
  | Throws => None
  | Found d => Some (Parsed (if ToBoolean d then d else b))
  | Undefined => Some (Parsed b)
  end.

(** [commentsData.comments || commentsData.data || []]; [None]: reading
    [comments] throws. *)
Definition comments_of_body (b : Json) : option (Value (list Comment)) :=
  let data_or_empty :=
    match member "data" b with
    | Found d => if ToBoolean d then Parsed d else Own []
    | _ => Own []
    end in
  match member "comments" b with
  | Throws => None
  | Found c => Some (if ToBoolean c then Parsed c else data_or_empty)
  | Undefined => Some data_or_empty
  end.

Definition mockMetrics : Metrics :=
  {| Types.total_comments := 1247; Types.positive_comments := 789;
     Types.negative_comments := 156; Types.neutral_comments := 302;
     Types.auto_replied := 445; Types.hidden_comments := 23;
     Types.escalated_comments := 12;
     Types.response_rate := 89.2;
     Types.automation_rate := 95.1;
     Types.processing_time_avg := 2.3 |}%float.

Section WithPlatform.

(** [Date.now()] in milliseconds and [new Date(ms).toISOString()]. *)
Variable now : Z.
Variable toISOString : Z -> string.

Definition hours_ago (h : Z) : string :=
  toISOString (now - h * 60 * 60 * 1000).

Definition mockComments : list Comment :=
  [ {| comment_id := "real_comment_001";
       text := "Love this product! Amazing quality and fast shipping. Highly recommend! 😍✨";
       author_name := "Sarah Johnson"; platform := "instagram";
       created_time := hours_ago 2; like_count := 12;
       classification := Some
         {| sentiment := Types.positive; urgency := Types.low;
            intent := "compliment"; toxicity_score := 0; confidence := 96 |};
       action_taken := Some "replied"; reply_sent := Some true;
       hidden := None; escalated := None |};
    {| comment_id := "real_comment_002";
       text := "Hi, I have a question about the return policy. How long do I have to return an item if I'm not satisfied?";
       author_name := "Mike Chen"; platform := "instagram";
       created_time := hours_ago 3; like_count := 2;
       classification := Some
         {| sentiment := Types.neutral; urgency := Types.medium;
            intent := "question"; toxicity_score := 0; confidence := 88 |};
       action_taken := Some "replied"; reply_sent := Some true;
       hidden := None; escalated := None |};
    {| comment_id := "real_comment_003";
       text := "This is the worst product I have ever bought. Complete waste of money! Never buying again. Terrible customer service too.";
       author_name := "John Smith"; platform := "facebook";
       created_time := hours_ago 4; like_count := 0;
       classification := Some
         {| sentiment := Types.negative; urgency := Types.high;
            intent := "complaint"; toxicity_score := 7; confidence := 94 |};
       action_taken := Some "escalated"; reply_sent := None;
       hidden := None; escalated := Some true |};
    {| comment_id := "real_comment_004";
       text := "Spam spam spam buy my product click here now!!! Visit my profile for amazing deals 🚫🚫🚫";
       author_name := "SpamBot123"; platform := "instagram";
       created_time := hours_ago 5; like_count := 0;
       classification := Some
         {| sentiment := Types.negative; urgency := Types.low;
            intent := "spam"; toxicity_score := 9; confidence := 99 |};
       action_taken := Some "hidden"; reply_sent := None;
       hidden := Some true; escalated := None |};
    {| comment_id := "real_comment_005";
       text := "When will my order ship? I ordered 3 days ago and still no tracking info. Getting worried about delivery time.";
       author_name := "Lisa Wilson"; platform := "instagram";
       created_time := hours_ago 6; like_count := 3;
       classification := Some
         {| sentiment := Types.neutral; urgency := Types.medium;
            intent := "question"; toxicity_score := 1; confidence := 85 |};
       action_taken := Some "replied"; reply_sent := Some true;
       hidden := None; escalated := None |} ].

(** The two requests of [fetchDashboardData], both [fetch(url)] with no
    init. *)
Definition metrics_request : Request :=
  {| url := API_BASE_URL ++ "/metrics/" ++ CLIENT_ID; init := None |}.
Definition comments_request : Request :=
  {| url := API_BASE_URL ++ "/comments/recent/" ++ CLIENT_ID ++ "?limit=10";
     init := None |}.

(** How [fetch] settles for each of the two requests. *)
Variable net_metrics : Request -> Promise (Response Json).
Variable net_comments : Request -> Promise (Response Json).

(** What one run of [fetchDashboardData] leaves behind. *)
Record Run := {
  requests : list Request;
  console : list string;
  final : State
}.

Definition with_mock_data (log : list string) : Run :=
  {| requests := [metrics_request; comments_request];
     console := log;
     final := {| metrics := Own mockMetrics; comments := Own mockComments;
                 loading := false; error := None |} |}.

Definition api_unavailable : list string :=
  ["⚠️ API not available, using enhanced mock data"].

(** [Promise.all] starts both fetches; the inner [try] falls back to the
    mock data when a fetch or a [json()] rejects or reading a body
    throws (the mock data then replaces what was set before the throw),
    and the code after it does the same when a response is not [ok].
    The [finally] clears [loading] on every path. *)
Definition fetchDashboardData : Run :=
  match net_metrics metrics_request, net_comments comments_request with
  | Resolved metricsRes, Resolved commentsRes =>
      if ok metricsRes && ok commentsRes then
        match json metricsRes with
        | Rejected _ => with_mock_data api_unavailable
        | Resolved metricsData =>
            match json commentsRes with
            | Rejected _ => with_mock_data api_unavailable
            | Resolved commentsData =>
                match metrics_of_body metricsData,
                      comments_of_body commentsData with
                | Some m, Some cs =>
                    {| requests := [metrics_request; comments_request];
                       console := ["✅ Real data loaded successfully"];
                       final := {| metrics := m; comments := cs;
                                   loading := false; error := None |} |}
                | _, _ => with_mock_data api_unavailable
                end
            end
        end
      else with_mock_data []
  | _, _ => with_mock_data api_unavailable
  end.

End WithPlatform.

(** The action badge of a comment row: anything but the three known
    actions shows as still processing. *)
Definition action_badge (action_taken : option string) : string :=
  match action_taken with
  | Some a =>
      if String.eqb a "replied" then "🤖 Auto-replied"
      else if String.eqb a "escalated" then "⚠️ Escalated"
      else if String.eqb a "hidden" then "🙈 Hidden"
      else "⏳ Processing"
  | None => "⏳ Processing"
  end.

(** The toxicity badge of a comment row,
    [toxicity_score > 0 && (... Toxicity: {toxicity_score}/10)]: the score
    shown, if the badge is. *)
Definition toxicity_badge (c : Comment) : option Z :=
  match classification c with
  | Some k => if 0 <? toxicity_score k then Some (toxicity_score k) else None
  | None => None
  end.

(** The confidence badge, [{confidence}% confidence]: the number
    shown. *)
Definition confidence_badge (c : Comment) : option Z :=
  match classification c with
  | Some k => Some (confidence k)
  | None => None
  end.

(** [((x / total) * 100).toFixed(1)]. *)
Definition percent_of (x total : float) : string :=
  toFixed1 ((x / total) * 100)%float.

(** The six cards of the metrics grid, as (title, number shown, subtitle). *)
Definition metrics_grid (m : Metrics) : list (string * float * string) :=
  [ ("Total Comments", Types.total_comments m, "Last 30 days");
    ("Positive Sentiment", Types.positive_comments m,
     percent_of (Types.positive_comments m) (Types.total_comments m)
       ++ "% of total");
    ("Negative/Toxic", Types.negative_comments m,
     percent_of (Types.negative_comments m) (Types.total_comments m)
       ++ "% of total");
    ("Auto-Replied", Types.auto_replied m,
     percent_of (Types.auto_replied m) (Types.total_comments m)
       ++ "% automation");
    ("Hidden/Moderated", Types.hidden_comments m, "Toxic content blocked");
    ("Escalated to Human", Types.escalated_comments m,
     "High-priority issues") ].

(** The three cards of the performance summary, as (title, number shown
    before the unit). *)
Definition performance_grid (m : Metrics) : list (string * float) :=
  [ ("Avg Processing Time", Types.processing_time_avg m);
    ("Response Rate", Types.response_rate m);
    ("Automation Rate", Types.automation_rate m) ].

(** The sidebar's footer: its title and the number shown before
    "% efficiency". *)
Definition automation_status (m : Metrics) : string * float :=
  ("Automation Rate", Types.automation_rate m).

End App.

(* ===================================================================== *)
(** ** The dashboard components                                           *)
(* ===================================================================== *)

Module Views.
Import Types.

Inductive Icon :=
  Instagram | Facebook | MessageCircle | Bot | EyeOff | AlertTriangle
| Clock | CheckCircle.

(** A trend's direction; [flat] is the source's ['neutral']. *)
Inductive Direction := up | down | flat.

(** A card: [value] is the number shown, [subtitle] the text under
    it. *)
Record MetricCard := {
  title : string;
  value : float;
  trend : Z * string * Direction;
  subtitle : string
}.

(** [((x / total) * 100).toFixed(1)]: a division by zero prints [NaN]
    or [Infinity]. *)
Definition percent_of (x total : float) : string :=
  Js.toFixed1 ((x / total) * 100)%float.

(** [MetricsGrid]: the six cards of [metricCards]. *)
Definition metricCards (m : DashboardMetrics) : list MetricCard :=
  [ {| title := "Total Comments"; value := total_comments m;
       trend := (12, "vs last 30 days", up);
       subtitle := "Last 30 days" |};
    {| title := "Positive Sentiment"; value := positive_comments m;
       trend := (8, "vs last period", up);
       subtitle := percent_of (positive_comments m) (total_comments m)
                     ++ "% of total" |};
    {| title := "Negative/Toxic"; value := negative_comments m;
       trend := (15, "reduction this month", down);
       subtitle := percent_of (negative_comments m) (total_comments m)
                     ++ "% of total" |};
    {| title := "Auto-Replied"; value := auto_replied m;
       trend := (25, "efficiency improvement", up);
       subtitle := percent_of (auto_replied m) (total_comments m)
                     ++ "% automation rate" |};
    {| title := "Hidden/Moderated"; value := hidden_comments m;
       trend := (5, "vs last month", down);
       subtitle := "Toxic content blocked" |};
    {| title := "Escalated to Human"; value := escalated_comments m;
       trend := (3, "requiring attention", flat);
       subtitle := "High-priority issues" |} ].

(** [MetricsGrid]: the performance summary, as (title, number shown
    before the unit, caption). *)
Definition performanceSummary (m : DashboardMetrics)
  : list (string * float * string) :=
  [ ("Avg Processing Time", processing_time_avg m, "From comment to action");
    ("Response Rate", response_rate m, "Comments receiving replies");
    ("Automation Rate", automation_rate m, "Fully automated actions") ].

Inductive MetricsView :=
  Skeleton
| Grid (cards : list MetricCard) (summary : list (string * float * string)).

Definition MetricsGrid (m : DashboardMetrics) (isLoading : bool)
  : MetricsView :=
  if isLoading then Skeleton else Grid (metricCards m) (performanceSummary m).

(** [DashboardOverview] hands [MetricsGrid] the response's data, or a
    record of zeros while there is none. *)
Definition zeroMetrics : DashboardMetrics :=
  {| total_comments := 0; positive_comments := 0; negative_comments := 0;
     neutral_comments := 0; auto_replied := 0; hidden_comments := 0;
     escalated_comments := 0; processing_time_avg := 0;
     response_rate := 0; automation_rate := 0 |}%float.

Definition overviewMetrics
    (metricsData : option (ApiResponse DashboardMetrics)) : DashboardMetrics :=
  match metricsData with
  | Some r => match data r with Some m => m | None => zeroMetrics end
  | None => zeroMetrics
  end.

(** *** [RecentComments] *)

Definition platform_name (p : Platform) : string :=
  match p with
  | instagram => "instagram" | facebook => "facebook"
  | facebook_ads => "facebook_ads"
  end.

Definition sentiment_name (s : Sentiment) : string :=
  match s with
  | positive => "positive" | negative => "negative" | neutral => "neutral"
  end.

Definition urgency_name (u : Urgency) : string :=
  match u with low => "low" | medium => "medium" | high => "high" end.

Definition getPlatformIcon (platform : string) : Icon :=
  if String.eqb platform "instagram" then Instagram
  else if String.eqb platform "facebook" then Facebook
  else MessageCircle.

Definition getPlatformColor (platform : string) : string :=
  if String.eqb platform "instagram" then "text-pink-600 bg-pink-100"
  else if String.eqb platform "facebook" then "text-blue-600 bg-blue-100"
  else if String.eqb platform "facebook_ads" then "text-blue-500 bg-blue-50"
  else "text-gray-600 bg-gray-100".

Definition getSentimentColor (sentiment : string) : string :=
  if String.eqb sentiment "positive" then "text-green-700 bg-green-100"
  else if String.eqb sentiment "negative" then "text-red-700 bg-red-100"
  else "text-gray-700 bg-gray-100".

Definition getActionIcon (action : string) : Icon :=
  if String.eqb action "replied" then Bot
  else if String.eqb action "hidden" then EyeOff
  else if String.eqb action "escalated" then AlertTriangle
  else Clock.

Definition getActionColor (action : string) : string :=
  if String.eqb action "replied" then "text-green-600 bg-green-100"
  else if String.eqb action "hidden" then "text-orange-600 bg-orange-100"
  else if String.eqb action "escalated" then "text-red-600 bg-red-100"
  else "text-gray-600 bg-gray-100".

(** [s.replace('_', ' ')]: the first underscore only. *)
Fixpoint replace_first_underscore (s : string) : string :=
  match s with
  | EmptyString => EmptyString
  | String c rest =>
      if Ascii.eqb c "_"%char then String " "%char rest
      else String c (replace_first_underscore rest)
  end.

(** The text shown,
    [text.length > 150 ? `${text.substring(0, 150)}...` : text], as code
    units. *)
Definition shown_text (t : string) : Js.JsString :=
  let s := Js.utf16 t in
  if (150 <? List.length s)%nat
  then (Js.substring0 150 s ++ Js.utf16 "...")%list
  else s.

Definition truthy (b : option bool) : bool :=
  match b with Some true => true | _ => false end.

Record CommentRow := {
  row_key : string;
  platform_icon : Icon;
  platform_color : string;
  row_author : string;
  time_ago : string;
  action_status : option (Icon * string * string);
  row_text : Js.JsString;
  likes : option Z;
  platform_label : string;
  sentiment_badge : option (string * string);
  urgency_badge : option string;
  toxic_badge : option Z;
  reply_preview : bool;
  escalation_notice : bool;
  hidden_notice : bool
}.

Section WithClock.

(** [formatDistanceToNow(new Date(t), { addSuffix: true })]. *)
Variable formatDistanceToNow : string -> string.

Definition commentRow (c : Comment) : CommentRow :=
  let action := match action_taken c with
                | Some a => action_taken_name a
                | None => "pending"
                end in
  {| row_key := comment_id c;
     platform_icon := getPlatformIcon (platform_name (platform c));
     platform_color := getPlatformColor (platform_name (platform c));
     row_author := author_name c;
     time_ago := formatDistanceToNow (created_time c);
     action_status :=
       match action_taken c with
       | Some a => Some (getActionIcon action,
                         getActionColor (action_taken_name a),
                         action_taken_name a)
       | None => None
       end;
     row_text := shown_text (text c);
     likes := if 0 <? like_count c then Some (like_count c) else None;
     platform_label := replace_first_underscore (platform_name (platform c));
     sentiment_badge :=
       match classification c with
       | Some k => Some (getSentimentColor (sentiment_name (sentiment k)),
                         sentiment_name (sentiment k))
       | None => None
       end;
     urgency_badge :=
       match classification c with
       | Some k =>
           match urgency k with
           | low => None
           | u => Some (urgency_name u)
           end
       | None => None
       end;
     toxic_badge :=
       match classification c with
       | Some k => if 6 <=? toxicity_score k then Some (toxicity_score k)
                   else None
       | None => None
       end;
     reply_preview := truthy (reply_sent c);
     escalation_notice := truthy (is_escalated c);
     hidden_notice := truthy (is_hidden c) |}.

(** The comment with another [status], every other member as it was. *)
Definition with_status (c : Comment) (st : CommentStatus) : Comment :=
  {| comment_id := comment_id c; client_id := client_id c;
     platform := platform c; text := text c;
     author_name := author_name c; author_id := author_id c;
     created_time := created_time c; like_count := like_count c;
     comment_status := st;
     classification := classification c; action_taken := action_taken c;
     reply_sent := reply_sent c; is_hidden := is_hidden c;
     is_escalated := is_escalated c |}.

(** [RecentComments]: the skeleton while loading, the empty notice, or
    one row per comment. *)
Inductive CommentsView :=
  CommentsSkeleton | NoRecentComments | Rows (rows : list CommentRow).

Definition RecentComments (comments : list Comment) (isLoading : bool)
  : CommentsView :=
  if isLoading then CommentsSkeleton
  else match comments with
       | [] => NoRecentComments
       | _ => Rows (map commentRow comments)
       end.

End WithClock.

(** *** [ActivityFeed] *)

Definition getActivityIcon (actionType : string) : Icon :=
  if String.eqb actionType "reply_sent" then Bot
  else if String.eqb actionType "comment_hidden" then EyeOff
  else if String.eqb actionType "comment_escalated" then AlertTriangle
  else if String.eqb actionType "classification_completed" then CheckCircle
  else Clock.

Definition getActivityColor (actionType : string) : string :=
  if String.eqb actionType "reply_sent" then "text-green-600 bg-green-100"
  else if String.eqb actionType "comment_hidden"
       then "text-orange-600 bg-orange-100"
  else if String.eqb actionType "comment_escalated"
       then "text-red-600 bg-red-100"
  else if String.eqb actionType "classification_completed"
       then "text-blue-600 bg-blue-100"
  else "text-gray-600 bg-gray-100".

Definition getActivityTitle (actionType : string) : string :=
  if String.eqb actionType "reply_sent" then "Auto-Reply Sent"
  else if String.eqb actionType "comment_hidden" then "Comment Hidden"
  else if String.eqb actionType "comment_escalated" then "Escalated to Human"
  else if String.eqb actionType "classification_completed"
       then "Comment Classified"
  else "Activity".

End Views.

(* ===================================================================== *)
(** ** The provisioned infrastructure ([infrastructure/main.tf])          *)
(* ===================================================================== *)

Module Infra.

Record Vars := {
  aws_region : string;
  project_name : string;
  environment : string
}.

(** The variables' defaults. *)
Definition default_vars : Vars :=
  {| aws_region := "us-east-1"; project_name := "orm-platform";
     environment := "dev" |}.

(** *** DynamoDB tables *)

Record Attribute := {
  attr_name : string;
  attr_type : string
}.

Record GlobalSecondaryIndex := {
  index_name : string;
  index_hash_key : string;
  index_range_key : option string;
  projection_type : string
}.

Record DynamoTable := {
  table_name : string;
  billing_mode : string;
  hash_key : string;
  range_key : option string;
  attributes : list Attribute;
  global_secondary_indexes : list GlobalSecondaryIndex
}.

Section WithVars.
Variable var : Vars.

Definition comments : DynamoTable :=
  {| table_name := project_name var ++ "-comments-" ++ environment var;
     billing_mode := "PAY_PER_REQUEST";
     hash_key := "comment_id";
     range_key := None;
     attributes := [ {| attr_name := "comment_id"; attr_type := "S" |};
                     {| attr_name := "client_id"; attr_type := "S" |};
                     {| attr_name := "created_at"; attr_type := "S" |} ];
     global_secondary_indexes :=
       [ {| index_name := "ClientIndex"; index_hash_key := "client_id";
            index_range_key := Some "created_at";
            projection_type := "ALL" |} ] |}.

Definition config : DynamoTable :=
  {| table_name := project_name var ++ "-config-" ++ environment var;
     billing_mode := "PAY_PER_REQUEST";
     hash_key := "client_id";
     range_key := Some "config_type";
     attributes := [ {| attr_name := "client_id"; attr_type := "S" |};
                     {| attr_name := "config_type"; attr_type := "S" |} ];
     global_secondary_indexes := [] |}.

Definition audit_logs : DynamoTable :=
  {| table_name := project_name var ++ "-audit-" ++ environment var;
     billing_mode := "PAY_PER_REQUEST";
     hash_key := "log_id";
     range_key := None;
     attributes := [ {| attr_name := "log_id"; attr_type := "S" |};
                     {| attr_name := "timestamp"; attr_type := "S" |};
                     {| attr_name := "action_type"; attr_type := "S" |} ];
     global_secondary_indexes :=
       [ {| index_name := "TimestampIndex"; index_hash_key := "action_type";
            index_range_key := Some "timestamp";
            projection_type := "ALL" |} ] |}.

End WithVars.

(** The key schemas a [Query] can run against: the table's own and one
    per global secondary index, each a partition key with an optional
    sort key.  A [Query] fixes the partition key and returns the items
    in sort-key order. *)
Definition access_paths (t : DynamoTable) : list (string * option string) :=
  (hash_key t, range_key t)
    :: map (fun i => (index_hash_key i, index_range_key i))
         (global_secondary_indexes t).

Definition declares_attribute (t : DynamoTable) (a : string) : bool :=
  existsb (fun x => String.eqb (attr_name x) a) (attributes t).

(** Some key schema of [t] has partition key [partition] and sort key
    [sort]: a [Query] for one value of [partition] comes back ordered by
    [sort]. *)
Definition serves_ordered_query (t : DynamoTable) (partition sort : string)
  : bool :=
  existsb
    (fun p => String.eqb (fst p) partition
              && match snd p with
                 | Some s => String.eqb s sort
                 | None => false
                 end)
    (access_paths t).

(** *** SQS queues *)

Record RedrivePolicy := {
  deadLetterTargetArn : string;
  maxReceiveCount : Z
}.

(** [None]: the argument is not set in the resource. *)
Record SqsQueue := {
  queue_name : string;
  visibility_timeout_seconds : option Z;
  message_retention_seconds : option Z;
  redrive_policy : option RedrivePolicy
}.

Definition comment_processing_dlq (var : Vars) : SqsQueue :=
  {| queue_name := project_name var ++ "-comments-dlq-" ++ environment var;
     visibility_timeout_seconds := None;
     message_retention_seconds := None;
     redrive_policy := None |}.

(** [aws_sqs_queue.comment_processing_dlq.arn]: the ARN is made of the
    region, the account and the queue's name. *)
Definition queue_arn (var : Vars) (account_id : string) (q : SqsQueue)
  : string :=
  "arn:aws:sqs:" ++ aws_region var ++ ":" ++ account_id ++ ":" ++ queue_name q.

Definition comment_processing (var : Vars) (account_id : string) : SqsQueue :=
  {| queue_name := project_name var ++ "-comments-" ++ environment var;
     visibility_timeout_seconds := Some 300;
     message_retention_seconds := Some 1209600;
     redrive_policy := Some
       {| deadLetterTargetArn :=
            queue_arn var account_id (comment_processing_dlq var);
          maxReceiveCount := 3 |} |}.

(** The queue message and the receive count the queue keeps for it. *)
Record QueueMessage := {
  msg_comment_id : string;
  msg_client_id : string;
  msg_action : string;
  receive_count : Z
}.

Inductive Delivery :=
  Delivered (m : QueueMessage)
| DeadLettered (target : string) (m : QueueMessage).

(** The message after one more receive. *)
Definition received (m : QueueMessage) : QueueMessage :=
  {| msg_comment_id := msg_comment_id m;
     msg_client_id := msg_client_id m;
     msg_action := msg_action m;
     receive_count := receive_count m + 1 |}.

(** What the queue service does with a message that is due for another
    receive, under the queue's [redrive_policy]: the receive raises the
    count; once the count exceeds [maxReceiveCount] the message goes to
    the dead-letter target instead of the consumer.  (The service is the
    platform's, not the repository's, which sets the policy.) *)
Definition receive (q : SqsQueue) (m : QueueMessage) : Delivery :=
  let m' := received m in
  match redrive_policy q with
  | Some p =>
      if maxReceiveCount p <? receive_count m'
      then DeadLettered (deadLetterTargetArn p) m
      else Delivered m'
  | None => Delivered m'
  end.

(** A message whose processing fails every time: the deliveries the
    consumer sees before the queue gives up, within [fuel] receives. *)
Fixpoint deliveries (q : SqsQueue) (fuel : nat) (m : QueueMessage)
  : list QueueMessage * option (string * QueueMessage) :=
  match fuel with
  | O => ([], None)
  | S fuel' =>
      match receive q m with
      | Delivered m' =>
          let '(seen, dead) := deliveries q fuel' m' in (m' :: seen, dead)
      | DeadLettered target m0 => ([], Some (target, m0))
      end
  end.

(** *** The ingestion schedule *)

Record EventRule := {
  rule_name : string;
  description : string;
  schedule_expression : string
}.

Definition comment_ingestion_schedule (var : Vars) : EventRule :=
  {| rule_name := project_name var ++ "-ingestion-" ++ environment var;
     description := "Trigger comment ingestion every 5 minutes";
     schedule_expression := "rate(5 minutes)" |}.

(** [aws_cloudwatch_event_rule.comment_ingestion_schedule.arn]: the ARN
    is made of the provider's region, the account and the rule's name. *)
Definition rule_arn (var : Vars) (account_id : string) (r : EventRule)
  : string :=
  "arn:aws:events:" ++ aws_region var ++ ":" ++ account_id ++ ":rule/"
    ++ rule_name r.

Inductive RateUnit := Minutes | Hours | Days.

Fixpoint strip_prefix (p s : string) : option string :=
  match p, s with
  | EmptyString, _ => Some s
  | String a p', String b s' =>
      if Ascii.eqb a b then strip_prefix p' s' else None
  | String _ _, EmptyString => None
  end.

Definition digit_of (c : ascii) : option Z :=
  let n := Z.of_nat (nat_of_ascii c) in
  if (48 <=? n) && (n <=? 57) then Some (n - 48) else None.

(** The leading decimal digits of [s] and what follows them. *)
Fixpoint read_number (s : string) (acc : Z) (seen : bool)
  : option (Z * string) :=
  match s with
  | String c rest =>
      match digit_of c with
      | Some d => read_number rest (acc * 10 + d) true
      | None => if seen then Some (acc, s) else None
      end
  | EmptyString => if seen then Some (acc, s) else None
  end.

(** The unit of a rate expression: singular for the value 1, plural
    otherwise. *)
Definition unit_of (n : Z) (s : string) : option RateUnit :=
  if n =? 1 then
    if String.eqb s "minute)" then Some Minutes
    else if String.eqb s "hour)" then Some Hours
    else if String.eqb s "day)" then Some Days
    else None
  else
    if String.eqb s "minutes)" then Some Minutes
    else if String.eqb s "hours)" then Some Hours
    else if String.eqb s "days)" then Some Days
    else None.

(** [rate(value unit)], the value a positive number. *)
Definition parse_rate (e : string) : option (Z * RateUnit) :=
  match strip_prefix "rate(" e with
  | Some r =>
      match read_number r 0 false with
      | Some (n, r1) =>
          match strip_prefix " " r1 with
          | Some r2 =>
              match unit_of n r2 with
              | Some u => if 0 <? n then Some (n, u) else None
              | None => None
              end
          | None => None
          end
      | None => None
      end
  | None => None
  end.

Definition unit_seconds (u : RateUnit) : Z :=
  match u with Minutes => 60 | Hours => 3600 | Days => 86400 end.

(** The period of a rule's schedule, in seconds. *)
Definition period_seconds (r : EventRule) : option Z :=
  match parse_rate (schedule_expression r) with
  | Some (n, u) => Some (n * unit_seconds u)
  | None => None
  end.

(** The time of the [k]-th trigger of a rule enabled at [start]
    (seconds). *)
Definition trigger_time (r : EventRule) (start : Z) (k : nat) : option Z :=
  match period_seconds r with
  | Some p => Some (start + Z.of_nat k * p)
  | None => None
  end.

(** *** The dashboard API's methods (the later revision of [main.tf]) *)

Record ApiResource := {
  resource_id : string;
  parent_id : option string;
  path_part : string
}.

(** [parent_id = None]: the API's root resource. *)
Definition api_resources : list ApiResource :=
  [ {| resource_id := "health"; parent_id := None; path_part := "health" |};
    {| resource_id := "metrics"; parent_id := None; path_part := "metrics" |};
    {| resource_id := "metrics_client"; parent_id := Some "metrics";
       path_part := "{client_id}" |};
    {| resource_id := "comments"; parent_id := None;
       path_part := "comments" |};
    {| resource_id := "comments_recent"; parent_id := Some "comments";
       path_part := "recent" |};
    {| resource_id := "comments_recent_client";
       parent_id := Some "comments_recent"; path_part := "{client_id}" |};
    {| resource_id := "activity"; parent_id := None;
       path_part := "activity" |};
    {| resource_id := "activity_client"; parent_id := Some "activity";
       path_part := "{client_id}" |};
    {| resource_id := "clients"; parent_id := None; path_part := "clients" |} ].

Record ApiMethod := {
  method_name : string;
  method_resource : string;
  http_method : string;
  authorization : string
}.

Definition api_methods : list ApiMethod :=
  [ {| method_name := "health_get"; method_resource := "health";
       http_method := "GET"; authorization := "NONE" |};
    {| method_name := "metrics_get"; method_resource := "metrics_client";
       http_method := "GET"; authorization := "NONE" |};
    {| method_name := "comments_recent_get";
       method_resource := "comments_recent_client";
       http_method := "GET"; authorization := "NONE" |};
    {| method_name := "activity_get"; method_resource := "activity_client";
       http_method := "GET"; authorization := "NONE" |};
    {| method_name := "clients_get"; method_resource := "clients";
       http_method := "GET"; authorization := "NONE" |};
    {| method_name := "health_options"; method_resource := "health";
       http_method := "OPTIONS"; authorization := "NONE" |} ].

(** The path of a resource, from the root. *)
Fixpoint resource_path (fuel : nat) (rid : string) : option string :=
  match fuel with
  | O => None
  | S fuel' =>
      match find (fun r => String.eqb (resource_id r) rid) api_resources with
      | Some r =>
          match parent_id r with
          | None => Some ("/" ++ path_part r)
          | Some p =>
              match resource_path fuel' p with
              | Some pp => Some (pp ++ "/" ++ path_part r)
              | None => None
              end
          end
      | None => None
      end
  end.

(** The routes the API answers: (HTTP method, path). *)
Definition api_routes : list (string * option string) :=
  map (fun m => (http_method m,
                 resource_path (List.length api_resources) (method_resource m)))
    api_methods.

(** The path of a request for a client on a resource: the resource's
    path with the path parameter [{client_id}] given the client's id. *)
Definition part_for (clientId part : string) : string :=
  if String.eqb part "{client_id}" then clientId else part.

Fixpoint path_for (clientId : string) (fuel : nat) (rid : string)
  : option string :=
  match fuel with
  | O => None
  | S fuel' =>
      match find (fun r => String.eqb (resource_id r) rid) api_resources with
      | Some r =>
          match parent_id r with
          | None => Some ("/" ++ part_for clientId (path_part r))
          | Some p =>
              match path_for clientId fuel' p with
              | Some pp => Some (pp ++ "/" ++ part_for clientId (path_part r))
              | None => None
              end
          end
      | None => None
      end
  end.

(** The resources that have a GET method, in the order of the methods. *)
Definition get_resources : list string :=
  map method_resource
    (filter (fun m => String.eqb (http_method m) "GET") api_methods).

(** The URL of a GET request for a client on a resource, with a query
    string. *)
Definition request_url (base clientId : string) (rq : string * string)
  : option string :=
  match path_for clientId (List.length api_resources) (fst rq) with
  | Some path => Some (base ++ path ++ snd rq)
  | None => None
  end.

End Infra.

(* ===================================================================== *)
(** ** The Lambda deployment script's queue trigger                       *)
(* ===================================================================== *)

Module Deploy.

Definition PROJECT_NAME : string := "orm-platform".
Definition ENVIRONMENT : string := "dev".
Definition REGION : string := "ap-south-1".

Record EventSourceMapping := {
  function_name : string;
  event_source_arn : string;
  batch_size : Z
}.

(** [aws lambda create-event-source-mapping ... --batch-size 10]. *)
Definition sqs_trigger (ACCOUNT_ID : string) : EventSourceMapping :=
  {| function_name :=
       PROJECT_NAME ++ "-classification-function-" ++ ENVIRONMENT;
     event_source_arn :=
       "arn:aws:sqs:" ++ REGION ++ ":" ++ ACCOUNT_ID ++ ":"
         ++ PROJECT_NAME ++ "-comments-" ++ ENVIRONMENT;
     batch_size := 10 |}.

(** [aws lambda add-permission ...]: who may invoke a function. *)
Record Permission := {
  permitted_function : string;
  statement_id : string;
  permitted_action : string;
  principal : string;
  source_arn : string
}.

Definition eventbridge_invoke (ACCOUNT_ID : string) : Permission :=
  {| permitted_function :=
       PROJECT_NAME ++ "-ingestion-function-" ++ ENVIRONMENT;
     statement_id := "eventbridge-invoke";
     permitted_action := "lambda:InvokeFunction";
     principal := "events.amazonaws.com";
     source_arn :=
       "arn:aws:events:" ++ REGION ++ ":" ++ ACCOUNT_ID ++ ":rule/"
         ++ PROJECT_NAME ++ "-ingestion-" ++ ENVIRONMENT |}.

(** [aws events put-targets --rule ... --targets Id=1,Arn=... --region ...]. *)
Record RuleTarget := {
  target_rule : string;
  target_region : string;
  target_id : string;
  target_arn : string
}.

Definition ingestion_target (ACCOUNT_ID : string) : RuleTarget :=
  {| target_rule := PROJECT_NAME ++ "-ingestion-" ++ ENVIRONMENT;
     target_region := REGION;
     target_id := "1";
     target_arn :=
       "arn:aws:lambda:" ++ REGION ++ ":" ++ ACCOUNT_ID ++ ":function:"
         ++ PROJECT_NAME ++ "-ingestion-function-" ++ ENVIRONMENT |}.

(** The rule a [put-targets] call adds its target to: the rule of that
    name in the call's region and the caller's account. *)
Definition addressed_rule (ACCOUNT_ID : string) (t : RuleTarget) : string :=
  "arn:aws:events:" ++ target_region t ++ ":" ++ ACCOUNT_ID ++ ":rule/"
    ++ target_rule t.

(** What the event service invokes each time the rule [arn] triggers,
    once the script has run: the targets put on that rule.  (The
    service is the platform's; the script makes one [put-targets]
    call.) *)
Definition invoked_by (ACCOUNT_ID : string) (arn : string) : list string :=
  let t := ingestion_target ACCOUNT_ID in
  if String.eqb (addressed_rule ACCOUNT_ID t) arn then [target_arn t] else [].

(** One invocation of the consumer takes at most [batch_size] of the
    messages waiting. *)
Definition next_batch {A : Type} (m : EventSourceMapping) (waiting : list A)
  : list A :=
  firstn (Z.to_nat (batch_size m)) waiting.

End Deploy.

(* ===================================================================== *)
(** ** The Action Router                                                  *)
(* ===================================================================== *)

Module Router.
Import Types.

(** Modelled from the spec: the thresholds the Action Router reads from
    the client's configuration (sections 4.4 and 6); a threshold the
    client's document does not set falls back to its default.  The
    Lambda that holds the router is not among the sources. *)
Record ModerationRules := {
  toxicity_threshold : option Z;
  min_confidence : option Z
}.

Definition default_rules : ModerationRules :=
  {| toxicity_threshold := None; min_confidence := None |}.

Definition threshold_of (r : ModerationRules) : Z :=
  match toxicity_threshold r with Some t => t | None => 7 end.

Definition min_confidence_of (r : ModerationRules) : Z :=
  match min_confidence r with Some t => t | None => 70 end.

(** A rule of the decision policy: when it applies, and what it
    decides. *)
Record Rule := {
  applies : Classification -> ModerationRules -> bool;
  action : SuggestedAction
}.

(** Modelled from the spec: the decision policy of section 4.4, in its
    order (the Lambda code of the router is not among the sources). *)
Definition policy : list Rule :=
  [ {| applies := fun c r => threshold_of r <=? toxicity_score c;
       action := hide |};
    {| applies := fun c _ =>
         sentiment_eqb (sentiment c) negative && urgency_eqb (urgency c) high;
       action := escalate |};
    {| applies := fun c r =>
         requires_response c && (min_confidence_of r <=? confidence c);
       action := reply |} ].

Fixpoint first_match (rules : list Rule) (c : Classification)
    (r : ModerationRules) : SuggestedAction :=
  match rules with
  | [] => ignore
  | rule :: rest =>
      if applies rule c r then action rule else first_match rest c r
  end.

(** Modelled from the spec: [decide(classification, moderation_rules)],
    first match wins, [ignore] otherwise (section 4.4; its code is not
    among the sources). *)
Definition decide (c : Classification) (r : ModerationRules)
  : SuggestedAction :=
  first_match policy c r.

(** The [action_taken] value of the dashboard types that goes by the
    name of a routing decision. *)
Definition taken (a : SuggestedAction) : ActionTaken :=
  match a with
  | reply => replied | hide => hidden
  | escalate => escalated | ignore => ignored
  end.

End Router.

(* ===================================================================== *)
(** ** The Classifier's validation                                        *)
(* ===================================================================== *)

Module Classifier.
Import Types.

(** Modelled from the spec: the structured response of the language
    model before validation (sections 4.3 and 6): any field may be
    missing, labels are strings, scores are integers.  The Classifier's
    code is not among the sources. *)
Record LlmResponse := {
  r_sentiment : option string;
  r_urgency : option string;
  r_intent : option string;
  r_toxicity_score : option Z;
  r_confidence : option Z;
  r_requires_response : option bool;
  r_suggested_action : option string
}.

Definition sentiment_of_string (s : string) : option Sentiment :=
  if String.eqb s "positive" then Some positive
  else if String.eqb s "negative" then Some negative
  else if String.eqb s "neutral" then Some neutral
  else None.

Definition urgency_of_string (s : string) : option Urgency :=
  if String.eqb s "low" then Some low
  else if String.eqb s "medium" then Some medium
  else if String.eqb s "high" then Some high
  else None.

Definition intent_of_string (s : string) : option Intent :=
  if String.eqb s "question" then Some question
  else if String.eqb s "complaint" then Some complaint
  else if String.eqb s "compliment" then Some compliment
  else if String.eqb s "spam" then Some spam
  else if String.eqb s "general" then Some general
  else None.

Definition action_of_string (s : string) : option SuggestedAction :=
  if String.eqb s "reply" then Some reply
  else if String.eqb s "hide" then Some hide
  else if String.eqb s "escalate" then Some escalate
  else if String.eqb s "ignore" then Some ignore
  else None.

Definition bind {A B : Type} (o : option A) (f : A -> option B) : option B :=
  match o with Some a => f a | None => None end.

Notation "x <- o ;; k" := (bind o (fun x => k))
  (at level 61, o at next level, right associativity).

Definition in_0_to (hi n : Z) : bool := (0 <=? n) && (n <=? hi).

(** Modelled from the spec: the Classifier's validation (section 4.3):
    a response with a required field missing, a label outside its
    enumeration, a confidence outside 0..100 or a toxicity outside 0..10
    is rejected ([None]: retried, nothing persisted). *)
Definition validate (r : LlmResponse) : option Classification :=
  s <- bind (r_sentiment r) sentiment_of_string ;;
  u <- bind (r_urgency r) urgency_of_string ;;
  i <- bind (r_intent r) intent_of_string ;;
  t <- r_toxicity_score r ;;
  c <- r_confidence r ;;
  q <- r_requires_response r ;;
  a <- bind (r_suggested_action r) action_of_string ;;
  if in_0_to 10 t && in_0_to 100 c
  then Some {| sentiment := s; urgency := u; intent := i;
               toxicity_score := t; confidence := c;
               requires_response := q; suggested_action := a |}
  else None.

(** The range invariant of a Classification. *)
Definition in_range (c : Classification) : Prop :=
  0 <= toxicity_score c <= 10 /\ 0 <= confidence c <= 100.

Definition in_rangeb (c : Classification) : bool :=
  in_0_to 10 (toxicity_score c) && in_0_to 100 (confidence c).

(** The classifications persisted, by comment id: at most one per
    comment. *)
Definition Store : Type := list (string * Classification).

Fixpoint remove_key (k : string) (s : Store) : Store :=
  match s with
  | [] => []
  | (k', c) :: rest =>
      if String.eqb k' k then remove_key k rest
      else (k', c) :: remove_key k rest
  end.

(** Modelled from the spec: the Classifier's persistence step
    (sections 3 and 4.3): a valid response replaces the comment's
    classification, a rejected one leaves the store as it was. *)
Definition persist (s : Store) (comment_id : string) (r : LlmResponse)
  : Store :=
  match validate r with
  | Some c => (comment_id, c) :: remove_key comment_id s
  | None => s
  end.

(** The store after a run of responses, oldest first. *)
Fixpoint run (s : Store) (rs : list (string * LlmResponse)) : Store :=
  match rs with
  | [] => s
  | (k, r) :: rest => run (persist s k r) rest
  end.

(** Every classification in the store is in range. *)
Definition all_in_range (s : Store) : Prop :=
  Forall (fun kc => in_range (snd kc)) s.

End Classifier.

(* ===================================================================== *)
(** ** One comment through the pipeline                                   *)
(* ===================================================================== *)

Module Pipeline.
Import Types.

(** Modelled from the spec: the action types of an AuditLogEntry
    (section 3), [action_failed] among them.  The pipeline's Lambda code
    is not among the sources. *)
Inductive AuditType :=
  reply_sent_entry | comment_hidden_entry | comment_escalated_entry
| classification_completed_entry | action_failed_entry.

(** Modelled from the spec: an AuditLogEntry (section 3), without the
    [log_id] and [timestamp] the log generates and without its free-form
    [details]. *)
Record AuditLogEntry := {
  entry_type : AuditType;
  entry_comment_id : string
}.

(** Modelled from the spec: the notification the Escalation Executor
    posts (section 4.5), without its free-form reason and excerpt. *)
Record Notification := {
  note_comment_id : string;
  note_confidence : Z
}.

(** Modelled from the spec: the typed outcome every stage returns
    (sections 7 and 9). *)
Inductive Outcome := Success | Retryable | Permanent.

(** Modelled from the spec: what a call of the language model comes
    back with (sections 4.3 and 7): a structured answer, or nothing
    within its timeout or rate limit. *)
Inductive LlmResult := Answer (r : Classifier.LlmResponse) | Unavailable.

(** Modelled from the spec: the shared resources (section 5), the
    Comment Store and the append-only Audit Log, and what the Escalation
    Executor posted to the notification channel. *)
Record World := {
  store : list Comment;
  audit : list AuditLogEntry;
  notifications : list Notification
}.

(** Modelled from the spec: the Comment Store is keyed by [comment_id]
    (sections 3 and 5): the record of an id, and the store with the
    record of [c]'s id replaced by [c]. *)
Definition find_comment (cid : string) (s : list Comment) : option Comment :=
  find (fun c => String.eqb (comment_id c) cid) s.

Fixpoint put (c : Comment) (s : list Comment) : list Comment :=
  match s with
  | [] => []
  | x :: rest =>
      if String.eqb (comment_id x) (comment_id c) then c :: rest
      else x :: put c rest
  end.

(** The classification with another urgency. *)
Definition with_urgency (k : Classification) (u : Urgency) : Classification :=
  {| sentiment := sentiment k; urgency := u; intent := intent k;
     toxicity_score := toxicity_score k; confidence := confidence k;
     requires_response := requires_response k;
     suggested_action := suggested_action k |}.

(** Modelled from the spec: attaching a Classification (sections 3 and
    4.3): it replaces the one the comment had, and a [pending] comment
    becomes [classified]. *)
Definition attach (c : Comment) (k : Classification) : Comment :=
  {| comment_id := comment_id c; client_id := client_id c;
     platform := platform c; text := text c;
     author_name := author_name c; author_id := author_id c;
     created_time := created_time c; like_count := like_count c;
     comment_status := match comment_status c with
                       | pending => classified
                       | st => st
                       end;
     classification := Some k; action_taken := action_taken c;
     reply_sent := reply_sent c; is_hidden := is_hidden c;
     is_escalated := is_escalated c |}.

(** Modelled from the spec: what the Escalation Executor records on the
    comment (sections 3 and 4.5): escalated, and [processed]. *)
Definition mark_escalated (c : Comment) : Comment :=
  {| comment_id := comment_id c; client_id := client_id c;
     platform := platform c; text := text c;
     author_name := author_name c; author_id := author_id c;
     created_time := created_time c; like_count := like_count c;
     comment_status := processed;
     classification := classification c; action_taken := Some escalated;
     reply_sent := reply_sent c; is_hidden := is_hidden c;
     is_escalated := Some true |}.

(** Modelled from the spec: the Escalation Executor (section 4.5).  It
    short-circuits to success when the comment is escalated already;
    otherwise it posts the notification, which always succeeds locally,
    writes one [comment_escalated] entry and marks the comment
    [processed]. *)
Definition escalate_executor (w : World) (c : Comment) (k : Classification)
  : World * Outcome :=
  match action_taken c with
  | Some escalated => (w, Success)
  | _ =>
      ({| store := put (mark_escalated c) (store w);
          audit := audit w ++ [ {| entry_type := comment_escalated_entry;
                                   entry_comment_id := comment_id c |} ];
          notifications :=
            notifications w ++ [ {| note_comment_id := comment_id c;
                                    note_confidence := confidence k |} ] |},
       Success)
  end.

Section WithCollaborators.

(** The language model's result for a comment (an external service),
    whether a configured high-urgency keyword occurs in a text (the
    client's [urgency_keywords], matched case-insensitively), the
    client's rules, and the three other executors. *)
Variable llm : Comment -> LlmResult.
Variable high_keyword : string -> bool.
Variable rules : Router.ModerationRules.
Variable reply_executor hide_executor ignore_executor
  : World -> Comment -> Classification -> World * Outcome.

(** Modelled from the spec: the Classifier's result for a comment
    (section 4.3): the validated answer of the model, its urgency raised
    to [high] when a high-urgency keyword matches; [None] when the model
    gives no answer or validation rejects it. *)
Definition classify (c : Comment) : option Classification :=
  match llm c with
  | Answer r =>
      match Classifier.validate r with
      | Some k =>
          Some (if high_keyword (text c) then with_urgency k high else k)
      | None => None
      end
  | Unavailable => None
  end.

(** Modelled from the spec: one message through Classifier, Action
    Router and Action Executor within one unit of work (sections 2, 4.3
    to 4.5 and 7): no answer or a rejected one is retryable and leaves
    everything as it was; a valid one is attached, audited as
    [classification_completed] and handed to the executor the router
    names. *)
Definition handle (w : World) (cid : string) : World * Outcome :=
  match find_comment cid (store w) with
  | None => (w, Permanent)
  | Some c =>
      match classify c with
      | None => (w, Retryable)
      | Some k =>
          let c1 := attach c k in
          let w1 :=
            {| store := put c1 (store w);
               audit := audit w ++ [ {| entry_type := classification_completed_entry;
                                        entry_comment_id := cid |} ];
               notifications := notifications w |} in
          match Router.decide k rules with
          | escalate => escalate_executor w1 c1 k
          | reply => reply_executor w1 c1 k
          | hide => hide_executor w1 c1 k
          | ignore => ignore_executor w1 c1 k
          end
      end
  end.

End WithCollaborators.

(** The entries of a log that are about a comment. *)
Definition entries_for (cid : string) (log : list AuditLogEntry)
  : list AuditLogEntry :=
  filter (fun e => String.eqb (entry_comment_id e) cid) log.

End Pipeline.

(* ===================================================================== *)
(** ** Selections over the dashboards' data                               *)
(* ===================================================================== *)

(** The scenario's comment text: it opens with "This is the worst
    product" and mentions "Terrible customer service". *)
Definition scenario_text (t : string) : bool :=
  String.prefix "This is the worst product" t
  && match String.index 0 "Terrible customer service" t with
     | Some _ => true
     | None => false
     end.

Definition has_id (cid : string) (c : Types.Comment) : bool :=
  String.eqb (Types.comment_id c) cid.

Definition about (cid : string) (a : Types.ActivityLog) : bool :=
  String.eqb (Types.log_comment_id a) cid.

(* ===================================================================== *)
(** ** The filter sidebar and the navigation sidebar                      *)
(* ===================================================================== *)

Module Filters.

(** [FilterOptions] as the filter sidebar handles it at run time: the
    members of the four arrays are the string literals of their union
    types ([platform.id as any]). *)
Record FilterOptions := {
  dateRange : string * string;
  platforms : list string;
  sentiment : list string;
  status : list string;
  urgency : list string
}.

(** The array-valued keys of [FilterOptions]. *)
Inductive ArrayKey := platforms_key | sentiment_key | status_key | urgency_key.

(** [array.includes(value)]. *)
Definition includes (array : list string) (value : string) : bool :=
  existsb (String.eqb value) array.

(** [array.includes(value) ? array.filter(item => item !== value)
    : [...array, value]], the body shared by [toggleArrayFilter] and the
    navigation sidebar's [toggleSection]. *)
Definition toggle (array : list string) (value : string) : list string :=
  if includes array value
  then filter (fun item => negb (String.eqb item value)) array
  else array ++ [value].

(** [{ ...filters, [key]: newArray }]. *)
Definition updateArray (filters : FilterOptions) (key : ArrayKey)
    (newArray : list string) : FilterOptions :=
  match key with
  | platforms_key =>
      {| dateRange := dateRange filters; platforms := newArray;
         sentiment := sentiment filters; status := status filters;
         urgency := urgency filters |}
  | sentiment_key =>
      {| dateRange := dateRange filters; platforms := platforms filters;
         sentiment := newArray; status := status filters;
         urgency := urgency filters |}
  | status_key =>
      {| dateRange := dateRange filters; platforms := platforms filters;
         sentiment := sentiment filters; status := newArray;
         urgency := urgency filters |}
  | urgency_key =>
      {| dateRange := dateRange filters; platforms := platforms filters;
         sentiment := sentiment filters; status := status filters;
         urgency := newArray |}
  end.

(** [toggleArrayFilter(array, value, key)]: what [onFiltersChange]
    receives. *)
Definition toggleArrayFilter (filters : FilterOptions) (array : list string)
    (value : string) (key : ArrayKey) : FilterOptions :=
  updateArray filters key (toggle array value).

(** The [onChange] of a platform checkbox and of a sentiment checkbox. *)
Definition clickPlatform (filters : FilterOptions) (id : string)
  : FilterOptions :=
  toggleArrayFilter filters (platforms filters) id platforms_key.

Definition clickSentiment (filters : FilterOptions) (id : string)
  : FilterOptions :=
  toggleArrayFilter filters (sentiment filters) id sentiment_key.

(** The [onChange] of the two date inputs:
    [{ dateRange: { ...filters.dateRange, start: value } }]. *)
Definition changeStart (filters : FilterOptions) (value : string)
  : FilterOptions :=
  {| dateRange := (value, snd (dateRange filters));
     platforms := platforms filters; sentiment := sentiment filters;
     status := status filters; urgency := urgency filters |}.

Definition changeEnd (filters : FilterOptions) (value : string)
  : FilterOptions :=
  {| dateRange := (fst (dateRange filters), value);
     platforms := platforms filters; sentiment := sentiment filters;
     status := status filters; urgency := urgency filters |}.

(** [resetFilters]; [isoDate ms] is
    [new Date(ms).toISOString().split('T')[0]]. *)
Definition resetFilters (now : Z) (isoDate : Z -> string) : FilterOptions :=
  {| dateRange := (isoDate (now - 30 * 24 * 60 * 60 * 1000), isoDate now);
     platforms := ["instagram"; "facebook"; "facebook_ads"];
     sentiment := ["positive"; "negative"; "neutral"];
     status := ["pending"; "classified"; "processed"];
     urgency := ["low"; "medium"; "high"] |}.

(** The ids of the checkboxes the sidebar draws for platforms and for
    sentiment. *)
Definition platformBoxes : list string :=
  ["instagram"; "facebook"; "facebook_ads"].
Definition sentimentBoxes : list string :=
  ["positive"; "negative"; "neutral"].

End Filters.

Module Nav.

(** [NavItem]: the icon is kept by its name. *)
#[warnings="-register-all"]
Inductive NavItem :=
  Item (id label icon : string) (badge : option string)
       (children : list NavItem).

Definition item_id (i : NavItem) : string :=
  match i with Item id _ _ _ _ => id end.

Definition item_children (i : NavItem) : list NavItem :=
  match i with Item _ _ _ _ cs => cs end.

(** [!!(item.children && item.children.length > 0)]. *)
Definition hasChildren (i : NavItem) : bool :=
  match item_children i with [] => false | _ :: _ => true end.

Definition leaf (id label icon : string) (badge : option string) : NavItem :=
  Item id label icon badge [].

Definition navigationItems : list NavItem :=
  [ leaf "overview" "Overview" "BarChart3" None;
    Item "monitor" "MONITOR" "Eye" None
      [ leaf "comment-stream" "Comment Stream" "MessageCircle" (Some "12");
        leaf "sentiment" "Sentiment Analysis" "TrendingUp" None;
        leaf "toxicity" "Toxicity Detection" "Shield" (Some "3");
        leaf "escalation" "Escalation Queue" "AlertTriangle" (Some "5") ];
    Item "automate" "AUTOMATE" "Bot" None
      [ leaf "auto-replies" "Auto-Replies" "MessageSquare" None;
        leaf "moderation" "Content Moderation" "Shield" None;
        leaf "rules" "Business Rules" "Settings" None;
        leaf "history" "Action History" "Activity" None ];
    Item "analytics" "ANALYTICS" "BarChart3" None
      [ leaf "performance" "Performance Metrics" "TrendingUp" None;
        leaf "effectiveness" "Response Effectiveness" "Zap" None;
        leaf "reports" "Client Reports" "FileText" None ] ].

(** [useState(['monitor'])]. *)
Definition initialExpanded : list string := ["monitor"].

(** [toggleSection]. *)
Definition toggleSection (prev : list string) (sectionId : string)
  : list string :=
  Filters.toggle prev sectionId.

(** [handleItemClick(itemId, hasChildren)]: the expanded sections after
    the click, and the id handed to [onSectionChange] (when the parent
    gave one). *)
Definition handleItemClick (expanded : list string) (itemId : string)
    (withChildren : bool) : list string * option string :=
  if withChildren then (toggleSection expanded itemId, None)
  else (expanded, Some itemId).

(** A click on the button of an item. *)
Definition click (expanded : list string) (i : NavItem) : list string :=
  fst (handleItemClick expanded (item_id i) (hasChildren i)).

(** One button of the navigation. *)
Record NavRow := {
  row_id : string;
  row_level : nat;
  isActive : bool;
  isExpanded : bool;
  row_hasChildren : bool
}.

(** [renderNavItem(item, level)]: the item's button, then its children
    when it has some and is expanded. *)
Fixpoint renderNavItem (activeSection : string) (expanded : list string)
    (level : nat) (i : NavItem) : list NavRow :=
  match i with
  | Item id _ _ _ children =>
      {| row_id := id; row_level := level;
         isActive := String.eqb activeSection id;
         isExpanded := Filters.includes expanded id;
         row_hasChildren := hasChildren i |}
        :: (if hasChildren i && Filters.includes expanded id
            then flat_map (renderNavItem activeSection expanded (S level))
                   children
            else [])
  end.

(** The navigation: [navigationItems.map(item => renderNavItem(item))]. *)
Definition renderNav (activeSection : string) (expanded : list string)
    (items : list NavItem) : list NavRow :=
  flat_map (renderNavItem activeSection expanded 0) items.

(** The items of the navigation, the sections' children included. *)
Definition allItems : list NavItem :=
  flat_map (fun i => i :: item_children i) navigationItems.

(** The ids of the items of the navigation that have children. *)
Definition sectionIds : list string := ["monitor"; "automate"; "analytics"].

(** [activeSection = 'overview'], the default the layout leaves in
    place ([<Sidebar />] gets no props). *)
Definition defaultActiveSection : string := "overview".

(** The expanded sections after a run of clicks. *)
Definition clicks (expanded : list string) (items : list NavItem)
  : list string :=
  fold_left click items expanded.

(** The box under the navigation: its title and its text, both fixed. *)
Definition automationStatus : string * string :=
  ("Automation Rate", "95.1% efficiency").

End Nav.

(* ===================================================================== *)
(** ** The activity feed and the overview page                            *)
(* ===================================================================== *)

Module Feed.
Import Types.

(** [s.length > n ? `${s.substring(0, n)}...` : s], on the code units
    of [s]. *)
Definition cut (n : nat) (s : Js.JsString) : Js.JsString :=
  if (n <? List.length s)%nat
  then (Js.substring0 n s ++ Js.utf16 "...")%list
  else s.

(** [`${x}`] for an optional number and an optional string: a missing
    member prints as [undefined]. *)
Definition show_number (x : option Z) : string :=
  match x with Some n => Js.number_to_string n | None => "undefined" end.

Definition show_string (x : option string) : string :=
  match x with Some s => s | None => "undefined" end.

Definition getActivityDescription (activity : ActivityLog) : string :=
  match action_type activity with
  | reply_sent_t =>
      "Automated response sent with "
        ++ show_number (d_confidence (details activity)) ++ "% confidence"
  | comment_hidden_t =>
      "Hidden due to: " ++ show_string (d_reason (details activity))
  | comment_escalated_t =>
      "Escalated: " ++ show_string (d_reason (details activity))
  | classification_completed_t =>
      "Analysis completed with "
        ++ show_number (d_confidence (details activity)) ++ "% confidence"
  end.

(** What [{confidence && (<bar/>)}] renders: nothing for a missing
    confidence, the bare number for the falsy number 0, and otherwise
    the bar with its colour class, its width in percent and its label. *)
Inductive ConfidenceView :=
  NoConfidence
| BareNumber (n : Z)
| Bar (color : string) (width : Z).

Definition confidenceView (confidence : option Z) : ConfidenceView :=
  match confidence with
  | None => NoConfidence
  | Some n =>
      if n =? 0 then BareNumber n
      else Bar (if 90 <=? n then "bg-green-500"
                else if 70 <=? n then "bg-yellow-500"
                else "bg-red-500") n
  end.

(** What [{message && (<excerpt/>)}] renders: the empty string is
    falsy. *)
Definition excerpt (msg : option string) : option Js.JsString :=
  match msg with
  | Some m =>
      if String.eqb m EmptyString then None else Some (cut 80 (Js.utf16 m))
  | None => None
  end.

(** The caption of the summary under the rows: a fixed text. *)
Definition systemPerformance : string := "95% automated processing".

Record ActivityRow := {
  key : string;
  icon : Views.Icon;
  color : string;
  title : string;
  description : string;
  timeAgo : string;
  connecting_line : bool;
  comment_ref : Js.JsString;
  message_excerpt : option Js.JsString;
  confidence_bar : ConfidenceView
}.

Section WithClock.

(** [formatDistanceToNow(new Date(t), { addSuffix: true })]. *)
Variable formatDistanceToNow : string -> string.

(** One [<li>] of the feed; [isLast] is
    [activityIdx === activities.length - 1]. *)
Definition activityRow (isLast : bool) (activity : ActivityLog)
  : ActivityRow :=
  let name := action_type_name (action_type activity) in
  {| key := log_id activity;
     icon := Views.getActivityIcon name;
     color := Views.getActivityColor name;
     title := Views.getActivityTitle name;
     description := getActivityDescription activity;
     timeAgo := formatDistanceToNow (timestamp activity);
     connecting_line := negb isLast;
     comment_ref :=
       (Js.utf16 "#" ++ Js.slice_last 8 (Js.utf16 (log_comment_id activity)))%list;
     message_excerpt := excerpt (d_message (details activity));
     confidence_bar := confidenceView (d_confidence (details activity)) |}.

(** [activities.map((activity, activityIdx) => ...)]. *)
Fixpoint activityRows (activities : list ActivityLog) : list ActivityRow :=
  match activities with
  | [] => []
  | [a] => [activityRow true a]
  | a :: rest => activityRow false a :: activityRows rest
  end.

(** [ActivityFeed]: the skeleton while loading, the empty notice, or
    the rows with the summary's count ([activities.length]). *)
Inductive FeedView :=
  FeedSkeleton
| NoRecentActivity
| Rows (rows : list ActivityRow) (actions_in_last_hour : nat).

Definition ActivityFeed (activities : list ActivityLog) (isLoading : bool)
  : FeedView :=
  if isLoading then FeedSkeleton
  else match activities with
       | [] => NoRecentActivity
       | _ => Rows (activityRows activities) (List.length activities)
       end.

End WithClock.

End Feed.

Module Overview.
Import Types Js.

(** What [useQuery] reports for one query of an enabled client: still
    loading, or settled with the value its [queryFn] resolved to, or
    with the error it rejected with. *)
Inductive QueryState (T : Type) :=
  Loading
| Success (value : T)
| Failed (e : Thrown).
Arguments Loading {T}.
Arguments Success {T} value.
Arguments Failed {T} e.

Definition settle {T : Type} (p : Promise T) : QueryState T :=
  match p with Resolved v => Success v | Rejected e => Failed e end.

Definition query_data {T : Type} (q : QueryState T) : option T :=
  match q with Success v => Some v | _ => None end.

Definition query_isLoading {T : Type} (q : QueryState T) : bool :=
  match q with Loading => true | _ => false end.

Definition query_error {T : Type} (q : QueryState T) : option Thrown :=
  match q with Failed e => Some e | _ => None end.

(** [response?.data || []]. *)
Definition data_or_empty {A : Type} (r : option (ApiResponse (list A)))
  : list A :=
  match r with
  | Some x => match data x with Some xs => xs | None => [] end
  | None => []
  end.

Inductive OverviewView :=
  NoClientSelected
| ErrorLoadingDashboard
| Page (client_name : string) (metrics : Views.MetricsView)
       (comments : Views.CommentsView) (activity : Feed.FeedView).

Section WithClock.

Variable formatDistanceToNow : string -> string.

(** [DashboardOverview], from the selected client and the state of its
    three queries. *)
Definition DashboardOverview (selectedClient : option Client)
    (metricsQ : QueryState (ApiResponse DashboardMetrics))
    (commentsQ : QueryState (ApiResponse (list Comment)))
    (activityQ : QueryState (ApiResponse (list ActivityLog)))
  : OverviewView :=
  match selectedClient with
  | None => NoClientSelected
  | Some client =>
      match query_error metricsQ with
      | Some _ => ErrorLoadingDashboard
      | None =>
          Page (name client)
            (Views.MetricsGrid (Views.overviewMetrics (query_data metricsQ))
               (query_isLoading metricsQ))
            (Views.RecentComments formatDistanceToNow
               (data_or_empty (query_data commentsQ))
               (query_isLoading commentsQ))
            (Feed.ActivityFeed formatDistanceToNow
               (data_or_empty (query_data activityQ))
               (query_isLoading activityQ))
      end
  end.

Variable net : forall T : Type, Request -> Promise (Response (ApiResponse T)).
Variable form_urlencode : string -> string.

(** The three [queryFn]s of a selected client:
    [getDashboardMetrics(id)], [getRecentComments(id, 10)] and
    [getActivityLog(id, 10)]. *)
Definition metricsQuery (self : Api.ApiService) (client : Client)
  : Outcome (ApiResponse DashboardMetrics) :=
  Api.getDashboardMetrics net form_urlencode self (id client) None.

Definition commentsQuery (self : Api.ApiService) (client : Client)
  : Outcome (ApiResponse (list Comment)) :=
  Api.getRecentComments net self (id client) (Some 10).

Definition activityQuery (self : Api.ApiService) (client : Client)
  : Outcome (ApiResponse (list ActivityLog)) :=
  Api.getActivityLog net self (id client) (Some 10).

(** The page once the three queries of the client have settled. *)
Definition settledOverview (self : Api.ApiService) (client : Client)
  : OverviewView :=
  DashboardOverview (Some client)
    (settle (settled (metricsQuery self client)))
    (settle (settled (commentsQuery self client)))
    (settle (settled (activityQuery self client))).

End WithClock.

End Overview.

(* ===================================================================== *)
(** ** The single-file dashboard's time format                            *)
(* ===================================================================== *)

Module AppView.

Section WithDates.

(** [new Date(dateString).getTime()], in milliseconds. *)
Variable Date_parse : string -> Z.

(** [formatTimeAgo(dateString)] called at the instant [now]
    (milliseconds); [Math.floor] of a quotient is the floor division. *)
Definition formatTimeAgo (now : Z) (dateString : string) : string :=
  let diffInMinutes := (now - Date_parse dateString) / (1000 * 60) in
  if diffInMinutes <? 60 then Js.number_to_string diffInMinutes ++ "m ago"
  else if diffInMinutes <? 1440
       then Js.number_to_string (diffInMinutes / 60) ++ "h ago"
  else Js.number_to_string (diffInMinutes / 1440) ++ "d ago".

End WithDates.

End AppView.

(* ===================================================================== *)
(** ** The Lambda functions: deployed names, log groups and alarms        *)
(* ===================================================================== *)

Module Functions.

(** The directories the deployment script packages and deploys. *)
Definition functions : list string :=
  ["ingestion-function"; "classification-function"; "reply-handler";
   "hide-handler"; "escalation-handler"; "dashboard-api"].

(** [aws_function_name] in [deploy_function]. *)
Definition aws_function_name (function_name : string) : string :=
  Deploy.PROJECT_NAME ++ "-" ++ function_name ++ "-" ++ Deploy.ENVIRONMENT.

(** The keys of [aws_cloudwatch_log_group.lambda_logs] and of
    [aws_cloudwatch_metric_alarm.lambda_errors] ([for_each]). *)
Definition log_group_keys : list string :=
  ["ingestion"; "classification"; "reply-handler"; "hide-handler";
   "escalation-handler"; "dashboard-api"].

Definition alarm_keys : list string :=
  ["ingestion"; "classification"; "reply-handler"; "hide-handler";
   "escalation-handler"].

Record LogGroup := {
  log_group_name : string;
  retention_in_days : Z
}.

Definition lambda_logs (var : Infra.Vars) : list LogGroup :=
  map (fun k =>
         {| log_group_name :=
              "/aws/lambda/" ++ Infra.project_name var ++ "-" ++ k ++ "-"
                ++ Infra.environment var;
            retention_in_days := 7 |})
    log_group_keys.

Record MetricAlarm := {
  alarm_name : string;
  comparison_operator : string;
  evaluation_periods : Z;
  metric_name : string;
  namespace : string;
  period : Z;
  statistic : string;
  threshold : Z;
  dimension_FunctionName : string
}.

Definition lambda_errors (var : Infra.Vars) : list MetricAlarm :=
  map (fun k =>
         {| alarm_name :=
              Infra.project_name var ++ "-" ++ k ++ "-errors-"
                ++ Infra.environment var;
            comparison_operator := "GreaterThanThreshold";
            evaluation_periods := 2;
            metric_name := "Errors";
            namespace := "AWS/Lambda";
            period := 300;
            statistic := "Sum";
            threshold := 5;
            dimension_FunctionName :=
              Infra.project_name var ++ "-" ++ k ++ "-"
                ++ Infra.environment var |})
    alarm_keys.

(** The log group a Lambda function writes to: [/aws/lambda/] followed
    by the function's name. *)
Definition log_group_of (aws_name : string) : string :=
  "/aws/lambda/" ++ aws_name.

(** The function the dashboard API's integrations and its Lambda
    permission name. *)
Definition api_function (var : Infra.Vars) : string :=
  Infra.project_name var ++ "-dashboard-api-" ++ Infra.environment var.

End Functions.

(* ===================================================================== *)
(** ** Concrete inputs                                                    *)
(* ===================================================================== *)

(** A classification with the given scores and labels. *)
Definition sample_classification (tox conf : Z) (s : Types.Sentiment)
    (u : Types.Urgency) (q : bool) : Types.Classification :=
  {| Types.sentiment := s; Types.urgency := u; Types.intent := Types.general;
     Types.toxicity_score := tox; Types.confidence := conf;
     Types.requires_response := q; Types.suggested_action := Types.ignore |}.

(** The queue message of a comment, received [n] times so far. *)
Definition sample_message (n : Z) : Infra.QueueMessage :=
  {| Infra.msg_comment_id := "comment_003";
     Infra.msg_client_id := "demo_client_001";
     Infra.msg_action := "classify_comment";
     Infra.receive_count := n |}.

(** A complete model response with the given scores. *)
Definition sample_response (tox conf : Z) : Classifier.LlmResponse :=
  {| Classifier.r_sentiment := Some "negative";
     Classifier.r_urgency := Some "high";
     Classifier.r_intent := Some "complaint";
     Classifier.r_toxicity_score := Some tox;
     Classifier.r_confidence := Some conf;
     Classifier.r_requires_response := Some true;
     Classifier.r_suggested_action := Some "escalate" |}.

(** What [sample_response 6 92] validates to. *)
Definition sample_valid : Types.Classification :=
  {| Types.sentiment := Types.negative; Types.urgency := Types.high;
     Types.intent := Types.complaint; Types.toxicity_score := 6;
     Types.confidence := 92; Types.requires_response := true;
     Types.suggested_action := Types.escalate |}.

(** A network on which every [fetch] rejects, and one that answers 500
    with an empty error body. *)
Definition net_down (T : Type) (_ : Js.Request)
  : Js.Promise (Js.Response (Types.ApiResponse T)) :=
  Js.Rejected (Js.ErrorObject "Failed to fetch").

Definition empty_error_body (T : Type) : Types.ApiResponse T :=
  {| Types.resp_status := Types.error; Types.data := None;
     Types.message := None; Types.errors := None |}.

Definition response_500 (T : Type) : Js.Response (Types.ApiResponse T) :=
  {| Js.ok := false; Js.http_status := 500;
     Js.json := Js.Resolved (empty_error_body T) |}.

Definition net_500 (T : Type) (_ : Js.Request)
  : Js.Promise (Js.Response (Types.ApiResponse T)) :=
  Js.Resolved (response_500 T).

(** The scenario's comment as ingestion stores it: [pending], without a
    classification or an action. *)
Definition scenario_comment : Types.Comment :=
  {| Types.comment_id := "scenario_comment"; Types.client_id := "demo_client_001";
     Types.platform := Types.facebook;
     Types.text := "This is the worst product I have ever bought. Complete waste of money! Never buying again. Terrible customer service too.";
     Types.author_name := "John Smith"; Types.author_id := "user_003";
     Types.created_time := "2025-06-02T08:45:00Z"; Types.like_count := 0;
     Types.comment_status := Types.pending;
     Types.classification := None; Types.action_taken := None;
     Types.reply_sent := None; Types.is_hidden := None;
     Types.is_escalated := None |}.

(** A world that holds only the scenario's comment. *)
Definition scenario_world : Pipeline.World :=
  {| Pipeline.store := [scenario_comment]; Pipeline.audit := [];
     Pipeline.notifications := [] |}.

(** An executor that does nothing. *)
Definition idle_executor (w : Pipeline.World) (_ : Types.Comment)
    (_ : Types.Classification) : Pipeline.World * Pipeline.Outcome :=
  (w, Pipeline.Success).

(** A comment as the API may answer it: classified with a toxicity
    of 11. *)
Definition toxicity_eleven : Types.Comment :=
  {| Types.comment_id := "comment_011"; Types.client_id := "demo_client_001";
     Types.platform := Types.facebook;
     Types.text := "Never buying again.";
     Types.author_name := "John Smith"; Types.author_id := "user_003";
     Types.created_time := "2025-06-02T08:45:00Z"; Types.like_count := 0;
     Types.comment_status := Types.processed;
     Types.classification := Some
       {| Types.sentiment := Types.negative; Types.urgency := Types.high;
          Types.intent := Types.complaint; Types.toxicity_score := 11;
          Types.confidence := 92; Types.requires_response := true;
          Types.suggested_action := Types.escalate |};
     Types.action_taken := Some Types.escalated; Types.reply_sent := None;
     Types.is_hidden := None; Types.is_escalated := Some true |}.

(** A parsed metrics body and a parsed comments body. *)
Definition metrics_body : Js.Json :=
  Js.JObject [("data", Js.JObject [("total_comments", Js.JNumber 3)])].

Definition comments_body : Js.Json :=
  Js.JObject [("comments", Js.JArray [])].

Definition ok_response (b : Js.Json) : Js.Response Js.Json :=
  {| Js.ok := true; Js.http_status := 200; Js.json := Js.Resolved b |}.

(** The deployment's variables: the script's region, project and
    environment. *)
Definition deployed_vars : Infra.Vars :=
  {| Infra.aws_region := "ap-south-1"; Infra.project_name := "orm-platform";
     Infra.environment := "dev" |}.

(* ===================================================================== *)
(** * Properties                                                          *)
(* ===================================================================== *)

(** ** The Action Router *)

Section RouterProperties.
Import Types Router.

Lemma sentiment_eqb_eq (a b : Sentiment) : sentiment_eqb a b = true <-> a = b.
Proof. destruct a, b; simpl; split; congruence. Qed.

Lemma urgency_eqb_eq (a b : Urgency) : urgency_eqb a b = true <-> a = b.
Proof. destruct a, b; simpl; split; congruence. Qed.

Lemma escalation_guard (c : Classification) :
  sentiment_eqb (sentiment c) negative && urgency_eqb (urgency c) high = true
  <-> sentiment c = negative /\ urgency c = high.
Proof.
  rewrite andb_true_iff, sentiment_eqb_eq, urgency_eqb_eq. tauto.
Qed.

Lemma reply_guard (c : Classification) (r : ModerationRules) :
  requires_response c && (min_confidence_of r <=? confidence c) = true
  <-> requires_response c = true /\ min_confidence_of r <= confidence c.
Proof. rewrite andb_true_iff, Z.leb_le. tauto. Qed.

(** The policy list, unfolded into the cascade it stands for. *)
Lemma decide_cascade (c : Classification) (r : ModerationRules) :
  decide c r =
    if threshold_of r <=? toxicity_score c then hide
    else if sentiment_eqb (sentiment c) negative && urgency_eqb (urgency c) high
         then escalate
    else if requires_response c && (min_confidence_of r <=? confidence c)
         then reply
    else ignore.
Proof. reflexivity. Qed.

Lemma decide_hide (c : Classification) (r : ModerationRules) :
  threshold_of r <= toxicity_score c -> decide c r = hide.
Proof.
  intros H. rewrite decide_cascade.
  apply Z.leb_le in H. rewrite H. reflexivity.
Qed.

Lemma decide_below_threshold (c : Classification) (r : ModerationRules) :
  toxicity_score c < threshold_of r ->
  decide c r =
    if sentiment_eqb (sentiment c) negative && urgency_eqb (urgency c) high
    then escalate
    else if requires_response c && (min_confidence_of r <=? confidence c)
         then reply
    else ignore.
Proof.
  intros H. rewrite decide_cascade.
  apply Z.leb_gt in H. rewrite H. reflexivity.
Qed.

Lemma decide_escalate (c : Classification) (r : ModerationRules) :
  toxicity_score c < threshold_of r ->
  sentiment c = negative -> urgency c = high ->
  decide c r = escalate.
Proof.
  intros Hlo Hs Hu. rewrite (decide_below_threshold _ _ Hlo).
  destruct (escalation_guard c) as [_ Hg]. rewrite Hg by auto.
  reflexivity.
Qed.

Lemma decide_reply (c : Classification) (r : ModerationRules) :
  toxicity_score c < threshold_of r ->
  ~ (sentiment c = negative /\ urgency c = high) ->
  requires_response c = true ->
  min_confidence_of r <= confidence c ->
  decide c r = reply.
Proof.
  intros Hlo Hno Hq Hc. rewrite (decide_below_threshold _ _ Hlo).
  destruct (sentiment_eqb (sentiment c) negative
            && urgency_eqb (urgency c) high) eqn:Hesc.
  - apply escalation_guard in Hesc. contradiction.
  - destruct (reply_guard c r) as [_ Hg]. rewrite Hg by auto. reflexivity.
Qed.

Lemma decide_ignore (c : Classification) (r : ModerationRules) :
  toxicity_score c < threshold_of r ->
  ~ (sentiment c = negative /\ urgency c = high) ->
  ~ (requires_response c = true /\ min_confidence_of r <= confidence c) ->
  decide c r = ignore.
Proof.
  intros Hlo Hno Hnr. rewrite (decide_below_threshold _ _ Hlo).
  destruct (sentiment_eqb (sentiment c) negative
            && urgency_eqb (urgency c) high) eqn:Hesc.
  - apply escalation_guard in Hesc. contradiction.
  - destruct (requires_response c
              && (min_confidence_of r <=? confidence c)) eqn:Hrep.
    + apply reply_guard in Hrep. contradiction.
    + reflexivity.
Qed.

(** On the mock comments of the API service the router (with the
    default thresholds) decides what the records carry as
    [suggested_action]. *)
Lemma decide_agrees_with_mock (clientId : string) (k : Comment)
    (x : Classification) :
  In k (Api.mockComments clientId) ->
  classification k = Some x ->
  decide x default_rules = suggested_action x.
Proof.
  intros Hin Hk. simpl in Hin.
  repeat (destruct Hin as [<- | Hin]; [inversion Hk; reflexivity |]).
  contradiction.
Qed.

Lemma decide_iff_hide (c : Classification) (r : ModerationRules) :
  decide c r = hide <-> threshold_of r <= toxicity_score c.
Proof.
  split.
  - intros H. destruct (Z.le_gt_cases (threshold_of r) (toxicity_score c))
      as [Hle | Hgt]; [exact Hle |].
    rewrite (decide_below_threshold c r Hgt) in H.
    destruct (sentiment_eqb (sentiment c) negative
              && urgency_eqb (urgency c) high); [discriminate |].
    destruct (requires_response c && (min_confidence_of r <=? confidence c));
      discriminate.
  - apply decide_hide.
Qed.

Lemma decide_iff_escalate (c : Classification) (r : ModerationRules) :
  decide c r = escalate <->
  ~ threshold_of r <= toxicity_score c
  /\ (sentiment c = negative /\ urgency c = high).
Proof.
  split.
  - intros H.
    destruct (Z.le_gt_cases (threshold_of r) (toxicity_score c))
      as [Hle | Hgt]; [rewrite (decide_hide c r Hle) in H; discriminate |].
    split; [lia |].
    rewrite (decide_below_threshold c r Hgt) in H.
    destruct (sentiment_eqb (sentiment c) negative
              && urgency_eqb (urgency c) high) eqn:Hesc.
    + apply escalation_guard. exact Hesc.
    + destruct (requires_response c
                && (min_confidence_of r <=? confidence c)); discriminate.
  - intros [Hlo [Hs Hu]]. apply decide_escalate; [lia | exact Hs | exact Hu].
Qed.

Lemma decide_iff_reply (c : Classification) (r : ModerationRules) :
  decide c r = reply <->
  ~ threshold_of r <= toxicity_score c
  /\ ~ (sentiment c = negative /\ urgency c = high)
  /\ (requires_response c = true /\ min_confidence_of r <= confidence c).
Proof.
  split.
  - intros H.
    destruct (Z.le_gt_cases (threshold_of r) (toxicity_score c))
      as [Hle | Hgt]; [rewrite (decide_hide c r Hle) in H; discriminate |].
    split; [lia |].
    rewrite (decide_below_threshold c r Hgt) in H.
    destruct (sentiment_eqb (sentiment c) negative
              && urgency_eqb (urgency c) high) eqn:Hesc; [discriminate |].
    split.
    + intros Hu. apply escalation_guard in Hu. congruence.
    + destruct (requires_response c
                && (min_confidence_of r <=? confidence c)) eqn:Hrep;
        [| discriminate].
      apply reply_guard. exact Hrep.
  - intros [Hlo [Hno [Hq Hc]]]. apply decide_reply; [lia | exact Hno | exact Hq | exact Hc].
Qed.

Lemma decide_iff_ignore (c : Classification) (r : ModerationRules) :
  decide c r = ignore <->
  ~ threshold_of r <= toxicity_score c
  /\ ~ (sentiment c = negative /\ urgency c = high)
  /\ ~ (requires_response c = true /\ min_confidence_of r <= confidence c).
Proof.
  split.
  - intros H.
    destruct (Z.le_gt_cases (threshold_of r) (toxicity_score c))
      as [Hle | Hgt]; [rewrite (decide_hide c r Hle) in H; discriminate |].
    split; [lia |].
    rewrite (decide_below_threshold c r Hgt) in H.
    destruct (sentiment_eqb (sentiment c) negative
              && urgency_eqb (urgency c) high) eqn:Hesc; [discriminate |].
    split.
    + intros Hu. apply escalation_guard in Hu. congruence.
    + destruct (requires_response c
                && (min_confidence_of r <=? confidence c)) eqn:Hrep;
        [discriminate |].
      intros Ha. apply reply_guard in Ha. congruence.
  - intros [Hlo [Hno Hnr]]. apply decide_ignore; [lia | exact Hno | exact Hnr].
Qed.

(** The thresholds a configuration stands for: its own, or the defaults
    7 and 70 where it sets none. *)
Lemma thresholds_of_rules (r : ModerationRules) :
  threshold_of r = match toxicity_threshold r with Some t => t | None => 7 end
  /\ min_confidence_of r
     = match min_confidence r with Some m => m | None => 70 end.
Proof. split; reflexivity. Qed.

(** C1: for every classification and every client configuration,
    [decide] returns the action of the first rule that matches.  With
    the configured toxicity threshold (7 when the configuration sets
    none) and minimum confidence (70 when it sets none): the decision is
    [hide] exactly when the toxicity score reaches the threshold;
    [escalate] exactly when it does not and sentiment is negative with
    high urgency; [reply] exactly when neither holds and a response is
    required with confidence at or above the minimum; [ignore] exactly
    when none of the three holds.  So toxicity 8, negative sentiment and
    confidence 99 give [hide] under the default configuration and under
    every configuration whose threshold is at most 8, whatever the
    urgency (rule 1 wins over rule 2); a required response with
    confidence 60 under a minimum of 70 is ignored; and on every
    classification of the API service's mock comments (the spam comment
    [comment_004] among them) the decision under the defaults is the
    recorded [suggested_action]. *)
Theorem decide_first_match_wins :
  forall (c : Classification) (r : ModerationRules),
    let threshold :=
      match toxicity_threshold r with Some t => t | None => 7 end in
    let minimum :=
      match min_confidence r with Some m => m | None => 70 end in
    let toxic := threshold <= toxicity_score c in
    let urgent := sentiment c = negative /\ urgency c = high in
    let answerable :=
      requires_response c = true /\ minimum <= confidence c in
    (decide c r = hide <-> toxic)
    /\ (decide c r = escalate <-> ~ toxic /\ urgent)
    /\ (decide c r = reply <-> ~ toxic /\ ~ urgent /\ answerable)
    /\ (decide c r = ignore <-> ~ toxic /\ ~ urgent /\ ~ answerable)
    /\ (forall u i q a,
          threshold <= 8 ->
          decide {| sentiment := negative; urgency := u; intent := i;
                    toxicity_score := 8; confidence := 99;
                    requires_response := q; suggested_action := a |} r
          = hide)
    /\ (forall u i q a,
          decide {| sentiment := negative; urgency := u; intent := i;
                    toxicity_score := 8; confidence := 99;
                    requires_response := q; suggested_action := a |}
            default_rules = hide)
    /\ (forall s u i t a,
          t < 7 -> ~ (s = negative /\ u = high) ->
          decide {| sentiment := s; urgency := u; intent := i;
                    toxicity_score := t; confidence := 60;
                    requires_response := true; suggested_action := a |}
            {| toxicity_threshold := None; min_confidence := Some 70 |}
          = ignore)
    /\ (forall clientId k,
          In k (Api.mockComments clientId) ->
          classification k = Some c ->
          decide c default_rules = suggested_action c).
Proof.
  intros c r threshold minimum toxic urgent answerable.
  destruct (thresholds_of_rules r) as [Ht Hm].
  unfold toxic, urgent, answerable, threshold, minimum.
  rewrite <- Ht, <- Hm.
  split; [apply decide_iff_hide |].
  split; [apply decide_iff_escalate |].
  split; [apply decide_iff_reply |].
  split; [apply decide_iff_ignore |].
  split.
  { intros u i q a H8. apply decide_hide. simpl. exact H8. }
  split.
  { intros u i q a. apply decide_hide. unfold threshold_of. simpl. lia. }
  split.
  { intros s u i t a Hlo Hno. apply decide_ignore.
    - unfold threshold_of. simpl. exact Hlo.
    - simpl. exact Hno.
    - unfold min_confidence_of. simpl. intros [_ H]. lia. }
  intros clientId k. apply decide_agrees_with_mock.
Qed.

End RouterProperties.

(** ** The work queue and the ingestion schedule *)

Section QueueProperties.
Import Infra.

Variable var : Vars.
Variable account_id : string.

Let q : SqsQueue := comment_processing var account_id.
Let dlq_arn : string := queue_arn var account_id (comment_processing_dlq var).

Lemma receive_below_maximum (m : QueueMessage) :
  receive_count m < 3 -> receive q m = Delivered (received m).
Proof.
  intros H. unfold receive, q. simpl.
  destruct (Z.ltb_spec 3 (receive_count m + 1)); [lia | reflexivity].
Qed.

Lemma receive_at_maximum (m : QueueMessage) :
  3 <= receive_count m -> receive q m = DeadLettered dlq_arn m.
Proof.
  intros H. unfold receive, q. simpl.
  destruct (Z.ltb_spec 3 (receive_count m + 1)); [reflexivity | lia].
Qed.

(** A message that is never acknowledged reaches the consumer three
    times and is then dead-lettered. *)
Lemma three_deliveries_then_dead_letter (fuel : nat) (m : QueueMessage) :
  (4 <= fuel)%nat -> receive_count m = 0 ->
  deliveries q fuel m =
    ([received m; received (received m); received (received (received m))],
     Some (dlq_arn, received (received (received m)))).
Proof.
  intros Hfuel H0.
  destruct fuel as [| [| [| [| fuel]]]]; try lia.
  cbn [deliveries].
  rewrite (receive_below_maximum m) by lia.
  rewrite (receive_below_maximum (received m)) by (simpl; lia).
  rewrite (receive_below_maximum (received (received m))) by (simpl; lia).
  rewrite (receive_at_maximum (received (received (received m))))
    by (simpl; lia).
  reflexivity.
Qed.

End QueueProperties.

Lemma next_batch_bound {A : Type} (acct : string) (waiting : list A) :
  (List.length (Deploy.next_batch (Deploy.sqs_trigger acct) waiting) <= 10)%nat.
Proof.
  unfold Deploy.next_batch. simpl Deploy.batch_size.
  rewrite length_firstn. change (Z.to_nat 10) with 10%nat. lia.
Qed.

(** C2: the work queue is configured as specified: the consumer's
    trigger reads the comment-processing queue (by its name under the
    default variables) in batches of at most 10, the visibility timeout is
    300 seconds, messages are kept 14 days, and the redrive policy names
    the dead-letter queue with a maximum receive count of 3, so that a
    message already received 3 times is moved to the dead-letter queue
    on its next receive instead of being delivered, while one received
    fewer times is delivered again with its count raised. *)
Theorem work_queue_configuration :
  forall (var : Infra.Vars) (account_id : string),
    let q := Infra.comment_processing var account_id in
    let dlq_arn :=
      Infra.queue_arn var account_id (Infra.comment_processing_dlq var) in
    Deploy.batch_size (Deploy.sqs_trigger account_id) = 10
    /\ Deploy.event_source_arn (Deploy.sqs_trigger account_id)
       = "arn:aws:sqs:" ++ Deploy.REGION ++ ":" ++ account_id ++ ":"
           ++ Infra.queue_name
                (Infra.comment_processing Infra.default_vars account_id)
    /\ (forall (waiting : list Infra.QueueMessage),
          (List.length (Deploy.next_batch (Deploy.sqs_trigger account_id) waiting)
           <= 10)%nat)
    /\ Infra.visibility_timeout_seconds q = Some 300
    /\ Infra.message_retention_seconds q = Some (14 * 24 * 60 * 60)
    /\ Infra.redrive_policy q =
         Some {| Infra.deadLetterTargetArn := dlq_arn;
                 Infra.maxReceiveCount := 3 |}
    /\ (forall m, 3 < Infra.receive_count m + 1 ->
          Infra.receive q m = Infra.DeadLettered dlq_arn m)
    /\ (forall m, Infra.receive_count m + 1 <= 3 ->
          Infra.receive q m = Infra.Delivered (Infra.received m))
    /\ (forall fuel m, (4 <= fuel)%nat -> Infra.receive_count m = 0 ->
          exists seen,
            Infra.deliveries q fuel m = (seen, Some (dlq_arn,
                          Infra.received (Infra.received (Infra.received m))))
            /\ List.length seen = 3%nat).
Proof.
  intros var account_id q dlq_arn.
  split; [reflexivity |].
  split; [reflexivity |].
  split; [intros waiting; apply next_batch_bound |].
  split; [reflexivity |].
  split; [reflexivity |].
  split; [reflexivity |].
  split; [intros m H; apply receive_at_maximum; lia |].
  split; [intros m H; apply receive_below_maximum; lia |].
  intros fuel m Hfuel H0.
  eexists. split.
  - apply three_deliveries_then_dead_letter; assumption.
  - reflexivity.
Qed.

Lemma ingestion_rate (var : Infra.Vars) :
  Infra.parse_rate
    (Infra.schedule_expression (Infra.comment_ingestion_schedule var))
  = Some (5, Infra.Minutes).
Proof. reflexivity. Qed.

Lemma ingestion_period (var : Infra.Vars) :
  Infra.period_seconds (Infra.comment_ingestion_schedule var) = Some 300.
Proof. unfold Infra.period_seconds. rewrite ingestion_rate. reflexivity. Qed.

(** Under the script's own region, project and environment the rule the
    script adds its target to is the rule Terraform creates. *)
Lemma ingestion_rule_addressed (var : Infra.Vars) (account_id : string) :
  Infra.aws_region var = Deploy.REGION ->
  Infra.project_name var = Deploy.PROJECT_NAME ->
  Infra.environment var = Deploy.ENVIRONMENT ->
  Deploy.addressed_rule account_id (Deploy.ingestion_target account_id)
  = Infra.rule_arn var account_id (Infra.comment_ingestion_schedule var).
Proof.
  intros Hr Hp He. unfold Deploy.addressed_rule, Infra.rule_arn.
  simpl. rewrite Hr, Hp, He. reflexivity.
Qed.

(** C9: the Ingestion Poller is triggered every 5 minutes.  The rule's
    schedule expression reads as the rate "5 minutes", its period is
    300 seconds and consecutive triggers are exactly 5 minutes apart.
    Where Terraform is applied with the region, project and environment
    the deployment script uses, what a trigger of this rule invokes is
    the ingestion function and nothing else: the script makes the
    function it deployed from [ingestion-function] the rule's one
    target, and permits the event service to invoke that function on
    behalf of this rule. *)
Theorem ingestion_every_five_minutes :
  forall (var : Infra.Vars) (account_id : string),
    Infra.aws_region var = Deploy.REGION ->
    Infra.project_name var = Deploy.PROJECT_NAME ->
    Infra.environment var = Deploy.ENVIRONMENT ->
    let rule := Infra.comment_ingestion_schedule var in
    let ingestion :=
      "arn:aws:lambda:" ++ Deploy.REGION ++ ":" ++ account_id ++ ":function:"
        ++ Functions.aws_function_name "ingestion-function" in
    Infra.parse_rate (Infra.schedule_expression rule)
      = Some (5, Infra.Minutes)
    /\ Infra.period_seconds rule = Some (5 * 60)
    /\ (forall (start : Z) (k : nat),
          exists t t',
            Infra.trigger_time rule start k = Some t
            /\ Infra.trigger_time rule start (S k) = Some t'
            /\ t' - t = 5 * 60)
    /\ Deploy.invoked_by account_id (Infra.rule_arn var account_id rule)
       = [ingestion]
    /\ In "ingestion-function" Functions.functions
    /\ Deploy.permitted_function (Deploy.eventbridge_invoke account_id)
       = Functions.aws_function_name "ingestion-function"
    /\ Deploy.permitted_action (Deploy.eventbridge_invoke account_id)
       = "lambda:InvokeFunction"
    /\ Deploy.principal (Deploy.eventbridge_invoke account_id)
       = "events.amazonaws.com"
    /\ Deploy.source_arn (Deploy.eventbridge_invoke account_id)
       = Infra.rule_arn var account_id rule.
Proof.
  intros var account_id Hr Hp He. cbv zeta.
  split; [apply ingestion_rate |].
  split; [apply ingestion_period |].
  split.
  { intros start k. unfold Infra.trigger_time.
    rewrite ingestion_period.
    eexists. eexists. split; [reflexivity |]. split; [reflexivity |].
    rewrite Nat2Z.inj_succ. lia. }
  split.
  { unfold Deploy.invoked_by.
    rewrite (ingestion_rule_addressed var account_id Hr Hp He).
    rewrite String.eqb_refl. reflexivity. }
  split; [simpl; tauto |].
  split; [reflexivity |].
  split; [reflexivity |].
  split; [reflexivity |].
  rewrite <- (ingestion_rule_addressed var account_id Hr Hp He).
  reflexivity.
Qed.

(** Under the variables' defaults the region is another one: the rule
    Terraform creates there is not the rule the script addresses. *)
Example ingestion_rule_default_region :
  Deploy.invoked_by "123456789012"
    (Infra.rule_arn Infra.default_vars "123456789012"
       (Infra.comment_ingestion_schedule Infra.default_vars))
  = [].
Proof. reflexivity. Qed.

Example parse_rate_singular :
  Infra.parse_rate "rate(1 hour)" = Some (1, Infra.Hours)
  /\ Infra.parse_rate "rate(1 hours)" = None
  /\ Infra.parse_rate "rate(0 minutes)" = None
  /\ Infra.parse_rate "cron(0/5 * * * ? *)" = None.
Proof. repeat split; reflexivity. Qed.

(** ** The audit store's access structure *)

Section AuditStoreProperties.
Import Infra.
Variable var : Vars.

Lemma audit_access_paths :
  access_paths (audit_logs var)
  = [("log_id", None); ("action_type", Some "timestamp")].
Proof. reflexivity. Qed.

Lemma audit_no_client_partition (sort : string) :
  serves_ordered_query (audit_logs var) "client_id" sort = false.
Proof.
  unfold serves_ordered_query. rewrite audit_access_paths. reflexivity.
Qed.

Lemma serves_ordered_query_sound (t : DynamoTable) (partition sort : string) :
  serves_ordered_query t partition sort = true <->
  In (partition, Some sort) (access_paths t).
Proof.
  unfold serves_ordered_query. rewrite existsb_exists. split.
  - intros [[h [s |]] [Hin Hp]]; simpl in Hp;
      apply andb_true_iff in Hp; destruct Hp as [Hh Hs];
      try discriminate.
    apply String.eqb_eq in Hh, Hs. subst. exact Hin.
  - intros Hin. exists (partition, Some sort). split; [exact Hin |].
    simpl. rewrite !String.eqb_refl. reflexivity.
Qed.

End AuditStoreProperties.

(** C7, as stated, fails: no key schema of the audit table has
    [client_id] as its partition key, so a per-client query ordered by
    [timestamp] is not one the table's access structure serves. *)
Lemma audit_store_not_keyed_by_client :
  ~ (Infra.serves_ordered_query (Infra.audit_logs Infra.default_vars)
       "client_id" "timestamp" = true
     /\ Infra.serves_ordered_query (Infra.audit_logs Infra.default_vars)
          "action_type" "timestamp" = true).
Proof.
  intros [Hclient _].
  rewrite audit_no_client_partition in Hclient. discriminate.
Qed.

(** C7, amended: the audit table is keyed by [log_id] and has one
    secondary index, [TimestampIndex], on ([action_type], [timestamp]):
    its access structure serves the entries of one action type ordered
    by time, and nothing keyed by client: [client_id] is neither a
    declared attribute nor the partition key of any key schema of the
    table (the comments table, by contrast, has [ClientIndex] on
    ([client_id], [created_at])).  The dashboard's per-client activity
    request is [GET /activity/{client_id}?limit=n]. *)
Theorem audit_store_access_structure :
  forall (var : Infra.Vars),
    Infra.access_paths (Infra.audit_logs var)
      = [("log_id", None); ("action_type", Some "timestamp")]
    /\ Infra.serves_ordered_query (Infra.audit_logs var)
         "action_type" "timestamp" = true
    /\ (forall sort,
          Infra.serves_ordered_query (Infra.audit_logs var) "client_id" sort
          = false)
    /\ Infra.declares_attribute (Infra.audit_logs var) "client_id" = false
    /\ Infra.serves_ordered_query (Infra.comments var)
         "client_id" "created_at" = true
    /\ In ("GET", Some "/activity/{client_id}") Infra.api_routes
    /\ (forall net clientId limit,
          Js.issued
            (Api.getActivityLog net (Api.apiService true) clientId (Some limit))
          = [ {| Js.url := Api.API_BASE_URL true ++ "/activity/" ++ clientId
                             ++ "?limit=" ++ Js.number_to_string limit;
                 Js.init := Some (Api.build_init None) |} ]).
Proof.
  intros var.
  split; [apply audit_access_paths |].
  split; [apply serves_ordered_query_sound; rewrite audit_access_paths;
          simpl; auto |].
  split; [apply audit_no_client_partition |].
  split; [reflexivity |].
  split; [apply serves_ordered_query_sound; simpl; auto |].
  split; [vm_compute; tauto |].
  intros net clientId limit.
  unfold Api.getActivityLog, Api.apiService, Api.apiCall. simpl.
  destruct (net _ _) as [resp | e]; [| reflexivity].
  destruct (Js.json resp) as [d | e]; [| reflexivity].
  destruct (Js.ok resp); reflexivity.
Qed.

(** ** Failure states in the dashboard's data model *)

Section FailureStateProperties.
Import Types Views.

Lemma action_type_members (s : string) :
  (exists a, action_type_of_string s = Some a) <->
  In s ["reply_sent"; "comment_hidden"; "comment_escalated";
        "classification_completed"].
Proof.
  unfold action_type_of_string, all_action_types. cbn [find action_type_name].
  destruct (String.eqb_spec "reply_sent" s);
    [subst; split; [simpl; auto | eauto] |].
  destruct (String.eqb_spec "comment_hidden" s);
    [subst; split; [simpl; auto | eauto] |].
  destruct (String.eqb_spec "comment_escalated" s);
    [subst; split; [simpl; auto | eauto] |].
  destruct (String.eqb_spec "classification_completed" s);
    [subst; split; [simpl; auto | eauto] |].
  split.
  - intros [a Ha]. discriminate.
  - simpl. intuition congruence.
Qed.

Lemma comment_status_members (s : string) :
  (exists a, comment_status_of_string s = Some a) <->
  In s ["pending"; "classified"; "processed"].
Proof.
  unfold comment_status_of_string, all_comment_statuses.
  cbn [find comment_status_name].
  destruct (String.eqb_spec "pending" s);
    [subst; split; [simpl; auto | eauto] |].
  destruct (String.eqb_spec "classified" s);
    [subst; split; [simpl; auto | eauto] |].
  destruct (String.eqb_spec "processed" s);
    [subst; split; [simpl; auto | eauto] |].
  split.
  - intros [a Ha]. discriminate.
  - simpl. intuition congruence.
Qed.

Lemma action_taken_members (s : string) :
  (exists a, action_taken_of_string s = Some a) <->
  In s ["replied"; "hidden"; "escalated"; "ignored"].
Proof.
  unfold action_taken_of_string, all_actions_taken.
  cbn [find action_taken_name].
  destruct (String.eqb_spec "replied" s);
    [subst; split; [simpl; auto | eauto] |].
  destruct (String.eqb_spec "hidden" s);
    [subst; split; [simpl; auto | eauto] |].
  destruct (String.eqb_spec "escalated" s);
    [subst; split; [simpl; auto | eauto] |].
  destruct (String.eqb_spec "ignored" s);
    [subst; split; [simpl; auto | eauto] |].
  split.
  - intros [a Ha]. discriminate.
  - simpl. intuition congruence.
Qed.

(** An action type outside the union falls to the [default] branches of
    the activity feed. *)
Lemma unknown_activity_is_generic (s : string) :
  action_type_of_string s = None ->
  getActivityIcon s = Clock
  /\ getActivityColor s = "text-gray-600 bg-gray-100"
  /\ getActivityTitle s = "Activity".
Proof.
  intros Hnone.
  assert (Hnot : ~ In s ["reply_sent"; "comment_hidden"; "comment_escalated";
                         "classification_completed"]).
  { rewrite <- action_type_members. intros [a Ha]. congruence. }
  simpl in Hnot.
  unfold getActivityIcon, getActivityColor, getActivityTitle.
  destruct (String.eqb_spec s "reply_sent"); [subst; tauto |].
  destruct (String.eqb_spec s "comment_hidden"); [subst; tauto |].
  destruct (String.eqb_spec s "comment_escalated"); [subst; tauto |].
  destruct (String.eqb_spec s "classification_completed"); [subst; tauto |].
  repeat split.
Qed.

Lemma commentRow_ignores_status (fmt : string -> string) (c : Comment)
    (st : CommentStatus) :
  commentRow fmt (with_status c st) = commentRow fmt c.
Proof. destruct c. reflexivity. Qed.

Lemma unknown_action_badge (a : string) :
  ~ In a ["replied"; "escalated"; "hidden"] ->
  App.action_badge (Some a) = App.action_badge None.
Proof.
  intros Hnot. simpl in Hnot. unfold App.action_badge.
  destruct (String.eqb_spec a "replied"); [subst; tauto |].
  destruct (String.eqb_spec a "escalated"); [subst; tauto |].
  destruct (String.eqb_spec a "hidden"); [subst; tauto |].
  reflexivity.
Qed.

End FailureStateProperties.

(** C5, as stated, fails: of the five action types it lists,
    [action_failed] is not a member of the dashboard's
    [ActivityLog.action_type]. *)
Lemma action_failed_not_an_activity_type :
  ~ (forall s,
       In s ["reply_sent"; "comment_hidden"; "comment_escalated";
             "classification_completed"; "action_failed"] ->
       exists a, Types.action_type_of_string s = Some a).
Proof.
  intros H.
  destruct (H "action_failed") as [a Ha]; [simpl; tauto |].
  vm_compute in Ha. discriminate.
Qed.

(** C5, amended: the dashboard's [ActivityLog.action_type] ranges over
    four values, [reply_sent], [comment_hidden], [comment_escalated] and
    [classification_completed]; a comment's [status] over [pending],
    [classified] and [processed], and its [action_taken] over [replied],
    [hidden], [escalated] and [ignored]: none of them names a failure.
    An activity of any other type is rendered by the feed's default
    branches (clock icon, grey, titled "Activity"); the comment list
    renders a comment the same whatever its [status]; and the
    single-file dashboard shows every comment whose [action_taken] is
    not [replied], [escalated] or [hidden] as "Processing", like one
    with no action yet. *)
Theorem dashboard_has_no_failed_state :
  forall (s : string),
    ((exists a, Types.action_type_of_string s = Some a) <->
     In s ["reply_sent"; "comment_hidden"; "comment_escalated";
           "classification_completed"])
    /\ ((exists a, Types.comment_status_of_string s = Some a) <->
        In s ["pending"; "classified"; "processed"])
    /\ ((exists a, Types.action_taken_of_string s = Some a) <->
        In s ["replied"; "hidden"; "escalated"; "ignored"])
    /\ (Types.action_type_of_string s = None ->
        Views.getActivityIcon s = Views.Clock
        /\ Views.getActivityColor s = "text-gray-600 bg-gray-100"
        /\ Views.getActivityTitle s = "Activity")
    /\ (forall fmt c st,
          Views.commentRow fmt (Views.with_status c st)
          = Views.commentRow fmt c)
    /\ (~ In s ["replied"; "escalated"; "hidden"] ->
        App.action_badge (Some s) = App.action_badge None).
Proof.
  intros s.
  split; [apply action_type_members |].
  split; [apply comment_status_members |].
  split; [apply action_taken_members |].
  split; [apply unknown_activity_is_generic |].
  split; [apply commentRow_ignores_status |].
  apply unknown_action_badge.
Qed.

(** ** The rates the dashboard shows *)

Section RateProperties.
Import Types Views.

(** The summaries read the three stored members and nothing else. *)
Lemma performanceSummary_frame (m m' : DashboardMetrics) :
  processing_time_avg m' = processing_time_avg m ->
  response_rate m' = response_rate m ->
  automation_rate m' = automation_rate m ->
  performanceSummary m' = performanceSummary m
  /\ App.performance_grid m' = App.performance_grid m
  /\ App.automation_status m' = App.automation_status m.
Proof.
  intros Ht Hr Ha.
  unfold performanceSummary, App.performance_grid, App.automation_status.
  rewrite Ht, Hr, Ha. repeat split.
Qed.

(** The cards read the six counts they show and the total, and none of
    the stored rates. *)
Lemma metricCards_frame (m m' : DashboardMetrics) :
  total_comments m' = total_comments m ->
  positive_comments m' = positive_comments m ->
  negative_comments m' = negative_comments m ->
  auto_replied m' = auto_replied m ->
  hidden_comments m' = hidden_comments m ->
  escalated_comments m' = escalated_comments m ->
  metricCards m' = metricCards m /\ App.metrics_grid m' = App.metrics_grid m.
Proof.
  intros Ht Hp Hn Ha Hh He. unfold metricCards, App.metrics_grid.
  rewrite Ht, Hp, Hn, Ha, Hh, He. split; reflexivity.
Qed.

Lemma floats_differ (x y : float) :
  Prim2SF x <> Prim2SF y -> x <> y.
Proof. intros H E. apply H. rewrite E. reflexivity. Qed.

End RateProperties.

(** C4, as stated, fails: on the metrics record of the API service's
    mock data the automation rate shown (95.1) is neither
    (replied + hidden) / total (468 / 1247) nor that ratio as a
    percentage. *)
Lemma mock_automation_rate_not_derived :
  ~ (let m := Api.baseMetrics in
     Types.automation_rate m
     = ((Types.auto_replied m + Types.hidden_comments m)
          / Types.total_comments m)%float
     \/ Types.automation_rate m
        = ((Types.auto_replied m + Types.hidden_comments m)
             / Types.total_comments m * 100)%float).
Proof.
  cbv zeta. intros [H | H]; revert H; apply floats_differ;
    vm_compute; discriminate.
Qed.

(** C4, amended: the response rate and the automation rate are members
    of the metrics record, and the dashboards show them as received.
    The performance summary of [MetricsGrid], and in the single-file
    dashboard the performance summary and the sidebar's footer, show
    [response_rate] and [automation_rate] (and the average processing
    time) themselves and read none of the counts; the navigation
    sidebar's "95.1% efficiency" and the activity feed's "95% automated
    processing" are fixed texts.  What both dashboards compute from
    counts are three subtitles of the cards: [positive_comments],
    [negative_comments] and [auto_replied], each divided by
    [total_comments], times 100, printed with one decimal, the last one
    captioned "% automation rate" ("% automation" in the single-file
    dashboard); the cards read none of the stored rates. *)
Theorem rates_shown_as_received :
  forall (m : Types.DashboardMetrics),
    let percent (x : float) : string :=
      Js.toFixed1 ((x / Types.total_comments m) * 100)%float in
    Views.performanceSummary m
      = [ ("Avg Processing Time", Types.processing_time_avg m,
           "From comment to action");
          ("Response Rate", Types.response_rate m,
           "Comments receiving replies");
          ("Automation Rate", Types.automation_rate m,
           "Fully automated actions") ]
    /\ App.performance_grid m
       = [ ("Avg Processing Time", Types.processing_time_avg m);
           ("Response Rate", Types.response_rate m);
           ("Automation Rate", Types.automation_rate m) ]
    /\ App.automation_status m = ("Automation Rate", Types.automation_rate m)
    /\ (forall m',
          Types.processing_time_avg m' = Types.processing_time_avg m ->
          Types.response_rate m' = Types.response_rate m ->
          Types.automation_rate m' = Types.automation_rate m ->
          Views.performanceSummary m' = Views.performanceSummary m
          /\ App.performance_grid m' = App.performance_grid m
          /\ App.automation_status m' = App.automation_status m)
    /\ Nav.automationStatus = ("Automation Rate", "95.1% efficiency")
    /\ Feed.systemPerformance = "95% automated processing"
    /\ map (fun c => (Views.title c, Views.subtitle c)) (Views.metricCards m)
       = [ ("Total Comments", "Last 30 days");
           ("Positive Sentiment",
            percent (Types.positive_comments m) ++ "% of total");
           ("Negative/Toxic",
            percent (Types.negative_comments m) ++ "% of total");
           ("Auto-Replied",
            percent (Types.auto_replied m) ++ "% automation rate");
           ("Hidden/Moderated", "Toxic content blocked");
           ("Escalated to Human", "High-priority issues") ]
    /\ map (fun x => (fst (fst x), snd x)) (App.metrics_grid m)
       = [ ("Total Comments", "Last 30 days");
           ("Positive Sentiment",
            percent (Types.positive_comments m) ++ "% of total");
           ("Negative/Toxic",
            percent (Types.negative_comments m) ++ "% of total");
           ("Auto-Replied",
            percent (Types.auto_replied m) ++ "% automation");
           ("Hidden/Moderated", "Toxic content blocked");
           ("Escalated to Human", "High-priority issues") ]
    /\ (forall m',
          Types.total_comments m' = Types.total_comments m ->
          Types.positive_comments m' = Types.positive_comments m ->
          Types.negative_comments m' = Types.negative_comments m ->
          Types.auto_replied m' = Types.auto_replied m ->
          Types.hidden_comments m' = Types.hidden_comments m ->
          Types.escalated_comments m' = Types.escalated_comments m ->
          Views.metricCards m' = Views.metricCards m
          /\ App.metrics_grid m' = App.metrics_grid m).
Proof.
  intros m percent.
  split; [reflexivity |].
  split; [reflexivity |].
  split; [reflexivity |].
  split; [apply performanceSummary_frame |].
  split; [reflexivity |].
  split; [reflexivity |].
  split; [reflexivity |].
  split; [reflexivity |].
  apply metricCards_frame.
Qed.

Example mock_metrics_display :
  In ("Automation Rate", 95.1%float, "Fully automated actions")
     (Views.performanceSummary Api.baseMetrics)
  /\ Js.Number_toString (Types.automation_rate Api.baseMetrics) = "95.1"
  /\ Views.percent_of (Types.auto_replied Api.baseMetrics)
       (Types.total_comments Api.baseMetrics)
     = "35.7"
  /\ Views.percent_of 1 3 = "33.3"
  /\ Views.percent_of 2 3 = "66.7"
  /\ Views.percent_of 0 0 = "NaN"
  /\ Views.percent_of 1 0 = "Infinity".
Proof.
  split; [simpl; tauto |]. repeat split; vm_compute; reflexivity.
Qed.

(** ** The escalation scenario *)

Section ScenarioProperties.
Import Types Pipeline.

Lemma with_urgency_same (k : Classification) (u : Urgency) :
  urgency k = u -> with_urgency k u = k.
Proof. destruct k. simpl. intros ->. reflexivity. Qed.

(** Replacing the record of an id that is in the store puts the new
    record where a lookup of that id finds it. *)
Lemma find_put (s : list Comment) (cid : string) (c0 c' : Comment) :
  find_comment cid s = Some c0 ->
  comment_id c' = cid ->
  find_comment cid (put c' s) = Some c'.
Proof.
  intros Hfind Hid. subst cid. unfold find_comment in *.
  induction s as [| x rest IH]; [discriminate |].
  simpl in Hfind. simpl.
  destruct (String.eqb (comment_id x) (comment_id c')) eqn:Hx.
  - simpl. rewrite String.eqb_refl. reflexivity.
  - simpl. rewrite Hx. apply IH. exact Hfind.
Qed.

Lemma mock_comment_003 (clientId : string) :
  exists x k,
    filter (has_id "comment_003") (Api.mockComments clientId) = [x]
    /\ platform x = facebook
    /\ classification x = Some k
    /\ sentiment k = negative /\ urgency k = high /\ toxicity_score k = 6
    /\ Router.decide k Router.default_rules = escalate
    /\ action_taken x = Some (Router.taken escalate)
    /\ comment_status x = processed.
Proof. eexists. eexists. split; [reflexivity |]. repeat split. Qed.

Lemma mock_activity_003 :
  exists a,
    filter (about "comment_003") Api.mockActivity = [a]
    /\ action_type a = comment_escalated_t.
Proof. eexists. split; reflexivity. Qed.

End ScenarioProperties.


(** ** The API service: failures and requests *)

Section ApiCallProperties.
Import Types Js Api.

Variable net : forall T : Type, Request -> Promise (Response (ApiResponse T)).
Variable form_urlencode : string -> string.
Variable now_iso : string.

Lemma apiCall_issues_one {T : Type} (self : ApiService) (endpoint : string)
    (options : option RequestInit) :
  issued (apiCall net (T := T) self endpoint options)
  = [request_of self endpoint options].
Proof.
  unfold apiCall, request_of.
  destruct (net T _) as [resp | e]; [| reflexivity].
  destruct (json resp) as [d | e]; [| reflexivity].
  destruct (ok resp); reflexivity.
Qed.

Lemma error_response_shape {T : Type} (e : Thrown) :
  resp_status (error_response (T := T) e) = error
  /\ exists s, message (error_response (T := T) e) = Some s.
Proof. split; [reflexivity | eexists; reflexivity]. Qed.

Lemma apiCall_fetch_rejects {T : Type} (self : ApiService) (endpoint : string)
    (options : option RequestInit) (e : Thrown) :
  net T (request_of self endpoint options) = Rejected e ->
  settled (apiCall net (T := T) self endpoint options)
  = Resolved (error_response e).
Proof.
  intros H. unfold apiCall. fold (request_of self endpoint options).
  rewrite H. reflexivity.
Qed.

Lemma apiCall_json_rejects {T : Type} (self : ApiService) (endpoint : string)
    (options : option RequestInit) (resp : Response (ApiResponse T))
    (e : Thrown) :
  net T (request_of self endpoint options) = Resolved resp ->
  json resp = Rejected e ->
  settled (apiCall net (T := T) self endpoint options)
  = Resolved (error_response e).
Proof.
  intros H Hj. unfold apiCall. fold (request_of self endpoint options).
  rewrite H, Hj. reflexivity.
Qed.

Lemma apiCall_not_ok {T : Type} (self : ApiService) (endpoint : string)
    (options : option RequestInit) (resp : Response (ApiResponse T))
    (d : ApiResponse T) :
  net T (request_of self endpoint options) = Resolved resp ->
  json resp = Resolved d -> ok resp = false ->
  settled (apiCall net (T := T) self endpoint options)
  = Resolved
      (error_response
         (ErrorObject
            (or_string (message d)
               ("HTTP error! status: " ++ number_to_string (http_status resp))))).
Proof.
  intros H Hj Hok. unfold apiCall. fold (request_of self endpoint options).
  rewrite H, Hj, Hok. reflexivity.
Qed.

Lemma apiCall_success {T : Type} (self : ApiService) (endpoint : string)
    (options : option RequestInit) (resp : Response (ApiResponse T))
    (d : ApiResponse T) :
  net T (request_of self endpoint options) = Resolved resp ->
  json resp = Resolved d -> ok resp = true ->
  settled (apiCall net self endpoint options) = Resolved d.
Proof.
  intros H Hj Hok. unfold apiCall. fold (request_of self endpoint options).
  rewrite H, Hj, Hok. reflexivity.
Qed.

Lemma apiCall_resolves {T : Type} (self : ApiService) (endpoint : string)
    (options : option RequestInit) :
  exists r, settled (apiCall net (T := T) self endpoint options) = Resolved r.
Proof.
  unfold apiCall.
  destruct (net T _) as [resp | e]; [| eexists; reflexivity].
  destruct (json resp) as [d | e]; [| eexists; reflexivity].
  destruct (ok resp); eexists; reflexivity.
Qed.

(** Every public method resolves, from the mock data or through
    [apiCall]. *)
Lemma public_methods_resolve (self : ApiService) (clientId : string)
    (filters : option FilterOptions) (limit : option Z) :
  (exists r, settled (getClients net self) = Resolved r)
  /\ (exists r, settled (getDashboardMetrics net form_urlencode self clientId
                           filters) = Resolved r)
  /\ (exists r, settled (getRecentComments net self clientId limit)
                = Resolved r)
  /\ (exists r, settled (getActivityLog net self clientId limit) = Resolved r)
  /\ (exists r, settled (healthCheck net now_iso self) = Resolved r).
Proof.
  unfold getClients, getDashboardMetrics, getRecentComments, getActivityLog,
    healthCheck.
  destruct (useMock self).
  - repeat split; eexists; reflexivity.
  - repeat split; apply apiCall_resolves.
Qed.

(** A request built from no options is a [GET] without a body. *)
Lemma request_of_plain (self : ApiService) (endpoint : string) :
  effective_method (request_of self endpoint None) = "GET"
  /\ request_body (request_of self endpoint None) = None.
Proof. split; reflexivity. Qed.

Lemma apiCall_plain_read_only {T : Type} (self : ApiService)
    (endpoint : string) :
  Forall Api.read_only (issued (apiCall net (T := T) self endpoint None)).
Proof.
  rewrite apiCall_issues_one. constructor; [| constructor].
  apply request_of_plain.
Qed.

Lemma public_methods_read_only (self : ApiService) (clientId : string)
    (filters : option FilterOptions) (limit : option Z) :
  Forall Api.read_only (issued (getClients net self))
  /\ Forall Api.read_only
       (issued (getDashboardMetrics net form_urlencode self clientId filters))
  /\ Forall Api.read_only (issued (getRecentComments net self clientId limit))
  /\ Forall Api.read_only (issued (getActivityLog net self clientId limit))
  /\ Forall Api.read_only (issued (healthCheck net now_iso self)).
Proof.
  unfold getClients, getDashboardMetrics, getRecentComments, getActivityLog,
    healthCheck.
  destruct (useMock self).
  - repeat split; constructor.
  - repeat split; apply apiCall_plain_read_only.
Qed.

End ApiCallProperties.

Lemma app_requests (now : Z) (iso : Z -> string)
    (net_metrics net_comments : Js.Request -> Js.Promise (Js.Response Js.Json)) :
  App.requests (App.fetchDashboardData now iso net_metrics net_comments)
  = [App.metrics_request; App.comments_request].
Proof.
  unfold App.fetchDashboardData.
  destruct (net_metrics _) as [mr | e]; [| reflexivity].
  destruct (net_comments _) as [cr | e]; [| reflexivity].
  destruct (Js.ok mr && Js.ok cr); [| reflexivity].
  destruct (Js.json mr) as [md | e]; [| reflexivity].
  destruct (Js.json cr) as [cd | e]; [| reflexivity].
  destruct (App.metrics_of_body md); [| reflexivity].
  destruct (App.comments_of_body cd); reflexivity.
Qed.

Lemma app_requests_read_only (now : Z) (iso : Z -> string)
    (net_metrics net_comments : Js.Request -> Js.Promise (Js.Response Js.Json)) :
  Forall Api.read_only
    (App.requests (App.fetchDashboardData now iso net_metrics net_comments)).
Proof. rewrite app_requests. repeat constructor. Qed.

Lemma api_routes_methods :
  Forall (fun route => fst route = "GET" \/ fst route = "OPTIONS")
    Infra.api_routes.
Proof.
  unfold Infra.api_routes, Infra.api_methods. cbn [map].
  repeat (apply Forall_cons; [simpl; auto |]). apply Forall_nil.
Qed.

(** C6: the dashboard only reads.  Every request a public method of the
    API service issues (clients, metrics, recent comments, activity log,
    health), in production or with the mock data, is a [fetch] whose
    method is GET and which carries no body; so are the two requests of
    the single-file dashboard's [fetchDashboardData]; and the API these
    requests reach offers no method but GET (and OPTIONS on the health
    path). *)
Theorem dashboard_is_read_only :
  forall (net : forall T : Type,
             Js.Request -> Js.Promise (Js.Response (Types.ApiResponse T)))
         (form_urlencode : string -> string) (now_iso : string)
         (PROD : bool) (clientId : string)
         (filters : option Api.FilterOptions) (limit : option Z),
    let self := Api.apiService PROD in
    Forall Api.read_only (Js.issued (Api.getClients net self))
    /\ Forall Api.read_only
         (Js.issued
            (Api.getDashboardMetrics net form_urlencode self clientId filters))
    /\ Forall Api.read_only
         (Js.issued (Api.getRecentComments net self clientId limit))
    /\ Forall Api.read_only (Js.issued (Api.getActivityLog net self clientId limit))
    /\ Forall Api.read_only (Js.issued (Api.healthCheck net now_iso self))
    /\ (forall now iso net_metrics net_comments,
          Forall Api.read_only
            (App.requests
               (App.fetchDashboardData now iso net_metrics net_comments)))
    /\ Forall (fun route => fst route = "GET" \/ fst route = "OPTIONS")
         Infra.api_routes.
Proof.
  intros net form_urlencode now_iso PROD clientId filters limit self.
  pose proof (public_methods_read_only net form_urlencode now_iso self
                clientId filters limit) as [H1 [H2 [H3 [H4 H5]]]].
  repeat (split; [assumption |]).
  split; [intros; apply app_requests_read_only | apply api_routes_methods].
Qed.

(** C10: [apiCall] never rejects.  Whatever the network does for the
    request, the promise resolves: to an [ApiResponse] with status
    [error] and a message when [fetch] rejects, when the body is not
    JSON, and when the HTTP status is not ok (the body's message if it
    has a non-empty one, "HTTP error! status: n" otherwise); to the
    parsed body on success.  Hence every public method of the service
    resolves to an [ApiResponse]. *)
Theorem apiCall_total :
  forall (net : forall T : Type,
             Js.Request -> Js.Promise (Js.Response (Types.ApiResponse T)))
         (form_urlencode : string -> string) (now_iso : string)
         (T : Type) (self : Api.ApiService) (endpoint : string)
         (options : option Js.RequestInit),
    let req := Api.request_of self endpoint options in
    let result := Js.settled (Api.apiCall net (T := T) self endpoint options) in
    (exists r, result = Js.Resolved r)
    /\ (forall e, net T req = Js.Rejected e ->
          exists r, result = Js.Resolved r
                    /\ Types.resp_status r = Types.error
                    /\ exists s, Types.message r = Some s)
    /\ (forall resp e,
          net T req = Js.Resolved resp -> Js.json resp = Js.Rejected e ->
          exists r, result = Js.Resolved r
                    /\ Types.resp_status r = Types.error
                    /\ exists s, Types.message r = Some s)
    /\ (forall resp d,
          net T req = Js.Resolved resp -> Js.json resp = Js.Resolved d ->
          Js.ok resp = false ->
          exists r, result = Js.Resolved r
                    /\ Types.resp_status r = Types.error
                    /\ Types.message r
                       = Some (Js.or_string (Types.message d)
                                 ("HTTP error! status: "
                                    ++ Js.number_to_string (Js.http_status resp))))
    /\ (forall resp d,
          net T req = Js.Resolved resp -> Js.json resp = Js.Resolved d ->
          Js.ok resp = true ->
          result = Js.Resolved d)
    /\ (forall clientId filters limit,
          (exists r, Js.settled (Api.getClients net self) = Js.Resolved r)
          /\ (exists r,
                Js.settled (Api.getDashboardMetrics net form_urlencode self
                              clientId filters) = Js.Resolved r)
          /\ (exists r,
                Js.settled (Api.getRecentComments net self clientId limit)
                = Js.Resolved r)
          /\ (exists r,
                Js.settled (Api.getActivityLog net self clientId limit)
                = Js.Resolved r)
          /\ (exists r,
                Js.settled (Api.healthCheck net now_iso self) = Js.Resolved r)).
Proof.
  intros net form_urlencode now_iso T self endpoint options req result.
  split; [apply apiCall_resolves |].
  split.
  { intros e He. exists (Api.error_response e).
    split; [apply apiCall_fetch_rejects; exact He |].
    apply error_response_shape. }
  split.
  { intros resp e Hr Hj. exists (Api.error_response e).
    split; [apply (apiCall_json_rejects net self endpoint options resp e Hr Hj) |].
    apply error_response_shape. }
  split.
  { intros resp d Hr Hj Hok. eexists.
    split; [apply (apiCall_not_ok net self endpoint options resp d Hr Hj Hok) |].
    split; reflexivity. }
  split.
  { intros resp d Hr Hj Hok.
    apply (apiCall_success net self endpoint options resp d Hr Hj Hok). }
  intros clientId filters limit.
  apply public_methods_resolve.
Qed.

(** ** The range invariant of classifications *)

Section ClassifierProperties.
Import Types Classifier.

Lemma in_0_to_spec (hi n : Z) : in_0_to hi n = true <-> 0 <= n <= hi.
Proof. unfold in_0_to. rewrite andb_true_iff, !Z.leb_le. tauto. Qed.

Lemma in_rangeb_spec (c : Classification) : in_rangeb c = true <-> in_range c.
Proof.
  unfold in_rangeb, in_range. rewrite andb_true_iff, !in_0_to_spec. tauto.
Qed.

(** What [validate] lets through carries the scores of the response,
    both within their ranges. *)
Lemma validate_scores (r : LlmResponse) (c : Classification) :
  validate r = Some c ->
  r_toxicity_score r = Some (toxicity_score c)
  /\ r_confidence r = Some (confidence c)
  /\ in_range c.
Proof.
  unfold validate, bind.
  destruct (r_sentiment r) as [s |]; [| discriminate].
  destruct (sentiment_of_string s); [| discriminate].
  destruct (r_urgency r) as [u |]; [| discriminate].
  destruct (urgency_of_string u); [| discriminate].
  destruct (r_intent r) as [i |]; [| discriminate].
  destruct (intent_of_string i); [| discriminate].
  destruct (r_toxicity_score r) as [t |]; [| discriminate].
  destruct (r_confidence r) as [k |]; [| discriminate].
  destruct (r_requires_response r); [| discriminate].
  destruct (r_suggested_action r) as [a |]; [| discriminate].
  destruct (action_of_string a); [| discriminate].
  destruct (in_0_to 10 t && in_0_to 100 k) eqn:Hr; [| discriminate].
  intros H. inversion H. subst c. simpl.
  apply andb_true_iff in Hr. destruct Hr as [Ht Hk].
  apply in_0_to_spec in Ht. apply in_0_to_spec in Hk.
  unfold in_range. simpl. auto.
Qed.

Lemma validate_in_range (r : LlmResponse) (c : Classification) :
  validate r = Some c -> in_range c.
Proof. intros H. apply (validate_scores r c H). Qed.

Lemma validate_rejects_toxicity (r : LlmResponse) (t : Z) :
  r_toxicity_score r = Some t -> ~ (0 <= t <= 10) -> validate r = None.
Proof.
  intros Ht Hout. destruct (validate r) as [c |] eqn:Hv; [| reflexivity].
  destruct (validate_scores r c Hv) as [Ht' [_ [Hr _]]].
  rewrite Ht in Ht'. inversion Ht'. subst t. contradiction.
Qed.

Lemma validate_rejects_confidence (r : LlmResponse) (k : Z) :
  r_confidence r = Some k -> ~ (0 <= k <= 100) -> validate r = None.
Proof.
  intros Hk Hout. destruct (validate r) as [c |] eqn:Hv; [| reflexivity].
  destruct (validate_scores r c Hv) as [_ [Hk' [_ Hr]]].
  rewrite Hk in Hk'. inversion Hk'. subst k. contradiction.
Qed.

Lemma remove_key_in_range (k : string) (s : Store) :
  all_in_range s -> all_in_range (remove_key k s).
Proof.
  unfold all_in_range. induction s as [| [k' c] rest IH]; intros H.
  - constructor.
  - inversion H as [| ? ? Hc Hrest]; subst. simpl.
    destruct (String.eqb k' k); [auto | constructor; auto].
Qed.

Lemma persist_in_range (s : Store) (k : string) (r : LlmResponse) :
  all_in_range s -> all_in_range (persist s k r).
Proof.
  intros H. unfold persist.
  destruct (validate r) as [c |] eqn:Hv; [| exact H].
  constructor; [exact (validate_in_range r c Hv) |].
  apply remove_key_in_range. exact H.
Qed.

Lemma run_in_range (rs : list (string * LlmResponse)) :
  forall s, all_in_range s -> all_in_range (run s rs).
Proof.
  induction rs as [| [k r] rest IH]; intros s H; simpl.
  - exact H.
  - apply IH. apply persist_in_range. exact H.
Qed.

Lemma mock_classifications_in_range (clientId : string) (k : Comment)
    (x : Classification) :
  In k (Api.mockComments clientId) -> classification k = Some x ->
  in_range x.
Proof.
  intros Hin Hk. simpl in Hin.
  repeat (destruct Hin as [<- | Hin];
          [inversion Hk; unfold in_range; simpl; lia |]).
  contradiction.
Qed.

Lemma app_classifications_in_range (now : Z) (iso : Z -> string)
    (k : App.Comment) (x : App.Classification) :
  In k (App.mockComments now iso) -> App.classification k = Some x ->
  0 <= App.toxicity_score x <= 10 /\ 0 <= App.confidence x <= 100.
Proof.
  intros Hin Hk. simpl in Hin.
  repeat (destruct Hin as [<- | Hin]; [inversion Hk; simpl; lia |]).
  contradiction.
Qed.

(** What [validate] lets through carries labels of the enumerations. *)
Lemma validate_labels (r : LlmResponse) (c : Classification) :
  validate r = Some c ->
  (exists s, r_sentiment r = Some s
             /\ In s ["positive"; "negative"; "neutral"])
  /\ (exists u, r_urgency r = Some u /\ In u ["low"; "medium"; "high"])
  /\ (exists i, r_intent r = Some i
                /\ In i ["question"; "complaint"; "compliment"; "spam";
                         "general"]).
Proof.
  unfold validate, bind.
  destruct (r_sentiment r) as [s |]; [| discriminate].
  destruct (sentiment_of_string s) eqn:Hs; [| discriminate].
  destruct (r_urgency r) as [u |]; [| discriminate].
  destruct (urgency_of_string u) eqn:Hu; [| discriminate].
  destruct (r_intent r) as [i |]; [| discriminate].
  destruct (intent_of_string i) eqn:Hi; [| discriminate].
  intros _.
  split.
  { exists s. split; [reflexivity |]. unfold sentiment_of_string in Hs.
    destruct (String.eqb_spec s "positive"); [subst; simpl; tauto |].
    destruct (String.eqb_spec s "negative"); [subst; simpl; tauto |].
    destruct (String.eqb_spec s "neutral"); [subst; simpl; tauto |].
    discriminate. }
  split.
  { exists u. split; [reflexivity |]. unfold urgency_of_string in Hu.
    destruct (String.eqb_spec u "low"); [subst; simpl; tauto |].
    destruct (String.eqb_spec u "medium"); [subst; simpl; tauto |].
    destruct (String.eqb_spec u "high"); [subst; simpl; tauto |].
    discriminate. }
  exists i. split; [reflexivity |]. unfold intent_of_string in Hi.
  destruct (String.eqb_spec i "question"); [subst; simpl; tauto |].
  destruct (String.eqb_spec i "complaint"); [subst; simpl; tauto |].
  destruct (String.eqb_spec i "compliment"); [subst; simpl; tauto |].
  destruct (String.eqb_spec i "spam"); [subst; simpl; tauto |].
  destruct (String.eqb_spec i "general"); [subst; simpl; tauto |].
  discriminate.
Qed.

(** The comment list shows the toxicity it was given, from 6 up. *)
Lemma toxic_badge_shown (fmt : string -> string) (c : Comment) (t : Z) :
  Views.toxic_badge (Views.commentRow fmt c) = Some t <->
  exists k, classification c = Some k /\ toxicity_score k = t /\ 6 <= t.
Proof.
  unfold Views.commentRow. cbn [Views.toxic_badge].
  destruct (classification c) as [k |].
  - destruct (Z.leb_spec 6 (toxicity_score k)) as [Hle | Hlt]; split.
    + intros H. inversion H. subst t. exists k. auto.
    + intros [k' [Hk [Ht _]]]. inversion Hk. subst. reflexivity.
    + discriminate.
    + intros [k' [Hk [Ht H6]]]. inversion Hk. subst. lia.
  - split; [discriminate | intros [k [Hk _]]; discriminate].
Qed.

Lemma app_toxicity_badge_shown (c : App.Comment) (t : Z) :
  App.toxicity_badge c = Some t <->
  exists k, App.classification c = Some k
            /\ App.toxicity_score k = t /\ 0 < t.
Proof.
  unfold App.toxicity_badge.
  destruct (App.classification c) as [k |].
  - destruct (Z.ltb_spec 0 (App.toxicity_score k)) as [Hlt | Hle]; split.
    + intros H. inversion H. subst t. exists k. auto.
    + intros [k' [Hk [Ht _]]]. inversion Hk. subst. reflexivity.
    + discriminate.
    + intros [k' [Hk [Ht H0]]]. inversion Hk. subst. lia.
  - split; [discriminate | intros [k [Hk _]]; discriminate].
Qed.

Lemma confidence_bar_width (n : Z) :
  n <> 0 -> exists colour, Feed.confidenceView (Some n) = Feed.Bar colour n.
Proof.
  intros Hn. unfold Feed.confidenceView.
  destruct (Z.eqb_spec n 0); [contradiction |]. eexists. reflexivity.
Qed.

End ClassifierProperties.



Example validate_accepts :
  Classifier.validate
    {| Classifier.r_sentiment := Some "negative";
       Classifier.r_urgency := Some "high";
       Classifier.r_intent := Some "complaint";
       Classifier.r_toxicity_score := Some 6;
       Classifier.r_confidence := Some 92;
       Classifier.r_requires_response := Some true;
       Classifier.r_suggested_action := Some "escalate" |}
  = Some {| Types.sentiment := Types.negative; Types.urgency := Types.high;
            Types.intent := Types.complaint; Types.toxicity_score := 6;
            Types.confidence := 92; Types.requires_response := true;
            Types.suggested_action := Types.escalate |}.
Proof. reflexivity. Qed.

Example validate_rejects :
  Classifier.validate
    {| Classifier.r_sentiment := Some "negative";
       Classifier.r_urgency := Some "high";
       Classifier.r_intent := Some "complaint";
       Classifier.r_toxicity_score := Some 11;
       Classifier.r_confidence := Some 92;
       Classifier.r_requires_response := Some true;
       Classifier.r_suggested_action := Some "escalate" |}
  = None.
Proof. reflexivity. Qed.

(** ** The statements above at concrete inputs *)

(** C1 at concrete inputs: the four rules of the router, each at an
    input that reaches it under the defaults (the third is the
    confidence gate at the minimum, the fourth just below it), and a
    client whose threshold is 5, for whom toxicity 6 is hidden. *)
Lemma decide_first_match_wins_witness :
  Router.decide (sample_classification 7 99 Types.negative Types.high true)
    Router.default_rules = Types.hide
  /\ Router.decide (sample_classification 6 92 Types.negative Types.high true)
       Router.default_rules = Types.escalate
  /\ Router.decide (sample_classification 0 70 Types.neutral Types.medium true)
       Router.default_rules = Types.reply
  /\ Router.decide (sample_classification 0 60 Types.neutral Types.medium true)
       Router.default_rules = Types.ignore
  /\ Router.decide (sample_classification 6 92 Types.negative Types.high true)
       {| Router.toxicity_threshold := Some 5;
          Router.min_confidence := None |} = Types.hide.
Proof.
  split; [| split; [| split; [| split]]].
  - apply (proj1 (decide_first_match_wins
                    (sample_classification 7 99 Types.negative Types.high true)
                    Router.default_rules)).
    simpl. lia.
  - apply (proj1 (proj2 (decide_first_match_wins
                    (sample_classification 6 92 Types.negative Types.high true)
                    Router.default_rules))).
    simpl. split; [lia | split; reflexivity].
  - apply (proj1 (proj2 (proj2 (decide_first_match_wins
                    (sample_classification 0 70 Types.neutral Types.medium true)
                    Router.default_rules)))).
    simpl. split; [lia |]. split; [intros [H _]; discriminate H |].
    split; [reflexivity | lia].
  - apply (proj1 (proj2 (proj2 (proj2 (decide_first_match_wins
                    (sample_classification 0 60 Types.neutral Types.medium true)
                    Router.default_rules))))).
    simpl. split; [lia |]. split; [intros [H _]; discriminate H |].
    intros [_ H]. lia.
  - apply (proj1 (decide_first_match_wins
                    (sample_classification 6 92 Types.negative Types.high true)
                    {| Router.toxicity_threshold := Some 5;
                       Router.min_confidence := None |})).
    simpl. lia.
Defined.

(** C2 at concrete inputs: a message received three times already goes
    to the dead-letter queue; a fresh one is delivered. *)
Lemma work_queue_configuration_witness :
  Infra.receive (Infra.comment_processing Infra.default_vars "123456789012")
    (sample_message 3)
  = Infra.DeadLettered
      "arn:aws:sqs:us-east-1:123456789012:orm-platform-comments-dlq-dev"
      (sample_message 3)
  /\ Infra.receive (Infra.comment_processing Infra.default_vars "123456789012")
       (sample_message 0)
     = Infra.Delivered (sample_message 1).
Proof.
  pose proof (work_queue_configuration Infra.default_vars "123456789012")
    as [_ [_ [_ [_ [_ [_ [Hdead [Hlive _]]]]]]]].
  split.
  - apply (Hdead (sample_message 3)). vm_compute. reflexivity.
  - apply (Hlive (sample_message 0)). vm_compute. discriminate.
Defined.

(** C9 at a concrete input: the deployment's variables and an account. *)
Lemma ingestion_every_five_minutes_witness :
  Infra.period_seconds (Infra.comment_ingestion_schedule deployed_vars)
  = Some 300
  /\ Deploy.invoked_by "123456789012"
       (Infra.rule_arn deployed_vars "123456789012"
          (Infra.comment_ingestion_schedule deployed_vars))
     = ["arn:aws:lambda:ap-south-1:123456789012:function:orm-platform-ingestion-function-dev"].
Proof.
  pose proof (ingestion_every_five_minutes deployed_vars "123456789012"
                eq_refl eq_refl eq_refl)
    as [_ [Hperiod [_ [Hinv _]]]].
  split; [exact Hperiod | exact Hinv].
Defined.


(** C10 at concrete inputs: with the network down, and with a 500
    answer whose body has no message, [GET /clients] resolves to an
    error response. *)
Lemma apiCall_total_witness :
  (exists r,
      Js.settled (Api.apiCall net_down (T := list Types.Client)
                    (Api.apiService true) "/clients" None) = Js.Resolved r
      /\ Types.resp_status r = Types.error
      /\ exists s, Types.message r = Some s)
  /\ (exists r,
        Js.settled (Api.apiCall net_500 (T := list Types.Client)
                      (Api.apiService true) "/clients" None) = Js.Resolved r
        /\ Types.resp_status r = Types.error
        /\ Types.message r = Some "HTTP error! status: 500").
Proof.
  split.
  - pose proof (apiCall_total net_down (fun s => s) EmptyString (list Types.Client)
                  (Api.apiService true) "/clients" None)
      as [_ [Hrej _]].
    apply (Hrej (Js.ErrorObject "Failed to fetch")). reflexivity.
  - pose proof (apiCall_total net_500 (fun s => s) EmptyString (list Types.Client)
                  (Api.apiService true) "/clients" None)
      as [_ [_ [_ [Hnot _]]]].
    apply (Hnot (response_500 _) (empty_error_body _) eq_refl eq_refl eq_refl).
Defined.

(** C4 (amended) at a concrete input: on the mock metrics the summary
    shows the stored 95.1 while the Auto-Replied card shows 35.7, and a
    record with other counts has the same summary. *)
Lemma rates_shown_as_received_witness :
  In ("Automation Rate", 95.1%float, "Fully automated actions")
     (Views.performanceSummary Api.baseMetrics)
  /\ In ("Auto-Replied", "35.7% automation rate")
        (map (fun c => (Views.title c, Views.subtitle c))
           (Views.metricCards Api.baseMetrics))
  /\ Views.performanceSummary
       {| Types.total_comments := 10; Types.positive_comments := 1;
          Types.negative_comments := 2; Types.neutral_comments := 7;
          Types.auto_replied := 1; Types.hidden_comments := 0;
          Types.escalated_comments := 0; Types.processing_time_avg := 2.3;
          Types.response_rate := 89.2; Types.automation_rate := 95.1 |}
     = Views.performanceSummary Api.baseMetrics.
Proof.
  pose proof (rates_shown_as_received Api.baseMetrics)
    as [Hsum [_ [_ [Hframe [_ [_ [Hcards _]]]]]]].
  split; [rewrite Hsum; simpl; tauto |].
  split.
  - rewrite Hcards. right. right. right. left.
    vm_compute. reflexivity.
  - apply Hframe; reflexivity.
Defined.


(** C5 (amended) at a concrete input: an [action_failed] activity is
    rendered by the default branches. *)
Lemma dashboard_has_no_failed_state_witness :
  Views.getActivityIcon "action_failed" = Views.Clock
  /\ Views.getActivityColor "action_failed" = "text-gray-600 bg-gray-100"
  /\ Views.getActivityTitle "action_failed" = "Activity".
Proof.
  pose proof (dashboard_has_no_failed_state "action_failed")
    as [_ [_ [_ [Hgen _]]]].
  apply Hgen. reflexivity.
Defined.

(** ** Further properties of the dashboard code *)

Lemma slice0_nonneg {A : Type} (xs : list A) (limit : Z) :
  0 <= limit -> Js.slice0 xs limit = firstn (Z.to_nat limit) xs.
Proof.
  intros H. unfold Js.slice0.
  destruct (Z.ltb_spec limit 0) as [Hneg | _]; [lia |].
  destruct (Z.le_gt_cases limit (Z.of_nat (List.length xs))) as [Hle | Hgt].
  - rewrite Z.min_l by exact Hle. reflexivity.
  - rewrite Z.min_r by lia. rewrite Nat2Z.id.
    rewrite firstn_all. symmetry. apply firstn_all2. lia.
Qed.

Lemma slice0_negative {A : Type} (xs : list A) (limit : Z) :
  limit < 0 ->
  Js.slice0 xs limit = firstn (List.length xs - Z.to_nat (- limit)) xs.
Proof.
  intros H. unfold Js.slice0.
  destruct (Z.ltb_spec limit 0) as [_ | Hpos]; [| lia].
  f_equal. lia.
Qed.

(** X2: the mock comment list answers with a success whose data is the
    first [limit] of the five mock comments (all of them from 5 on);
    a negative [limit] drops that many from the end instead. *)
Theorem mock_recent_comments_slice :
  forall (clientId : string) (limit : Z),
    let result := Js.settled (Api.getMockRecentComments clientId limit) in
    (exists r, result = Js.Resolved r
               /\ Types.resp_status r = Types.success
               /\ Types.data r
                  = Some (Js.slice0 (Api.mockComments clientId) limit))
    /\ (0 <= limit ->
        Js.slice0 (Api.mockComments clientId) limit
        = firstn (Z.to_nat limit) (Api.mockComments clientId))
    /\ (5 <= limit ->
        Js.slice0 (Api.mockComments clientId) limit = Api.mockComments clientId)
    /\ (limit < 0 ->
        Js.slice0 (Api.mockComments clientId) limit
        = firstn (5 - Z.to_nat (- limit)) (Api.mockComments clientId)).
Proof.
  intros clientId limit result.
  split; [eexists; repeat split |].
  split; [apply slice0_nonneg |].
  split.
  - intros H. rewrite slice0_nonneg by lia.
    apply firstn_all2. simpl. lia.
  - intros H. apply (slice0_negative (Api.mockComments clientId) limit H).
Qed.

(** X2 at concrete inputs: the overview's limit of 10 returns all five
    mock comments; a limit of -1 returns four. *)
Lemma mock_recent_comments_slice_witness :
  Js.slice0 (Api.mockComments "demo_client_001") 10
  = Api.mockComments "demo_client_001"
  /\ List.length (Js.slice0 (Api.mockComments "demo_client_001") (-1)) = 4%nat.
Proof.
  pose proof (mock_recent_comments_slice "demo_client_001" 10)
    as [_ [_ [Hall _]]].
  pose proof (mock_recent_comments_slice "demo_client_001" (-1))
    as [_ [_ [_ Hneg]]].
  split.
  - apply Hall. lia.
  - rewrite Hneg by lia. reflexivity.
Defined.

Section FetchProperties.
Import Js.

Lemma metrics_of_body_throws (b : Json) :
  App.metrics_of_body b = None <-> b = JNull.
Proof.
  unfold App.metrics_of_body. destruct b as [| x | x | x | xs | ms]; simpl;
    try (split; [discriminate | intros H; discriminate H]).
  - split; reflexivity.
  - destruct (find _ (rev ms));
      split; first [discriminate | intros H; discriminate H].
Qed.

Lemma comments_of_body_throws (b : Json) :
  App.comments_of_body b = None <-> b = JNull.
Proof.
  unfold App.comments_of_body. destruct b as [| x | x | x | xs | ms]; simpl;
    try (split; [discriminate | intros H; discriminate H]).
  - split; reflexivity.
  - destruct (find (fun kv => String.eqb (fst kv) "comments") (rev ms));
      split; first [discriminate | intros H; discriminate H].
Qed.

Lemma metrics_of_body_parsed (b : Json) (m : Value App.Metrics) :
  App.metrics_of_body b = Some m -> exists j, m = Parsed j.
Proof.
  unfold App.metrics_of_body. destruct (member "data" b); intros H;
    inversion H; eexists; reflexivity.
Qed.

End FetchProperties.



(** X3: [apiCall] sends exactly one request, to the base URL followed by
    the endpoint.  It writes nothing to the console exactly when the
    fetch resolves with an ok response whose body parses, and then
    resolves to that body; in every other case it writes one line,
    "API call failed for" the endpoint, and resolves to an error
    response it builds. *)
Theorem apiCall_one_request :
  forall (net : forall T : Type,
             Js.Request -> Js.Promise (Js.Response (Types.ApiResponse T)))
         (T : Type) (self : Api.ApiService) (endpoint : string)
         (options : option Js.RequestInit),
    let req := Api.request_of self endpoint options in
    let out := Api.apiCall net (T := T) self endpoint options in
    let answered :=
      exists resp d,
        net T req = Js.Resolved resp /\ Js.json resp = Js.Resolved d
        /\ Js.ok resp = true in
    Js.issued out = [req]
    /\ Js.url req = Api.baseUrl self ++ endpoint
    /\ (Js.logged out = [] <-> answered)
    /\ (Js.logged out = ["API call failed for " ++ endpoint ++ ":"]
        <-> ~ answered)
    /\ (forall resp d,
          net T req = Js.Resolved resp -> Js.json resp = Js.Resolved d ->
          Js.ok resp = true ->
          Js.settled out = Js.Resolved d)
    /\ (~ answered ->
        exists e, Js.settled out = Js.Resolved (Api.error_response e)).
Proof.
  intros net T self endpoint options req out answered.
  split; [apply apiCall_issues_one |]. split; [reflexivity |].
  unfold answered, out, req, Api.apiCall, Api.caught, Api.request_of.
  destruct (net T _) as [resp | e] eqn:Hnet.
  2:{ cbn [Js.logged Js.settled].
      split; [split; [intros H; discriminate H
                     | intros [r [d [H _]]]; discriminate H] |].
      split; [split; [intros _ [r [d [H _]]]; discriminate H | reflexivity] |].
      split; [intros r d H; discriminate H |].
      intros _. eexists. reflexivity. }
  destruct (Js.json resp) as [d | e] eqn:Hjson.
  2:{ cbn [Js.logged Js.settled].
      split.
      { split; [intros H; discriminate H |].
        intros [r [d [H [Hj _]]]]. inversion H. subst r.
        rewrite Hjson in Hj. discriminate Hj. }
      split.
      { split; [| reflexivity].
        intros _ [r [d [H [Hj _]]]]. inversion H. subst r.
        rewrite Hjson in Hj. discriminate Hj. }
      split.
      { intros r d H Hj. inversion H. subst r.
        rewrite Hjson in Hj. discriminate Hj. }
      intros _. eexists. reflexivity. }
  destruct (Js.ok resp) eqn:Hok; cbn [negb Js.logged Js.settled].
  - split.
    { split; [| reflexivity].
      intros _. exists resp, d. repeat split; assumption. }
    split.
    { split; [intros H; discriminate H |].
      intros Hno. exfalso. apply Hno. exists resp, d.
      repeat split; assumption. }
    split.
    { intros r d' H Hj _. inversion H. subst r.
      rewrite Hjson in Hj. inversion Hj. reflexivity. }
    intros Hno. exfalso. apply Hno. exists resp, d.
    repeat split; assumption.
  - split.
    { split; [intros H; discriminate H |].
      intros [r [d' [H [_ Hok']]]]. inversion H. subst r.
      rewrite Hok in Hok'. discriminate Hok'. }
    split.
    { split; [| reflexivity].
      intros _ [r [d' [H [_ Hok']]]]. inversion H. subst r.
      rewrite Hok in Hok'. discriminate Hok'. }
    split.
    { intros r d' H _ Hok'. inversion H. subst r.
      rewrite Hok in Hok'. discriminate Hok'. }
    intros _. eexists. reflexivity.
Qed.

Section RouteProperties.

Lemma string_append_assoc (a b c : string) : (a ++ b) ++ c = a ++ (b ++ c).
Proof. induction a as [| x a IH]; simpl; [reflexivity | rewrite IH; reflexivity]. Qed.

Lemma string_append_empty (a : string) : a ++ EmptyString = a.
Proof. induction a as [| x a IH]; simpl; [reflexivity | rewrite IH; reflexivity]. Qed.

End RouteProperties.

(** X4: the requests of the API service are the GET methods of the
    dashboard API.  In production the five public methods fetch, in the
    order of the API's GET methods (health, metrics, recent comments,
    activity, clients), the base URL followed by the path of that
    method's resource, with the path parameter [{client_id}] given the
    client's id, followed by the query string: none for health and
    clients, the date range for metrics, the limit (50 by default for
    comments, 20 for the activity) for the two lists. *)
Theorem api_service_routes :
  forall (net : forall T : Type,
             Js.Request -> Js.Promise (Js.Response (Types.ApiResponse T)))
         (form_urlencode : string -> string) (now_iso : string)
         (self : Api.ApiService) (clientId : string)
         (filters : option Api.FilterOptions) (limit : option Z),
    Api.useMock self = false ->
    Infra.get_resources
    = ["health"; "metrics_client"; "comments_recent_client";
       "activity_client"; "clients"]
    /\ map (fun r => Some (Js.url r))
         (Js.issued (Api.healthCheck net now_iso self)
          ++ Js.issued (Api.getDashboardMetrics net form_urlencode self
                          clientId filters)
          ++ Js.issued (Api.getRecentComments net self clientId limit)
          ++ Js.issued (Api.getActivityLog net self clientId limit)
          ++ Js.issued (Api.getClients net self))%list
       = map (Infra.request_url (Api.baseUrl self) clientId)
           (combine Infra.get_resources
              [ EmptyString;
                "?" ++ Api.metrics_query form_urlencode filters;
                "?limit=" ++ Js.number_to_string
                               (match limit with Some l => l | None => 50 end);
                "?limit=" ++ Js.number_to_string
                               (match limit with Some l => l | None => 20 end);
                EmptyString ])
    /\ (forall rid,
          In rid Infra.get_resources ->
          exists path,
            Infra.resource_path (List.length Infra.api_resources) rid
            = Some path
            /\ In ("GET", Some path) Infra.api_routes
            /\ Infra.path_for "{client_id}" (List.length Infra.api_resources)
                 rid = Some path).
Proof.
  intros net form_urlencode now_iso self clientId filters limit Hprod.
  split; [reflexivity |].
  split.
  { unfold Api.healthCheck, Api.getDashboardMetrics, Api.getRecentComments,
      Api.getActivityLog, Api.getClients.
    rewrite Hprod. rewrite !apiCall_issues_one.
    cbn [app map Api.request_of Js.url].
    change Infra.get_resources
      with ["health"; "metrics_client"; "comments_recent_client";
            "activity_client"; "clients"].
    cbn [combine map]. unfold Infra.request_url.
    cbn [fst snd].
    change (Infra.path_for clientId (List.length Infra.api_resources) "health")
      with (Some "/health").
    change (Infra.path_for clientId (List.length Infra.api_resources)
              "metrics_client")
      with (Some ("/metrics/" ++ clientId)).
    change (Infra.path_for clientId (List.length Infra.api_resources)
              "comments_recent_client")
      with (Some ("/comments/recent/" ++ clientId)).
    change (Infra.path_for clientId (List.length Infra.api_resources)
              "activity_client")
      with (Some ("/activity/" ++ clientId)).
    change (Infra.path_for clientId (List.length Infra.api_resources) "clients")
      with (Some "/clients").
    cbv beta iota.
    rewrite !string_append_empty, !string_append_assoc.
    reflexivity. }
  intros rid Hin. simpl in Hin.
  destruct Hin as [<- | [<- | [<- | [<- | [<- | []]]]]];
    eexists; (split; [reflexivity |]); (split; [| reflexivity]);
    vm_compute; tauto.
Qed.

(** X4 at a concrete input: the production service and the demo
    client. *)
Lemma api_service_routes_witness :
  map Js.url
    (Js.issued (Api.getDashboardMetrics net_down (fun v => v)
                  (Api.apiService true) "demo_client_001" None)
     ++ Js.issued (Api.getClients net_down (Api.apiService true)))%list
  = [ Api.API_BASE_URL true ++ "/metrics/demo_client_001?";
      Api.API_BASE_URL true ++ "/clients" ].
Proof.
  pose proof (api_service_routes net_down (fun v => v) EmptyString
                (Api.apiService true) "demo_client_001" None None eq_refl)
    as [_ [Hurls _]].
  vm_compute in Hurls. vm_compute.
  inversion Hurls. reflexivity.
Defined.

(** ** The filter sidebar's checkboxes *)

Section FilterProperties.
Import Filters.

Lemma includes_In (xs : list string) (v : string) :
  includes xs v = true <-> In v xs.
Proof.
  unfold includes. rewrite existsb_exists. split.
  - intros [x [Hin Heq]]. apply String.eqb_eq in Heq. subst. exact Hin.
  - intros Hin. exists v. split; [exact Hin | apply String.eqb_refl].
Qed.

Lemma includes_false (xs : list string) (v : string) :
  includes xs v = false <-> ~ In v xs.
Proof.
  rewrite <- includes_In. destruct (includes xs v); split; congruence.
Qed.

Lemma In_without (xs : list string) (v w : string) :
  In w (filter (fun item => negb (String.eqb item v)) xs)
  <-> In w xs /\ w <> v.
Proof.
  rewrite filter_In, negb_true_iff, String.eqb_neq. tauto.
Qed.

Lemma toggle_present (xs : list string) (v : string) :
  In v xs -> toggle xs v = filter (fun item => negb (String.eqb item v)) xs.
Proof. intros H. unfold toggle. apply includes_In in H. rewrite H. reflexivity. Qed.

Lemma toggle_absent (xs : list string) (v : string) :
  ~ In v xs -> toggle xs v = (xs ++ [v])%list.
Proof.
  intros H. unfold toggle. apply includes_false in H. rewrite H. reflexivity.
Qed.

Lemma toggle_In_self (xs : list string) (v : string) :
  In v (toggle xs v) <-> ~ In v xs.
Proof.
  destruct (in_dec string_dec v xs) as [Hin | Hout].
  - rewrite (toggle_present xs v Hin), In_without. tauto.
  - rewrite (toggle_absent xs v Hout), in_app_iff. simpl. tauto.
Qed.

Lemma toggle_In_other (xs : list string) (v w : string) :
  w <> v -> (In w (toggle xs v) <-> In w xs).
Proof.
  intros Hne. destruct (in_dec string_dec v xs) as [Hin | Hout].
  - rewrite (toggle_present xs v Hin), In_without. tauto.
  - rewrite (toggle_absent xs v Hout), in_app_iff. simpl.
    intuition congruence.
Qed.

Lemma without_absent (xs : list string) (v : string) :
  ~ In v xs -> filter (fun item => negb (String.eqb item v)) xs = xs.
Proof.
  induction xs as [| x rest IH]; intros Hout; [reflexivity |].
  simpl in *. destruct (String.eqb_spec x v) as [-> | Hne].
  - tauto.
  - simpl. f_equal. apply IH. tauto.
Qed.

Lemma toggle_twice_absent (xs : list string) (v : string) :
  ~ In v xs -> toggle (toggle xs v) v = xs.
Proof.
  intros Hout. rewrite (toggle_absent xs v Hout).
  rewrite toggle_present by (rewrite in_app_iff; simpl; tauto).
  rewrite filter_app, (without_absent xs v Hout). simpl.
  rewrite String.eqb_refl. simpl. apply app_nil_r.
Qed.

Lemma toggle_twice_present (xs : list string) (v : string) :
  In v xs ->
  toggle (toggle xs v) v
  = (filter (fun item => negb (String.eqb item v)) xs ++ [v])%list.
Proof.
  intros Hin. rewrite (toggle_present xs v Hin).
  apply toggle_absent. rewrite In_without. tauto.
Qed.

Lemma toggle_NoDup (xs : list string) (v : string) :
  NoDup xs -> NoDup (toggle xs v).
Proof.
  intros Hnd. destruct (in_dec string_dec v xs) as [Hin | Hout].
  - rewrite (toggle_present xs v Hin). apply NoDup_filter. exact Hnd.
  - rewrite (toggle_absent xs v Hout).
    apply NoDup_app; [exact Hnd | repeat constructor; simpl; tauto |].
    intros x Hx [<- | []]. contradiction.
Qed.

Lemma includes_toggle_self (xs : list string) (v : string) :
  includes (toggle xs v) v = negb (includes xs v).
Proof.
  destruct (includes xs v) eqn:H; simpl.
  - apply includes_false. rewrite toggle_In_self. apply includes_In in H. tauto.
  - apply includes_In. rewrite toggle_In_self. apply includes_false. exact H.
Qed.

Lemma includes_toggle_other (xs : list string) (v w : string) :
  w <> v -> includes (toggle xs v) w = includes xs w.
Proof.
  intros Hne. destruct (includes xs w) eqn:H.
  - apply includes_In. rewrite (toggle_In_other xs v w Hne).
    apply includes_In. exact H.
  - apply includes_false. rewrite (toggle_In_other xs v w Hne).
    apply includes_false. exact H.
Qed.

End FilterProperties.

(** X5: a click on a platform checkbox flips that box and no other: the
    platform is checked afterwards exactly when it was not before (every
    copy of it is removed when it was), the other platforms keep their
    state, and the date range and the sentiment, status and urgency
    selections are untouched.  Checking then unchecking a platform that
    was not selected gives the list back as it was; unchecking then
    checking one that was selected moves it to the end; a list without
    repetitions stays so.  The sentiment boxes behave alike, and after
    [resetFilters] every box is checked. *)
Theorem checkbox_click_flips_one :
  forall (f : Filters.FilterOptions) (id : string),
    let f' := Filters.clickPlatform f id in
    Filters.includes (Filters.platforms f') id
      = negb (Filters.includes (Filters.platforms f) id)
    /\ (forall other, other <> id ->
          Filters.includes (Filters.platforms f') other
          = Filters.includes (Filters.platforms f) other)
    /\ (Filters.dateRange f' = Filters.dateRange f
        /\ Filters.sentiment f' = Filters.sentiment f
        /\ Filters.status f' = Filters.status f
        /\ Filters.urgency f' = Filters.urgency f)
    /\ (~ In id (Filters.platforms f) ->
        Filters.clickPlatform f' id = f)
    /\ (In id (Filters.platforms f) ->
        Filters.platforms (Filters.clickPlatform f' id)
        = (filter (fun item => negb (String.eqb item id))
             (Filters.platforms f) ++ [id])%list)
    /\ (NoDup (Filters.platforms f) -> NoDup (Filters.platforms f'))
    /\ (let g := Filters.clickSentiment f id in
        Filters.includes (Filters.sentiment g) id
          = negb (Filters.includes (Filters.sentiment f) id)
        /\ (forall other, other <> id ->
              Filters.includes (Filters.sentiment g) other
              = Filters.includes (Filters.sentiment f) other)
        /\ Filters.platforms g = Filters.platforms f
        /\ Filters.dateRange g = Filters.dateRange f)
    /\ (forall now isoDate box,
          (In box Filters.platformBoxes ->
           Filters.includes
             (Filters.platforms (Filters.resetFilters now isoDate)) box = true)
          /\ (In box Filters.sentimentBoxes ->
              Filters.includes
                (Filters.sentiment (Filters.resetFilters now isoDate)) box
              = true)).
Proof.
  intros f id f'.
  split; [apply includes_toggle_self |].
  split; [intros other Hne; apply includes_toggle_other; exact Hne |].
  split; [repeat split |].
  split.
  { intros Hout. destruct f as [d p s st u].
    unfold f', Filters.clickPlatform, Filters.toggleArrayFilter. simpl.
    simpl in Hout. rewrite (toggle_twice_absent p id Hout). reflexivity. }
  split.
  { intros Hin. unfold f', Filters.clickPlatform, Filters.toggleArrayFilter.
    simpl. apply toggle_twice_present. exact Hin. }
  split; [apply toggle_NoDup |].
  split.
  { split; [apply includes_toggle_self |].
    split; [intros other Hne; apply includes_toggle_other; exact Hne |].
    split; reflexivity. }
  intros now isoDate box. split; intros Hin; apply includes_In; exact Hin.
Qed.

(** X5 at concrete inputs: with instagram and facebook selected, a
    click on facebook ads selects it and a second click restores the
    selection; a click on instagram leaves facebook alone. *)
Lemma checkbox_click_flips_one_witness :
  let f := {| Filters.dateRange := ("2025-05-03", "2025-06-02");
              Filters.platforms := ["instagram"; "facebook"];
              Filters.sentiment := ["positive"];
              Filters.status := []; Filters.urgency := [] |} in
  Filters.clickPlatform (Filters.clickPlatform f "facebook_ads") "facebook_ads"
    = f
  /\ Filters.platforms (Filters.clickPlatform f "instagram") = ["facebook"].
Proof.
  intros f.
  pose proof (checkbox_click_flips_one f "facebook_ads")
    as [_ [_ [_ [Hback _]]]].
  split.
  - apply Hback. simpl. intros [H | [H | []]]; discriminate.
  - reflexivity.
Defined.

(** ** The navigation sidebar *)

Section NavProperties.
Import Nav.

Variable activeSection : string.
Variable expanded : list string.

(** Every button drawn carries the flags of its own id. *)
Lemma renderNavItem_flags :
  forall (i : NavItem) (level : nat) (r : NavRow),
    In r (renderNavItem activeSection expanded level i) ->
    isActive r = String.eqb activeSection (row_id r)
    /\ isExpanded r = Filters.includes expanded (row_id r).
Proof.
  fix IH 1. intros [id label icon badge children] level r Hin.
  cbn [renderNavItem] in Hin. destruct Hin as [<- | Hin].
  - split; reflexivity.
  - destruct (hasChildren (Item id label icon badge children)
              && Filters.includes expanded id); [| contradiction].
    induction children as [| c rest IHrest].
    + contradiction.
    + cbn [flat_map] in Hin. apply in_app_iff in Hin.
      destruct Hin as [Hc | Hrest].
      * exact (IH c (S level) r Hc).
      * exact (IHrest Hrest).
Qed.

Lemma renderNav_flags (items : list NavItem) (r : NavRow) :
  In r (renderNav activeSection expanded items) ->
  isActive r = String.eqb activeSection (row_id r)
  /\ isExpanded r = Filters.includes expanded (row_id r).
Proof.
  unfold renderNav. intros Hin. apply in_flat_map in Hin.
  destruct Hin as [i [_ Hr]]. exact (renderNavItem_flags i 0%nat r Hr).
Qed.

(** The button of a top-level item is always drawn. *)
Lemma renderNav_top_level (items : list NavItem) (i : NavItem) :
  In i items ->
  In (item_id i) (map row_id (renderNav activeSection expanded items)).
Proof.
  intros Hin. unfold renderNav. apply in_map_iff.
  destruct i as [id label icon badge children].
  eexists. split; [| apply in_flat_map; eexists; split; [exact Hin |]].
  2: { cbn [renderNavItem]. left. reflexivity. }
  reflexivity.
Qed.

(** The children of an expanded top-level item are drawn. *)
Lemma renderNav_children (items : list NavItem) (i c : NavItem) :
  In i items -> In c (item_children i) ->
  Filters.includes expanded (item_id i) = true ->
  In (item_id c) (map row_id (renderNav activeSection expanded items)).
Proof.
  intros Hi Hc Hexp. unfold renderNav. apply in_map_iff.
  destruct c as [cid clabel cicon cbadge cchildren].
  eexists. split; [| apply in_flat_map; exists i; split; [exact Hi |]].
  2: { destruct i as [id label icon badge children].
       cbn [renderNavItem]. right. simpl in Hexp, Hc. rewrite Hexp.
       assert (Hhas : hasChildren (Item id label icon badge children) = true).
       { unfold hasChildren. simpl. destruct children; [contradiction |].
         reflexivity. }
       rewrite Hhas. cbn [andb]. apply in_flat_map. eexists.
       split; [exact Hc |]. cbn [renderNavItem]. left. reflexivity. }
  reflexivity.
Qed.

End NavProperties.

Section NavClicks.
Import Nav.

Lemma renderNavItem_collapsed (active : string) (level : nat) (i : NavItem) :
  map row_id (renderNavItem active [] level i) = [item_id i].
Proof.
  destruct i as [id label icon badge children]. cbn [renderNavItem].
  unfold Filters.includes. simpl. rewrite andb_false_r. reflexivity.
Qed.

(** With nothing expanded, exactly the top-level buttons are drawn. *)
Lemma renderNav_collapsed (active : string) (items : list NavItem) :
  map row_id (renderNav active [] items) = map item_id items.
Proof.
  unfold renderNav. induction items as [| i rest IH]; [reflexivity |].
  cbn [flat_map map]. rewrite map_app, renderNavItem_collapsed, IH.
  reflexivity.
Qed.

Lemma click_section (e : list string) (i : NavItem) :
  hasChildren i = true ->
  handleItemClick e (item_id i) (hasChildren i)
  = (Filters.toggle e (item_id i), None).
Proof. intros H. unfold handleItemClick. rewrite H. reflexivity. Qed.

Lemma click_leaf (e : list string) (i : NavItem) :
  hasChildren i = false ->
  handleItemClick e (item_id i) (hasChildren i) = (e, Some (item_id i)).
Proof. intros H. unfold handleItemClick. rewrite H. reflexivity. Qed.

Lemma sections_have_children (i : NavItem) :
  In i allItems -> hasChildren i = true -> In (item_id i) sectionIds.
Proof.
  intros Hin Hhas. unfold allItems, navigationItems in Hin.
  cbn [flat_map item_children app leaf] in Hin.
  repeat (destruct Hin as [<- | Hin];
          [first [discriminate Hhas | simpl; tauto] |]).
  contradiction.
Qed.

Lemma toggle_incl (e : list string) (v : string) (allowed : list string) :
  incl e allowed -> In v allowed -> incl (Filters.toggle e v) allowed.
Proof.
  intros He Hv x Hx.
  destruct (string_dec x v) as [-> | Hne]; [exact Hv |].
  apply He. apply (toggle_In_other e v x Hne). exact Hx.
Qed.

Lemma click_keeps_sections (e : list string) (i : NavItem) :
  In i allItems -> incl e sectionIds -> NoDup e ->
  incl (click e i) sectionIds /\ NoDup (click e i).
Proof.
  intros Hin He Hnd. unfold click.
  destruct (hasChildren i) eqn:Hhas.
  - pose proof (click_section e i Hhas) as Hc. rewrite Hhas in Hc.
    rewrite Hc. simpl. split.
    + apply toggle_incl; [exact He |].
      apply sections_have_children; assumption.
    + apply toggle_NoDup. exact Hnd.
  - pose proof (click_leaf e i Hhas) as Hc. rewrite Hhas in Hc.
    rewrite Hc. simpl. split; assumption.
Qed.

Lemma clicks_keep_sections (cs : list NavItem) :
  forall e, Forall (fun c => In c allItems) cs ->
            incl e sectionIds -> NoDup e ->
            incl (clicks e cs) sectionIds /\ NoDup (clicks e cs).
Proof.
  induction cs as [| c rest IH]; intros e Hall He Hnd.
  - split; assumption.
  - inversion Hall as [| ? ? Hc Hrest]; subst.
    destruct (click_keeps_sections e c Hc He Hnd) as [He' Hnd'].
    exact (IH (click e c) Hrest He' Hnd').
Qed.

End NavClicks.

Section NavRendering.
Import Nav.

Lemma navigation_rows_only (active : string) (e : list string) (c : string) :
  In c (map row_id (renderNav active e navigationItems)) ->
  In c (map item_id navigationItems)
  \/ exists i, In i navigationItems
               /\ Filters.includes e (item_id i) = true
               /\ In c (map item_id (item_children i)).
Proof.
  intros Hin. apply in_map_iff in Hin. destruct Hin as [r [<- Hr]].
  unfold renderNav in Hr. apply in_flat_map in Hr.
  destruct Hr as [i [Hi Hr]].
  unfold navigationItems in Hi. simpl in Hi.
  destruct Hi as [<- | [<- | [<- | [<- | []]]]];
    cbn [renderNavItem leaf hasChildren item_children andb] in Hr;
    destruct Hr as [<- | Hr]; try (left; simpl; tauto);
    try contradiction.
  - destruct (Filters.includes e "monitor") eqn:He; [| contradiction].
    right. eexists. split; [simpl; right; left; reflexivity |].
    split; [exact He |]. simpl in Hr. simpl.
    intuition (subst; simpl; auto).
  - destruct (Filters.includes e "automate") eqn:He; [| contradiction].
    right. eexists. split; [simpl; right; right; left; reflexivity |].
    split; [exact He |]. simpl in Hr. simpl.
    intuition (subst; simpl; auto).
  - destruct (Filters.includes e "analytics") eqn:He; [| contradiction].
    right. eexists.
    split; [simpl; right; right; right; left; reflexivity |].
    split; [exact He |]. simpl in Hr. simpl.
    intuition (subst; simpl; auto).
Qed.

End NavRendering.

(** X6: what the navigation sidebar draws.  The button of every
    top-level item is drawn whatever is expanded, and with nothing
    expanded these are the only buttons; for the sidebar's own items, a
    button is drawn exactly when it is a top-level item or a child of
    an expanded section; each button is marked active exactly when its
    id is the active section, so under the layout's default only
    "overview" ever is. *)
Theorem navigation_rows :
  forall (active : string) (expanded : list string) (items : list Nav.NavItem),
    (forall i, In i items ->
       In (Nav.item_id i) (map Nav.row_id (Nav.renderNav active expanded items)))
    /\ map Nav.row_id (Nav.renderNav active [] items) = map Nav.item_id items
    /\ (forall c,
          In c (map Nav.row_id
                  (Nav.renderNav active expanded Nav.navigationItems))
          <-> (In c (map Nav.item_id Nav.navigationItems)
               \/ exists i, In i Nav.navigationItems
                            /\ Filters.includes expanded (Nav.item_id i) = true
                            /\ In c (map Nav.item_id (Nav.item_children i))))
    /\ (forall r, In r (Nav.renderNav active expanded items) ->
          (Nav.isActive r = true <-> Nav.row_id r = active))
    /\ (forall r,
          In r (Nav.renderNav Nav.defaultActiveSection expanded
                  Nav.navigationItems) ->
          (Nav.isActive r = true <-> Nav.row_id r = "overview")).
Proof.
  intros active expanded items.
  split; [intros i; apply renderNav_top_level |].
  split; [apply renderNav_collapsed |].
  split.
  { intros c. split; [apply navigation_rows_only |].
    intros [Htop | [i [Hi [He Hc]]]].
    - apply in_map_iff in Htop. destruct Htop as [i [<- Hi]].
      apply renderNav_top_level. exact Hi.
    - apply in_map_iff in Hc. destruct Hc as [ch [<- Hch]].
      apply (renderNav_children active expanded _ i ch Hi Hch He). }
  split.
  - intros r Hr.
    destruct (renderNav_flags active expanded items r Hr) as [Ha _].
    rewrite Ha, String.eqb_eq. split; congruence.
  - intros r Hr.
    destruct (renderNav_flags _ expanded _ r Hr) as [Ha _].
    rewrite Ha, String.eqb_eq. unfold Nav.defaultActiveSection.
    split; congruence.
Qed.

(** X7: clicks on the navigation.  A click on an item with children
    toggles that section and selects nothing; a click on an item
    without children leaves the expanded sections as they are.  Hence,
    starting from the initial state (only "monitor" expanded), after any
    run of clicks on items of the navigation the expanded list holds
    only ids of sections ("monitor", "automate", "analytics"), each at
    most once. *)
Theorem navigation_clicks :
  forall (clicked : list Nav.NavItem),
    Forall (fun c => In c Nav.allItems) clicked ->
    let e := Nav.clicks Nav.initialExpanded clicked in
    incl e Nav.sectionIds
    /\ NoDup e
    /\ (forall e0 i, Nav.hasChildren i = true ->
          Nav.handleItemClick e0 (Nav.item_id i) (Nav.hasChildren i)
          = (Filters.toggle e0 (Nav.item_id i), None))
    /\ (forall e0 i, Nav.hasChildren i = false ->
          Nav.handleItemClick e0 (Nav.item_id i) (Nav.hasChildren i)
          = (e0, Some (Nav.item_id i))).
Proof.
  intros clicked Hall e.
  assert (H : incl e Nav.sectionIds /\ NoDup e).
  { apply clicks_keep_sections; [exact Hall | |].
    - intros x [<- | []]. simpl. tauto.
    - repeat constructor. simpl. tauto. }
  destruct H as [Hincl Hnd].
  split; [exact Hincl |]. split; [exact Hnd |].
  split; [intros e0 i; apply click_section | intros e0 i; apply click_leaf].
Qed.

(** X7 at a concrete input: opening "automate", visiting a leaf and
    closing "monitor" leaves exactly "automate" expanded. *)
Lemma navigation_clicks_witness :
  Nav.clicks Nav.initialExpanded
    [ Nav.Item "automate" "AUTOMATE" "Bot" None
        [ Nav.leaf "auto-replies" "Auto-Replies" "MessageSquare" None;
          Nav.leaf "moderation" "Content Moderation" "Shield" None;
          Nav.leaf "rules" "Business Rules" "Settings" None;
          Nav.leaf "history" "Action History" "Activity" None ];
      Nav.leaf "toxicity" "Toxicity Detection" "Shield" (Some "3");
      nth 1 Nav.navigationItems (Nav.leaf "x" "x" "x" None) ]
  = ["automate"]
  /\ incl ["automate"] Nav.sectionIds.
Proof.
  split; [reflexivity |].
  refine (proj1 (navigation_clicks
            [ Nav.Item "automate" "AUTOMATE" "Bot" None
                [ Nav.leaf "auto-replies" "Auto-Replies" "MessageSquare" None;
                  Nav.leaf "moderation" "Content Moderation" "Shield" None;
                  Nav.leaf "rules" "Business Rules" "Settings" None;
                  Nav.leaf "history" "Action History" "Activity" None ];
              Nav.leaf "toxicity" "Toxicity Detection" "Shield" (Some "3");
              nth 1 Nav.navigationItems (Nav.leaf "x" "x" "x" None) ] _)).
  repeat constructor; simpl; tauto.
Defined.

(** ** Text cut for display *)

Section CodeUnitFacts.

Lemma cut_short (n : nat) (s : Js.JsString) :
  (List.length s <= n)%nat -> Feed.cut n s = s.
Proof.
  intros H. unfold Feed.cut.
  destruct (Nat.ltb_spec n (List.length s)); [lia | reflexivity].
Qed.

Lemma cut_long (n : nat) (s : Js.JsString) :
  (n < List.length s)%nat ->
  Feed.cut n s = (firstn n s ++ [46; 46; 46]%N)%list
  /\ List.length (Feed.cut n s) = (n + 3)%nat.
Proof.
  intros H. unfold Feed.cut, Js.substring0.
  destruct (Nat.ltb_spec n (List.length s)); [| lia].
  split; [reflexivity |].
  rewrite length_app, length_firstn. simpl. lia.
Qed.

Lemma slice_last_length (n : nat) (s : Js.JsString) :
  List.length (Js.slice_last n s) = Nat.min n (List.length s).
Proof. unfold Js.slice_last. rewrite length_skipn. lia. Qed.

Lemma slice_last_suffix (n : nat) (s : Js.JsString) :
  s = (firstn (List.length s - n) s ++ Js.slice_last n s)%list.
Proof. unfold Js.slice_last. symmetry. apply firstn_skipn. Qed.

Lemma slice_last_short (n : nat) (s : Js.JsString) :
  (List.length s <= n)%nat -> Js.slice_last n s = s.
Proof.
  intros H. unfold Js.slice_last.
  replace (List.length s - n)%nat with 0%nat by lia. reflexivity.
Qed.

(** A text of ASCII characters has one code unit per character. *)
Lemma utf16_ascii (t : string) :
  Forall (fun c => (N_of_ascii c < 128)%N) (list_ascii_of_string t) ->
  Js.utf16 t = map N_of_ascii (list_ascii_of_string t).
Proof.
  induction t as [| c t IH]; intros H; [reflexivity |].
  simpl in H. inversion H as [| ? ? Hc Ht]; subst.
  cbn [Js.utf16 list_ascii_of_string map].
  destruct (N.ltb_spec (N_of_ascii c) 128) as [_ | Hge]; [| lia].
  rewrite (IH Ht). reflexivity.
Qed.

End CodeUnitFacts.

(** X8: the texts the lists cut for display, counted as JavaScript
    counts them, in UTF-16 code units.  A text of at most [n] code units
    is shown whole; a longer one is shown as its first [n] code units
    followed by "...", so what is shown never exceeds [n + 3] code units
    and always starts with a prefix of the text.  The comment list cuts
    the comment's text at 150, the activity feed the message at 80 (and
    shows nothing for an empty message).  The last [n] code units of a
    string are a suffix of it, [n] long or the whole string when it is
    shorter; the feed refers to a comment by "#" and the last 8 code
    units of its id.  A text of ASCII characters has one code unit per
    character. *)
Theorem shown_text_is_bounded :
  forall (n : nat) (s : Js.JsString),
    ((List.length s <= n)%nat -> Feed.cut n s = s)
    /\ ((n < List.length s)%nat ->
        Feed.cut n s = (firstn n s ++ [46; 46; 46]%N)%list
        /\ List.length (Feed.cut n s) = (n + 3)%nat)
    /\ (List.length (Feed.cut n s) <= n + 3)%nat
    /\ (exists rest, s = (firstn n s ++ rest)%list)
    /\ (forall t, Views.shown_text t = Feed.cut 150 (Js.utf16 t))
    /\ (forall t,
          Feed.excerpt (Some t)
          = if String.eqb t EmptyString then None
            else Some (Feed.cut 80 (Js.utf16 t)))
    /\ List.length (Js.slice_last n s) = Nat.min n (List.length s)
    /\ (exists front, s = (front ++ Js.slice_last n s)%list)
    /\ ((List.length s <= n)%nat -> Js.slice_last n s = s)
    /\ (forall fmt isLast a,
          Feed.comment_ref (Feed.activityRow fmt isLast a)
          = (35%N :: Js.slice_last 8 (Js.utf16 (Types.log_comment_id a)))%list)
    /\ (forall t,
          Forall (fun c => (N_of_ascii c < 128)%N) (list_ascii_of_string t) ->
          Js.utf16 t = map N_of_ascii (list_ascii_of_string t)
          /\ List.length (Js.utf16 t) = String.length t).
Proof.
  intros n s.
  split; [apply cut_short |]. split; [apply cut_long |].
  split.
  { destruct (Nat.le_gt_cases (List.length s) n) as [Hle | Hgt].
    - rewrite (cut_short n s Hle). lia.
    - destruct (cut_long n s Hgt) as [_ Hl]. lia. }
  split; [exists (skipn n s); symmetry; apply firstn_skipn |].
  split; [reflexivity |].
  split; [reflexivity |].
  split; [apply slice_last_length |].
  split; [eexists; apply slice_last_suffix |].
  split; [apply slice_last_short |].
  split; [reflexivity |].
  intros t Hascii. split; [apply utf16_ascii; exact Hascii |].
  rewrite (utf16_ascii t Hascii), length_map.
  clear Hascii. induction t as [| c t IH]; simpl; [reflexivity | rewrite IH; reflexivity].
Qed.

(** X8 at concrete inputs: a comment id longer than 8 is referred to by
    its last 8 code units; a 5-unit text cut at 3; fifty times "é" are
    fifty code units and are shown whole by the feed's cut at 80; an
    emoji counts for two. *)
Lemma shown_text_is_bounded_witness :
  Js.slice_last 8 (Js.utf16 "comment_003") = Js.utf16 "ment_003"
  /\ Feed.cut 3 (Js.utf16 "hello") = Js.utf16 "hel..."
  /\ Feed.cut 5 (Js.utf16 "hello") = Js.utf16 "hello"
  /\ Feed.cut 80 (Js.utf16 "éééééééééééééééééééééééééééééééééééééééééééééééééé")
     = repeat 233%N 50
  /\ Js.utf16 "😍" = [55357; 56845]%N.
Proof.
  split; [reflexivity |].
  pose proof (shown_text_is_bounded 3 (Js.utf16 "hello")) as [_ [Hlong _]].
  pose proof (shown_text_is_bounded 5 (Js.utf16 "hello")) as [Hshort _].
  pose proof (shown_text_is_bounded 80
                (Js.utf16 "éééééééééééééééééééééééééééééééééééééééééééééééééé"))
    as [Hwhole _].
  split; [destruct Hlong as [Hcut _]; [simpl; lia | exact Hcut] |].
  split; [apply Hshort; simpl; lia |].
  split; [rewrite Hwhole; [reflexivity | vm_compute; lia] | reflexivity].
Defined.

(** ** The activity feed *)

Section FeedProperties.
Import Types Feed.

Variable fmt : string -> string.

Lemma activityRows_nth (activities : list ActivityLog) :
  forall k a,
    nth_error activities k = Some a ->
    nth_error (activityRows fmt activities) k
    = Some (activityRow fmt (Nat.eqb k (List.length activities - 1)) a).
Proof.
  induction activities as [| x rest IH]; intros k a Hk.
  - destruct k; discriminate.
  - destruct rest as [| y rest'].
    + destruct k as [| k]; [| destruct k; discriminate].
      simpl in Hk. inversion Hk. subst. reflexivity.
    + destruct k as [| k].
      * simpl in Hk. inversion Hk. subst. reflexivity.
      * change (activityRows fmt (x :: y :: rest'))
          with (activityRow fmt false x :: activityRows fmt (y :: rest')).
        cbn [nth_error]. rewrite (IH k a Hk).
        replace (List.length (x :: y :: rest') - 1)%nat
          with (S (List.length (y :: rest') - 1)) by (simpl; lia).
        reflexivity.
Qed.

Lemma activityRows_length (activities : list ActivityLog) :
  List.length (activityRows fmt activities) = List.length activities.
Proof.
  induction activities as [| x rest IH]; [reflexivity |].
  destruct rest as [| y rest']; [reflexivity |].
  change (activityRows fmt (x :: y :: rest'))
    with (activityRow fmt false x :: activityRows fmt (y :: rest')).
  cbn [List.length]. rewrite IH. reflexivity.
Qed.

Lemma activityRows_keys (activities : list ActivityLog) :
  map key (activityRows fmt activities) = map log_id activities.
Proof.
  induction activities as [| x rest IH]; [reflexivity |].
  destruct rest as [| y rest']; [reflexivity |].
  change (activityRows fmt (x :: y :: rest'))
    with (activityRow fmt false x :: activityRows fmt (y :: rest')).
  cbn [map]. rewrite IH. reflexivity.
Qed.

End FeedProperties.

(** X9: the rows of the activity feed.  The feed draws one row per
    activity, in order and keyed by the activity's id; the row at
    position [k] is drawn with the line that connects it to the next
    one exactly when it is not the last; the summary counts the
    activities it was given.  While loading the skeleton is shown
    whatever the list holds, and an empty list shows the empty notice. *)
Theorem activity_feed_rows :
  forall (fmt : string -> string) (activities : list Types.ActivityLog),
    List.length (Feed.activityRows fmt activities) = List.length activities
    /\ map Feed.key (Feed.activityRows fmt activities)
       = map Types.log_id activities
    /\ (forall k a,
          nth_error activities k = Some a ->
          exists r,
            nth_error (Feed.activityRows fmt activities) k = Some r
            /\ r = Feed.activityRow fmt
                     (Nat.eqb k (List.length activities - 1)) a
            /\ (Feed.connecting_line r = false
                <-> S k = List.length activities))
    /\ Feed.ActivityFeed fmt activities true = Feed.FeedSkeleton
    /\ (activities = [] ->
        Feed.ActivityFeed fmt activities false = Feed.NoRecentActivity)
    /\ (activities <> [] ->
        Feed.ActivityFeed fmt activities false
        = Feed.Rows (Feed.activityRows fmt activities)
            (List.length activities)).
Proof.
  intros fmt activities.
  split; [apply activityRows_length |].
  split; [apply activityRows_keys |].
  split.
  { intros k a Hk. eexists. split; [apply activityRows_nth; exact Hk |].
    split; [reflexivity |].
    assert (Hlt : (k < List.length activities)%nat).
    { apply nth_error_Some. congruence. }
    simpl. rewrite negb_false_iff, Nat.eqb_eq. lia. }
  split; [reflexivity |].
  split; [intros ->; reflexivity |].
  intros Hne. destruct activities; [congruence | reflexivity].
Qed.

(** X9 at a concrete input: of the five mock activities only the fifth
    is drawn without a connecting line. *)
Lemma activity_feed_rows_witness :
  map Feed.connecting_line (Feed.activityRows (fun t => t) Api.mockActivity)
  = [true; true; true; true; false]
  /\ exists r,
       nth_error (Feed.activityRows (fun t => t) Api.mockActivity) 4 = Some r
       /\ Feed.connecting_line r = false.
Proof.
  split; [reflexivity |].
  pose proof (activity_feed_rows (fun t => t) Api.mockActivity)
    as [_ [_ [Hnth _]]].
  destruct (Hnth 4%nat (nth 4 Api.mockActivity
                           (nth 0 Api.mockActivity
                              {| Types.log_id := EmptyString;
                                 Types.timestamp := EmptyString;
                                 Types.action_type := Types.reply_sent_t;
                                 Types.log_comment_id := EmptyString;
                                 Types.details :=
                                   {| Types.d_message := None;
                                      Types.d_reason := None;
                                      Types.d_confidence := None |} |}))
              eq_refl)
    as [r [Hr [_ Hline]]].
  exists r. split; [exact Hr |]. apply Hline. reflexivity.
Defined.

(** X10: the confidence bar of an activity.  A missing confidence draws
    nothing and a confidence of 0, being falsy, draws the bare number
    instead of a bar; any other confidence draws a bar as wide as the
    confidence, green from 90, yellow from 70 to 89, red below 70
    (negative values included).  A reply or a classification logged
    without a confidence is described with "undefined%". *)
Theorem confidence_bar_bands :
  forall (n : Z),
    Feed.confidenceView None = Feed.NoConfidence
    /\ (n = 0 -> Feed.confidenceView (Some n) = Feed.BareNumber 0)
    /\ (90 <= n -> Feed.confidenceView (Some n) = Feed.Bar "bg-green-500" n)
    /\ (70 <= n < 90 ->
        Feed.confidenceView (Some n) = Feed.Bar "bg-yellow-500" n)
    /\ (n < 70 -> n <> 0 ->
        Feed.confidenceView (Some n) = Feed.Bar "bg-red-500" n)
    /\ (forall a,
          Types.d_confidence (Types.details a) = None ->
          (Types.action_type a = Types.reply_sent_t ->
           Feed.getActivityDescription a
           = "Automated response sent with undefined% confidence")
          /\ (Types.action_type a = Types.classification_completed_t ->
              Feed.getActivityDescription a
              = "Analysis completed with undefined% confidence")).
Proof.
  intros n.
  split; [reflexivity |].
  split; [intros ->; reflexivity |].
  unfold Feed.confidenceView.
  split.
  { intros H. destruct (Z.eqb_spec n 0); [lia |].
    destruct (Z.leb_spec 90 n); [reflexivity | lia]. }
  split.
  { intros H. destruct (Z.eqb_spec n 0); [lia |].
    destruct (Z.leb_spec 90 n); [lia |].
    destruct (Z.leb_spec 70 n); [reflexivity | lia]. }
  split.
  { intros H Hnz. destruct (Z.eqb_spec n 0); [contradiction |].
    destruct (Z.leb_spec 90 n); [lia |].
    destruct (Z.leb_spec 70 n); [lia | reflexivity]. }
  intros a Hc. unfold Feed.getActivityDescription.
  split; intros Ht; rewrite Ht, Hc; reflexivity.
Qed.

(** X10 at concrete inputs: the confidences 95, 88 and 60, and 0. *)
Lemma confidence_bar_bands_witness :
  Feed.confidenceView (Some 95) = Feed.Bar "bg-green-500" 95
  /\ Feed.confidenceView (Some 88) = Feed.Bar "bg-yellow-500" 88
  /\ Feed.confidenceView (Some 60) = Feed.Bar "bg-red-500" 60
  /\ Feed.confidenceView (Some 0) = Feed.BareNumber 0.
Proof.
  pose proof (confidence_bar_bands 95) as [_ [_ [Hg _]]].
  pose proof (confidence_bar_bands 88) as [_ [_ [_ [Hy _]]]].
  pose proof (confidence_bar_bands 60) as [_ [_ [_ [_ [Hr _]]]]].
  pose proof (confidence_bar_bands 0) as [_ [Hz _]].
  split; [apply Hg; lia |]. split; [apply Hy; lia |].
  split; [apply Hr; lia |]. apply Hz. reflexivity.
Defined.

(** ** The overview page *)

Section OverviewProperties.
Import Types Js Overview.

Variable fmt : string -> string.
Variable net : forall T : Type, Request -> Promise (Response (ApiResponse T)).
Variable form_urlencode : string -> string.

Lemma append_empty (s : string) : s ++ EmptyString = s.
Proof. induction s as [| c s IH]; simpl; [reflexivity | rewrite IH; reflexivity]. Qed.

Lemma metricsQuery_resolves (self : Api.ApiService) (client : Client) :
  exists r, settled (metricsQuery net form_urlencode self client) = Resolved r.
Proof.
  unfold metricsQuery, Api.getDashboardMetrics.
  destruct (Api.useMock self); [eexists; reflexivity |].
  apply apiCall_resolves.
Qed.

Lemma settledOverview_page (self : Api.ApiService) (client : Client) :
  exists m c a,
    settledOverview fmt net form_urlencode self client
    = Page (name client) m c a.
Proof.
  unfold settledOverview, DashboardOverview.
  destruct (metricsQuery_resolves self client) as [r Hr]. rewrite Hr.
  simpl. eexists. eexists. eexists. reflexivity.
Qed.

Lemma overview_without_data (self : Api.ApiService) (client : Client)
    (r : ApiResponse DashboardMetrics) :
  settled (metricsQuery net form_urlencode self client) = Resolved r ->
  data r = None ->
  exists c a,
    settledOverview fmt net form_urlencode self client
    = Page (name client)
        (Views.Grid (Views.metricCards Views.zeroMetrics)
           (Views.performanceSummary Views.zeroMetrics))
        c a.
Proof.
  intros Hr Hd. unfold settledOverview, DashboardOverview.
  rewrite Hr. simpl. unfold Views.overviewMetrics. rewrite Hd.
  eexists. eexists. reflexivity.
Qed.

End OverviewProperties.

Lemma zero_metrics_subtitles :
  map Views.subtitle (Views.metricCards Views.zeroMetrics)
  = ["Last 30 days"; "NaN% of total"; "NaN% of total";
     "NaN% automation rate"; "Toxic content blocked";
     "High-priority issues"].
Proof. vm_compute. reflexivity. Qed.

(** X11: the overview page never shows its error screen.  The page
    shows "Error Loading Dashboard" only when the metrics query failed,
    and the query function never rejects, so with a client selected the
    settled page is always the dashboard itself.  When the metrics
    answer carries no data (as the error answers [apiCall] builds do)
    the grid is drawn from a record of zeros, whose percentage
    subtitles read "NaN%"; with the network down, in production, the
    page shows that grid, the empty comments notice and the empty
    activity notice.  The page's three requests carry the client's id,
    never a date range: the metrics URL ends in a bare "?". *)
Theorem overview_never_shows_error :
  forall (fmt : string -> string)
         (net : forall T : Type,
             Js.Request -> Js.Promise (Js.Response (Types.ApiResponse T)))
         (form_urlencode : string -> string)
         (self : Api.ApiService) (client : Types.Client),
    (exists m c a,
        Overview.settledOverview fmt net form_urlencode self client
        = Overview.Page (Types.name client) m c a)
    /\ (forall r,
          Js.settled (Overview.metricsQuery net form_urlencode self client)
          = Js.Resolved r ->
          Types.data r = None ->
          exists c a,
            Overview.settledOverview fmt net form_urlencode self client
            = Overview.Page (Types.name client)
                (Views.Grid (Views.metricCards Views.zeroMetrics)
                   (Views.performanceSummary Views.zeroMetrics))
                c a)
    /\ map Views.subtitle (Views.metricCards Views.zeroMetrics)
       = ["Last 30 days"; "NaN% of total"; "NaN% of total";
          "NaN% automation rate"; "Toxic content blocked";
          "High-priority issues"]
    /\ Overview.settledOverview fmt net_down form_urlencode
         (Api.apiService true) client
       = Overview.Page (Types.name client)
           (Views.Grid (Views.metricCards Views.zeroMetrics)
              (Views.performanceSummary Views.zeroMetrics))
           Views.NoRecentComments Feed.NoRecentActivity
    /\ map Js.url
         (Js.issued (Overview.metricsQuery net form_urlencode
                       (Api.apiService true) client)
          ++ Js.issued (Overview.commentsQuery net (Api.apiService true) client)
          ++ Js.issued (Overview.activityQuery net (Api.apiService true) client))
       = [ Api.API_BASE_URL true ++ "/metrics/" ++ Types.id client ++ "?";
           Api.API_BASE_URL true ++ "/comments/recent/" ++ Types.id client
             ++ "?limit=10";
           Api.API_BASE_URL true ++ "/activity/" ++ Types.id client
             ++ "?limit=10" ].
Proof.
  intros fmt net form_urlencode self client.
  split; [apply settledOverview_page |].
  split; [intros r; apply overview_without_data |].
  split; [apply zero_metrics_subtitles |].
  split; [reflexivity |].
  unfold Overview.metricsQuery, Overview.commentsQuery, Overview.activityQuery,
    Api.getDashboardMetrics, Api.getRecentComments, Api.getActivityLog.
  cbn [Api.apiService Api.useMock Api.USE_MOCK_DATA negb].
  rewrite !apiCall_issues_one. cbn [app map Api.request_of Js.url].
  cbn [Api.metrics_query Api.baseUrl]. rewrite append_empty. reflexivity.
Qed.

(** ** The single-file dashboard's time format *)

Section TimeProperties.

Variable Date_parse : string -> Z.

Lemma minutes_then_hours (d : Z) : d / (1000 * 60) / 60 = d / 3600000.
Proof. rewrite Z.div_div by lia. reflexivity. Qed.

Lemma minutes_then_days (d : Z) : d / (1000 * 60) / 1440 = d / 86400000.
Proof. rewrite Z.div_div by lia. reflexivity. Qed.

Lemma minutes_below (d k : Z) :
  0 < k -> (d / (1000 * 60) <? k) = (d <? k * 60000).
Proof.
  intros Hk. change (1000 * 60) with 60000.
  destruct (Z.ltb_spec (d / 60000) k) as [H | H];
    destruct (Z.ltb_spec d (k * 60000)) as [H' | H']; try reflexivity.
  - assert (k <= d / 60000) by (apply Z.div_le_lower_bound; lia). lia.
  - assert (d / 60000 < k) by (apply Z.div_lt_upper_bound; lia). lia.
Qed.

End TimeProperties.

(** X12: the age of a comment in the single-file dashboard.  With [d]
    the milliseconds from the comment's time to now, an age under one
    hour is shown in whole minutes (0 to 59), an age from one hour and
    under one day in whole hours (1 to 23), and a longer one in whole
    days (1 or more), always rounded down.  A comment dated in the
    future is shown in minutes with a negative count. *)
Theorem formatTimeAgo_units :
  forall (Date_parse : string -> Z) (now : Z) (dateString : string),
    let d := now - Date_parse dateString in
    let shown := AppView.formatTimeAgo Date_parse now dateString in
    (d < 3600000 ->
     shown = Js.number_to_string (d / 60000) ++ "m ago")
    /\ (0 <= d < 3600000 -> 0 <= d / 60000 < 60)
    /\ (d < 0 -> d / 60000 < 0)
    /\ (3600000 <= d < 86400000 ->
        shown = Js.number_to_string (d / 3600000) ++ "h ago"
        /\ 1 <= d / 3600000 < 24)
    /\ (86400000 <= d ->
        shown = Js.number_to_string (d / 86400000) ++ "d ago"
        /\ 1 <= d / 86400000).
Proof.
  intros Date_parse now dateString d shown.
  unfold shown, AppView.formatTimeAgo. fold d.
  rewrite (minutes_below d 60) by lia.
  rewrite (minutes_below d 1440) by lia.
  rewrite minutes_then_hours, minutes_then_days.
  change (60 * 60000) with 3600000. change (1440 * 60000) with 86400000.
  split.
  { intros H. destruct (Z.ltb_spec d 3600000); [reflexivity | lia]. }
  split.
  { intros H. split.
    - apply Z.div_pos; lia.
    - apply Z.div_lt_upper_bound; lia. }
  split.
  { intros H. apply Z.div_lt_upper_bound; lia. }
  split.
  { intros H. destruct (Z.ltb_spec d 3600000); [lia |].
    destruct (Z.ltb_spec d 86400000); [| lia].
    split; [reflexivity |]. split.
    - apply Z.div_le_lower_bound; lia.
    - apply Z.div_lt_upper_bound; lia. }
  intros H. destruct (Z.ltb_spec d 3600000); [lia |].
  destruct (Z.ltb_spec d 86400000); [lia |].
  split; [reflexivity |]. apply Z.div_le_lower_bound; lia.
Qed.

(** X12 at concrete inputs (a comment dated at millisecond 1000): 4
    hours, 59 minutes 59 seconds, 3 days, and 5 minutes ahead. *)
Lemma formatTimeAgo_units_witness :
  let parse := fun _ : string => 1000 in
  AppView.formatTimeAgo parse (1000 + 4 * 3600000) "t" = "4h ago"
  /\ AppView.formatTimeAgo parse (1000 + 3599000) "t" = "59m ago"
  /\ AppView.formatTimeAgo parse (1000 + 3 * 86400000) "t" = "3d ago"
  /\ AppView.formatTimeAgo parse (1000 - 300000) "t" = "-5m ago".
Proof.
  intros parse.
  pose proof (formatTimeAgo_units parse (1000 + 4 * 3600000) "t")
    as [_ [_ [_ [Hh _]]]].
  pose proof (formatTimeAgo_units parse (1000 + 3599000) "t") as [Hm _].
  pose proof (formatTimeAgo_units parse (1000 + 3 * 86400000) "t")
    as [_ [_ [_ [_ Hd]]]].
  pose proof (formatTimeAgo_units parse (1000 - 300000) "t") as [Hf _].
  split; [apply Hh; vm_compute; split; [discriminate | reflexivity] |].
  split; [apply Hm; vm_compute; reflexivity |].
  split; [apply Hd; vm_compute; discriminate |].
  apply Hf. vm_compute. reflexivity.
Defined.

(** ** Deployed functions, their log groups and alarms *)

Section FunctionNames.
Import Functions.

Lemma In_includes (xs : list string) (v : string) :
  In v xs <-> Filters.includes xs v = true.
Proof. symmetry. apply includes_In. Qed.

Lemma function_log_group (f : string) :
  In f functions ->
  (In (log_group_of (aws_function_name f))
      (map log_group_name (lambda_logs Infra.default_vars))
   <-> In f ["reply-handler"; "hide-handler"; "escalation-handler";
             "dashboard-api"]).
Proof.
  intros Hin. rewrite !In_includes. unfold functions in Hin. simpl in Hin.
  destruct Hin as [<- | [<- | [<- | [<- | [<- | [<- | []]]]]]];
    vm_compute; split; congruence.
Qed.

Lemma function_alarm (f : string) :
  In f functions ->
  (In (aws_function_name f)
      (map dimension_FunctionName (lambda_errors Infra.default_vars))
   <-> In f ["reply-handler"; "hide-handler"; "escalation-handler"]).
Proof.
  intros Hin. rewrite !In_includes. unfold functions in Hin. simpl in Hin.
  destruct Hin as [<- | [<- | [<- | [<- | [<- | [<- | []]]]]]];
    vm_compute; split; congruence.
Qed.

End FunctionNames.

(** X13: which deployed functions the provisioned log groups and error
    alarms reach (under the default variables).  A function deployed
    from directory [f] is named [orm-platform-f-dev] and logs to
    [/aws/lambda/orm-platform-f-dev]; a log group with that name is
    provisioned exactly for the reply, hide and escalation handlers and
    the dashboard API, and an error alarm watches that function name
    exactly for the three handlers: the ingestion and classification
    functions are deployed under names ("...-function") that neither a
    log group nor an alarm carries.  The dashboard API's integrations
    name the deployed dashboard function. *)
Theorem deployed_functions_monitoring :
  forall (f : string),
    In f Functions.functions ->
    (In (Functions.log_group_of (Functions.aws_function_name f))
        (map Functions.log_group_name
           (Functions.lambda_logs Infra.default_vars))
     <-> In f ["reply-handler"; "hide-handler"; "escalation-handler";
               "dashboard-api"])
    /\ (In (Functions.aws_function_name f)
           (map Functions.dimension_FunctionName
              (Functions.lambda_errors Infra.default_vars))
        <-> In f ["reply-handler"; "hide-handler"; "escalation-handler"])
    /\ Functions.api_function Infra.default_vars
       = Functions.aws_function_name "dashboard-api".
Proof.
  intros f Hin.
  split; [apply function_log_group; exact Hin |].
  split; [apply function_alarm; exact Hin | reflexivity].
Qed.

(** X13 at concrete inputs: the reply handler is watched, the
    classification function is not. *)
Lemma deployed_functions_monitoring_witness :
  In "orm-platform-reply-handler-dev"
     (map Functions.dimension_FunctionName
        (Functions.lambda_errors Infra.default_vars))
  /\ ~ In "orm-platform-classification-function-dev"
         (map Functions.dimension_FunctionName
            (Functions.lambda_errors Infra.default_vars)).
Proof.
  pose proof (deployed_functions_monitoring "reply-handler") as Hr.
  pose proof (deployed_functions_monitoring "classification-function") as Hc.
  split.
  - destruct Hr as [_ [Ha _]]; [simpl; tauto |].
    apply Ha. simpl. tauto.
  - destruct Hc as [_ [Ha _]]; [simpl; tauto |].
    intros Hin. apply Ha in Hin. simpl in Hin.
    destruct Hin as [H | [H | [H | []]]]; discriminate.
Defined.

